(** * Offline record synchronisation: sync queue and delivery engine

    A shallow embedding of the synchronisation code of the battlefield
    medical assistant:

    - [OfflineDB]  : frontend/src/services/offlineDB.js (IndexedDB stores
                     [medical_records] and [sync_queue]);
    - [OfflineSync]: frontend/src/hooks/useOfflineSync.js ([attemptSync]);
    - [SyncManager]: the backend [SyncManager] class (in-memory queue,
                     [processSyncBatch], [forceSync], [clearQueue], ...);
    - [SyncManagerOps], [OfflineOps]: sequences of whole operations of
                     the two, and what they keep;
    - [SymptomsCache]: the symptoms cache of offlineDB.js, with [btoa];
    - [OfflineSave], [SyncHook]: [saveMedicalRecord] with its failure, and
                     [queueRecord] and [getSyncStats] of the hook.

    JavaScript numbers that the code only counts, compares, adds one to or
    subtracts are integers here ([Z]); dates are milliseconds ([Z]), and
    every [new Date()] is an explicit time argument or comes with the
    outcome of the call that precedes it. *)

From Stdlib Require Import ZArith List String Bool Lia Sorted Permutation.
Import ListNotations.
Open Scope string_scope.
Open Scope list_scope.
Open Scope Z_scope.

(** ** JavaScript array operations used by the code *)

Module JsArray.

Section Sort.
Context {A : Type}.
Variable cmp : A -> A -> Z.

(** [Array.prototype.sort(cmp)] is stable: with a consistent comparator its
    result is the one sorted permutation that keeps tied elements in their
    input order, whatever algorithm the engine runs.  It is computed here by
    insertion from the right: [x] stops before the first element it does
    not have to follow. *)
Fixpoint insert (x : A) (l : list A) : list A :=
  match l with
  | [] => [x]
  | y :: ys => if cmp x y <=? 0 then x :: y :: ys else y :: insert x ys
  end.

Definition sort (l : list A) : list A := fold_right insert [] l.
End Sort.

(** [arr.slice(0, n)]: a negative [n] counts from the end. *)
Definition slice0 {A : Type} (n : Z) (l : list A) : list A :=
  if n <? 0 then firstn (Z.to_nat (Z.of_nat (List.length l) + n)) l
  else firstn (Z.to_nat n) l.

(** [arr.splice(0, n)] with a count [n >= 0]: the removed prefix and what
    stays in the array. *)
Definition splice0 {A : Type} (n : nat) (l : list A) : list A * list A :=
  (firstn n l, skipn n l).

End JsArray.

(** ** offlineDB.js *)

Module OfflineDB.

(** What [saveMedicalRecord] and [calculateSyncPriority] read of a record
    handed in by the application.  [triageLevel] is [None] when the
    property is missing or not a string; [emergencyActions] is [None] when
    it is missing ([undefined] or [null]), otherwise the array. *)
Record RecordInput := {
  in_soldierId : string;
  in_triageLevel : option string;
  in_emergencyActions : option (list string)
}.

(** A row of the [medical_records] store (the [encrypted] copy of the
    input, an opaque string, is left out). *)
Record MedicalRecord := {
  rec_id : Z;
  rec_input : RecordInput;
  rec_synced : bool;
  rec_syncAttempts : Z;
  rec_syncPriority : Z;
  rec_lastSyncAttempt : option Z;
  rec_createdAt : Z;
  rec_updatedAt : Z
}.

(** A row of the [sync_queue] store. *)
Record QueueEntry := {
  q_id : Z;
  q_type : string;
  q_recordId : Z;
  q_priority : Z;
  q_timestamp : Z;
  q_attempts : Z;
  q_lastAttempt : option Z
}.

(** An object store with [keyPath: 'id', autoIncrement: true]: its rows in
    primary-key order, the key generator, and the names of its indexes. *)
Record Store (A : Type) := {
  rows : list A;
  nextKey : Z;
  indexNames : list string
}.
Arguments rows {A} _.
Arguments nextKey {A} _.
Arguments indexNames {A} _.

Record DB := {
  medical_records : Store MedicalRecord;
  sync_queue : Store QueueEntry
}.

Definition createObjectStore {A : Type} : Store A :=
  {| rows := []; nextKey := 1; indexNames := [] |}.

Definition createIndex {A : Type} (name : string) (s : Store A) : Store A :=
  {| rows := rows s; nextKey := nextKey s; indexNames := indexNames s ++ [name] |}.

(** [init] on a device without a database: the [upgrade] callback runs from
    version 0 and creates the stores of versions 1 and 4 (the stores of
    versions 2 and 3, [symptoms_cache] and [emergency_protocols], play no
    part in synchronisation).  On later calls [openDB] finds version 4 and
    [upgrade] does not run, so [init] leaves the database as it is. *)
Definition init : DB :=
  {| medical_records :=
       createIndex "emergencyMode" (createIndex "syncPriority"
         (createIndex "synced" (createIndex "triageLevel"
           (createIndex "timestamp" (createIndex "soldierId" createObjectStore)))));
     sync_queue :=
       createIndex "timestamp" (createIndex "priority" createObjectStore) |}.

(** [store.index(name)]: [None] stands for the [NotFoundError] that
    IndexedDB throws when the store has no index of that name. *)
Definition index {A : Type} (s : Store A) (name : string) : option (Store A) :=
  if existsb (String.eqb name) (indexNames s) then Some s else None.

(** The key path of the indexes of [sync_queue] the code opens. *)
Definition queueKey (name : string) (e : QueueEntry) : Z :=
  if String.eqb name "priority" then q_priority e
  else if String.eqb name "timestamp" then q_timestamp e
  else if String.eqb name "recordId" then q_recordId e
  else q_id e.

(** [index.getAll()]: all rows in index order, that is by index key and,
    for equal keys, by primary key. *)
Definition getAll {A : Type} (key : A -> Z) (s : Store A) : list A :=
  JsArray.sort (fun a b => key a - key b) (rows s).

(** [index.getAll(k)]: the rows whose index key is [k], by primary key. *)
Definition getAllEq {A : Type} (key : A -> Z) (k : Z) (s : Store A) : list A :=
  filter (fun a => key a =? k) (rows s).

(** [db.add(store, value)] with the key generator. *)
Definition add {A : Type} (mk : Z -> A) (s : Store A) : Z * Store A :=
  (nextKey s,
   {| rows := rows s ++ [mk (nextKey s)];
      nextKey := nextKey s + 1;
      indexNames := indexNames s |}).

Definition get {A : Type} (key : A -> Z) (s : Store A) (k : Z) : option A :=
  find (fun a => key a =? k) (rows s).

(** [db.put(store, value)]: the row with the value's key is replaced; a
    value with a new key goes to its place in key order. *)
Definition putRow {A : Type} (key : A -> Z) (v : A) (l : list A) : list A :=
  if existsb (fun a => key a =? key v) l
  then map (fun a => if key a =? key v then v else a) l
  else filter (fun a => key a <? key v) l ++ [v] ++
       filter (fun a => key v <? key a) l.

Definition put {A : Type} (key : A -> Z) (v : A) (s : Store A) : Store A :=
  {| rows := putRow key v (rows s);
     nextKey := Z.max (nextKey s) (key v + 1);
     indexNames := indexNames s |}.

(** [store.delete(k)]. *)
Definition delete {A : Type} (key : A -> Z) (k : Z) (s : Store A) : Store A :=
  {| rows := filter (fun a => negb (key a =? k)) (rows s);
     nextKey := nextKey s;
     indexNames := indexNames s |}.

(** [calculateSyncPriority(record)]. *)
Definition isTriage (t : option string) (name : string) : bool :=
  match t with
  | Some s => String.eqb s name
  | None => false
  end.

Definition hasEmergencyActions (a : option (list string)) : bool :=
  match a with
  | Some l => 0 <? Z.of_nat (List.length l)
  | None => false
  end.

Definition calculateSyncPriority (record : RecordInput) : Z :=
  if isTriage (in_triageLevel record) "IMMEDIATE" then 1
  else if hasEmergencyActions (in_emergencyActions record) then 1
  else if isTriage (in_triageLevel record) "DELAYED" then 2
  else 3.

(** [addToSyncQueue(type, recordId, priority)] at time [now]. *)
Definition addToSyncQueue (now : Z) (type : string) (recordId priority : Z)
    (db : DB) : DB :=
  {| medical_records := medical_records db;
     sync_queue :=
       snd (add (fun k => {| q_id := k; q_type := type; q_recordId := recordId;
                             q_priority := priority; q_timestamp := now;
                             q_attempts := 0; q_lastAttempt := None |})
                (sync_queue db)) |}.

(** A sequence of [addToSyncQueue('medical_record', recordId, priority)]
    calls for one record, each with its time and its priority. *)
Fixpoint addAllToSyncQueue (calls : list (Z * Z)) (recordId : Z) (db : DB) : DB :=
  match calls with
  | [] => db
  | (now, priority) :: calls' =>
      addAllToSyncQueue calls' recordId
        (addToSyncQueue now "medical_record" recordId priority db)
  end.

(** The queue entries of a record. *)
Definition entriesOf (recordId : Z) (db : DB) : list QueueEntry :=
  getAllEq q_recordId recordId (sync_queue db).

(** [saveMedicalRecord(record)] when it succeeds, with the clock at [now]
    throughout the call: the new record id and the database afterwards.
    [OfflineSave.saveMedicalRecord] below is the function with its failure
    (the encryption throws before anything is written) and its three clock
    reads; the two agree on this case ([saveMedicalRecord_in_full]). *)
Definition saveMedicalRecord (now : Z) (record : RecordInput) (db : DB) : Z * DB :=
  let priority := calculateSyncPriority record in
  let '(id, recs) :=
    add (fun k => {| rec_id := k; rec_input := record; rec_synced := false;
                     rec_syncAttempts := 0; rec_syncPriority := priority;
                     rec_lastSyncAttempt := None;
                     rec_createdAt := now; rec_updatedAt := now |})
        (medical_records db) in
  (id, addToSyncQueue now "medical_record" id priority
         {| medical_records := recs; sync_queue := sync_queue db |}).

(** [getMedicalRecords(soldierId)] as the sync path calls it, with the
    default options (no limit, no sort): the rows of the [soldierId] index
    for that soldier. *)
Definition soldierIdEqb (sid : string) (r : MedicalRecord) : bool :=
  String.eqb (in_soldierId (rec_input r)) sid.

Definition getMedicalRecords (soldierId : string) (db : DB) : list MedicalRecord :=
  match index (medical_records db) "soldierId" with
  | Some s => filter (soldierIdEqb soldierId) (rows s)
  | None => []
  end.

(** The comparator of [getPendingSyncItems] (and of
    [SyncManager.queueForSync]): priority, then timestamp. *)
Definition byPriorityThenTime {A : Type} (prio time : A -> Z) (a b : A) : Z :=
  if negb (prio a =? prio b) then prio a - prio b else time a - time b.

(** The order in which [getPendingSyncItems] lists entries: smaller priority
    first, then earlier timestamp. *)
Definition ranksBefore (a b : QueueEntry) : Prop :=
  q_priority a < q_priority b \/
  (q_priority a = q_priority b /\ q_timestamp a <= q_timestamp b).

(** [getPendingSyncItems(limit)]. *)
Definition getPendingSyncItems (limit : Z) (db : DB) : list QueueEntry :=
  match index (sync_queue db) "priority" with
  | Some s =>
      let items := getAll (queueKey "priority") s in
      JsArray.slice0 limit
        (JsArray.sort (byPriorityThenTime q_priority q_timestamp) items)
  | None => []
  end.

Definition setSynced (now : Z) (r : MedicalRecord) : MedicalRecord :=
  {| rec_id := rec_id r; rec_input := rec_input r; rec_synced := true;
     rec_syncAttempts := rec_syncAttempts r;
     rec_syncPriority := rec_syncPriority r;
     rec_lastSyncAttempt := rec_lastSyncAttempt r;
     rec_createdAt := rec_createdAt r; rec_updatedAt := now |}.

(** [markAsSynced(recordId)] at time [now].  The record is written first, by
    [db.put] in a transaction of its own; then a second transaction opens
    the [recordId] index of [sync_queue].  When the store has no such index
    the lookup throws, the [catch] logs the error, and the function returns
    with the record written and the queue as it was. *)
Definition markAsSynced (now : Z) (recordId : Z) (db : DB) : DB :=
  let db1 :=
    match get rec_id (medical_records db) recordId with
    | Some record =>
        {| medical_records := put rec_id (setSynced now record) (medical_records db);
           sync_queue := sync_queue db |}
    | None => db
    end in
  match index (sync_queue db1) "recordId" with
  | Some store =>
      let queueItems := getAllEq (queueKey "recordId") recordId store in
      {| medical_records := medical_records db1;
         sync_queue :=
           fold_left (fun s item => delete q_id (q_id item) s) queueItems store |}
  | None => db1
  end.

End OfflineDB.

(** ** useOfflineSync.js *)

Module OfflineSync.
Import OfflineDB.

(** What [simulateAPISync(record)] can do: resolve with [success: true] at
    some time, resolve without success, or throw. *)
Inductive ApiResult :=
| ApiSuccess (t : Z)
| ApiNoSuccess
| ApiThrows.

(** The state of the hook ([soldier] is the authenticated soldier's id, or
    [None] without authentication). *)
Record Hook := {
  syncStatus : string;
  queuedRecords : list QueueEntry;
  lastSync : option Z;
  isSyncing : bool;
  soldier : option string
}.

(** The state of one pass of [attemptSync]: the database, the ids of the
    records handed to the API so far, and the two counters. *)
Record Progress := {
  p_db : DB;
  p_calls : list Z;
  successCount : Z;
  errorCount : Z
}.

Definition noProgress (db : DB) : Progress :=
  {| p_db := db; p_calls := []; successCount := 0; errorCount := 0 |}.

(** The lookup of the full record of a queue item: among the records of the
    authenticated soldier, or among the emergency records. *)
Definition findRecord (h : Hook) (db : DB) (recordId : Z) : option MedicalRecord :=
  let owner := match soldier h with
               | Some s => s
               | None => "emergency-unknown"
               end in
  find (fun r => rec_id r =? recordId) (getMedicalRecords owner db).

(** The entry [e] is in the queue store, whose keys are distinct, and its
    record is not among the records the hook looks at. *)
Definition orphaned (h : Hook) (e : QueueEntry) (db : DB) : Prop :=
  In e (rows (sync_queue db)) /\
  NoDup (map q_id (rows (sync_queue db))) /\
  findRecord h db (q_recordId e) = None.

(** The body of the loop over [pendingItems].  [api n record] is the result
    of the API call made after [n] earlier calls of the pass. *)
Definition syncItem (api : nat -> MedicalRecord -> ApiResult) (h : Hook)
    (p : Progress) (item : QueueEntry) : Progress :=
  match findRecord h (p_db p) (q_recordId item) with
  | None => p
  | Some record =>
      let calls := p_calls p ++ [rec_id record] in
      match api (List.length (p_calls p)) record with
      | ApiSuccess t =>
          {| p_db := markAsSynced t (q_recordId item) (p_db p);
             p_calls := calls;
             successCount := successCount p + 1;
             errorCount := errorCount p |}
      | ApiNoSuccess | ApiThrows =>
          {| p_db := p_db p;
             p_calls := calls;
             successCount := successCount p;
             errorCount := errorCount p + 1 |}
      end
  end.

(** [attemptSync()], finishing at time [now]. *)
Definition attemptSync (api : nat -> MedicalRecord -> ApiResult) (now : Z)
    (h : Hook) (db : DB) : Hook * Progress :=
  if isSyncing h || negb (String.eqb (syncStatus h) "online")
  then (h, noProgress db)
  else
    let pendingItems := getPendingSyncItems 5 db in
    match pendingItems with
    | [] =>
        ({| syncStatus := syncStatus h; queuedRecords := queuedRecords h;
            lastSync := Some now; isSyncing := false; soldier := soldier h |},
         noProgress db)
    | _ =>
        let p := fold_left (syncItem api h) pendingItems (noProgress db) in
        ({| syncStatus := syncStatus h;
            queuedRecords := getPendingSyncItems 10 (p_db p);
            lastSync := Some now; isSyncing := false; soldier := soldier h |},
         p)
    end.

(** Passes of [attemptSync] in a row, each with its API behaviour and the
    time at which it finishes. *)
Fixpoint attemptSyncs (passes : list ((nat -> MedicalRecord -> ApiResult) * Z))
    (h : Hook) (db : DB) : Hook * DB :=
  match passes with
  | [] => (h, db)
  | (api, now) :: passes' =>
      let '(h', p) := attemptSync api now h db in
      attemptSyncs passes' h' (p_db p)
  end.

End OfflineSync.

(** ** SyncManager *)

Module SyncManager.

Inductive Status := queued | retrying | synced | failed.

(** The record object given to [queueForSync]: [r_id] is [record._id]
    ([None] when it is missing); [encryptedData] and [metadata] are opaque. *)
Record RecordData := {
  r_id : option Z;
  r_soldierId : string;
  r_encryptedData : string;
  r_metadata : string
}.

(** A document of the [MedicalRecord] collection, with the fields
    [syncSingleItem] writes. *)
Record Doc := {
  d_id : Z;
  d_soldierId : string;
  d_encryptedData : string;
  d_metadata : string;
  d_synced : bool;
  d_syncAttempts : Z;
  d_lastSyncAttempt : option Z;
  d_syncPriority : Z
}.

Record Collection := {
  docs : list Doc;
  nextId : Z
}.

Record SyncItem := {
  s_id : string;
  s_record : RecordData;
  s_priority : Z;
  s_attempts : Z;
  s_lastAttempt : option Z;
  s_timestamp : Z;
  s_status : Status;
  s_error : option string
}.

(** The object [logSyncFailure] builds and logs. *)
Record FailureLog := {
  f_syncItemId : string;
  f_recordId : option Z;
  f_soldierId : string;
  f_timestamp : Z;
  f_error : option string;
  f_attempts : Z;
  f_priority : Z
}.

(** The fields of the [SyncManager] instance; [syncInterval] is [true]
    while an interval timer is set. *)
Record Manager := {
  syncQueue : list SyncItem;
  isSyncing : bool;
  syncInterval : bool;
  maxRetries : Z;
  syncBatchSize : nat
}.

Definition constructor : Manager :=
  {| syncQueue := []; isSyncing := false; syncInterval := false;
     maxRetries := 3; syncBatchSize := 10 |}.

(** The manager with what it acts on: the document collection, the failure
    logs written so far, and the ids of the items handed to
    [syncSingleItem] so far, in order. *)
Record World := {
  manager : Manager;
  collection : Collection;
  failures : list FailureLog;
  calls : list string
}.

Definition newWorld : World :=
  {| manager := constructor;
     collection := {| docs := []; nextId := 1 |};
     failures := []; calls := [] |}.

(** The three counters of a pass. *)
Record Results := {
  successful : Z;
  failedCount : Z;
  retried : Z
}.

Definition noResults : Results :=
  {| successful := 0; failedCount := 0; retried := 0 |}.

(** How a call of [syncSingleItem] ends: it returns at time [t], or one of
    its database operations throws (connection lost, validation error, ...)
    and the [catch] of [processSyncBatch] runs at time [t]. *)
Inductive Outcome :=
| Delivered (t : Z)
| Threw (message : string) (t : Z).

Definition setQueue (q : list SyncItem) (m : Manager) : Manager :=
  {| syncQueue := q; isSyncing := isSyncing m; syncInterval := syncInterval m;
     maxRetries := maxRetries m; syncBatchSize := syncBatchSize m |}.

Definition setManager (m : Manager) (w : World) : World :=
  {| manager := m; collection := collection w;
     failures := failures w; calls := calls w |}.

Definition startSyncProcess (m : Manager) : Manager :=
  if isSyncing m then m
  else {| syncQueue := syncQueue m; isSyncing := true; syncInterval := true;
          maxRetries := maxRetries m; syncBatchSize := syncBatchSize m |}.

Definition stopSyncProcess (m : Manager) : Manager :=
  {| syncQueue := syncQueue m; isSyncing := false; syncInterval := false;
     maxRetries := maxRetries m; syncBatchSize := syncBatchSize m |}.

(** The order of [queueForSync]'s sort. *)
Definition itemRanksBefore (a b : SyncItem) : Prop :=
  s_priority a < s_priority b \/
  (s_priority a = s_priority b /\ s_timestamp a <= s_timestamp b).

(** [queueForSync(record, priority = 3)] at time [now]; [sid] is the id that
    [generateSyncId] makes from the clock and [Math.random]. *)
Definition queueForSync (sid : string) (now : Z) (record : RecordData)
    (priority : option Z) (m : Manager) : string * Manager :=
  let syncItem :=
    {| s_id := sid; s_record := record;
       s_priority := match priority with Some p => p | None => 3 end;
       s_attempts := 0; s_lastAttempt := None; s_timestamp := now;
       s_status := queued; s_error := None |} in
  let q := JsArray.sort (OfflineDB.byPriorityThenTime s_priority s_timestamp)
             (syncQueue m ++ [syncItem]) in
  (sid, startSyncProcess (setQueue q m)).

Definition findById (i : Z) (c : Collection) : option Doc :=
  find (fun d => d_id d =? i) (docs c).

(** The write of [syncSingleItem] when it succeeds at time [t]: an existing
    document is updated, otherwise a new one is saved. *)
Definition writeRecord (t : Z) (item : SyncItem) (c : Collection) : Collection :=
  let record := s_record item in
  let existingRecord :=
    match r_id record with
    | Some i => findById i c
    | None => None
    end in
  match existingRecord with
  | Some existing =>
      {| docs := map (fun d =>
                   if d_id d =? d_id existing
                   then {| d_id := d_id d; d_soldierId := d_soldierId d;
                           d_encryptedData := r_encryptedData record;
                           d_metadata := r_metadata record;
                           d_synced := true;
                           d_syncAttempts := d_syncAttempts existing + 1;
                           d_lastSyncAttempt := Some t;
                           d_syncPriority := d_syncPriority d |}
                   else d) (docs c);
         nextId := nextId c |}
  | None =>
      {| docs := docs c ++
                 [{| d_id := nextId c; d_soldierId := r_soldierId record;
                     d_encryptedData := r_encryptedData record;
                     d_metadata := r_metadata record;
                     d_synced := true; d_syncAttempts := 1;
                     d_lastSyncAttempt := Some t;
                     d_syncPriority := s_priority item |}];
         nextId := nextId c + 1 |}
  end.

(** The item as the retry branch of [processSyncBatch] leaves it. *)
Definition retryItem (t : Z) (item : SyncItem) : SyncItem :=
  {| s_id := s_id item; s_record := s_record item;
     s_priority := Z.min (s_priority item + 1) 1;
     s_attempts := s_attempts item + 1;
     s_lastAttempt := Some t;
     s_timestamp := s_timestamp item;
     s_status := retrying;
     s_error := s_error item |}.

(** The item as [handleSyncFailure] leaves it, and the log of
    [logSyncFailure]. *)
Definition failItem (message : string) (t : Z) (item : SyncItem) : SyncItem :=
  {| s_id := s_id item; s_record := s_record item;
     s_priority := s_priority item; s_attempts := s_attempts item;
     s_lastAttempt := Some t; s_timestamp := s_timestamp item;
     s_status := failed; s_error := Some message |}.

Definition logSyncFailure (t : Z) (item : SyncItem) : FailureLog :=
  {| f_syncItemId := s_id item;
     f_recordId := r_id (s_record item);
     f_soldierId := r_soldierId (s_record item);
     f_timestamp := t;
     f_error := s_error item;
     f_attempts := s_attempts item;
     f_priority := s_priority item |}.

(** The body of the loop of [processSyncBatch] for [item], given how its
    [syncSingleItem] call ends. *)
Definition processItem (o : Outcome) (item : SyncItem) (st : World * Results)
    : World * Results :=
  let '(w, res) := st in
  let m := manager w in
  let called := calls w ++ [s_id item] in
  match o with
  | Delivered t =>
      ({| manager := m; collection := writeRecord t item (collection w);
          failures := failures w; calls := called |},
       {| successful := successful res + 1; failedCount := failedCount res;
          retried := retried res |})
  | Threw message t =>
      if s_attempts item <? maxRetries m
      then
        ({| manager := setQueue (syncQueue m ++ [retryItem t item]) m;
            collection := collection w; failures := failures w;
            calls := called |},
         {| successful := successful res; failedCount := failedCount res;
            retried := retried res + 1 |})
      else
        ({| manager := m; collection := collection w;
            failures := failures w ++ [logSyncFailure t (failItem message t item)];
            calls := called |},
         {| successful := successful res; failedCount := failedCount res + 1;
            retried := retried res |})
  end.

(** The start of [processSyncBatch], up to the loop: on an empty queue the
    sync process is stopped and there is no batch; otherwise the batch is
    spliced off the front of the queue. *)
Definition claimBatch (w : World) : World * option (list SyncItem) :=
  let m := manager w in
  match syncQueue m with
  | [] => (setManager (stopSyncProcess m) w, None)
  | _ =>
      let '(batch, rest) := JsArray.splice0 (syncBatchSize m) (syncQueue m) in
      (setManager (setQueue rest m) w, Some batch)
  end.

(** [processSyncBatch()] run from its call to its return.  [deliver n item]
    is how the call of [syncSingleItem] on [item] ends when [n] calls were
    made before it. *)
Definition runBatch (deliver : nat -> SyncItem -> Outcome)
    (batch : list SyncItem) (st : World * Results) : World * Results :=
  fold_left (fun st item =>
               processItem (deliver (List.length (calls (fst st))) item) item st)
            batch st.

Definition processSyncBatch (deliver : nat -> SyncItem -> Outcome) (w : World)
    : World * option Results :=
  match claimBatch w with
  | (w', None) => (w', None)
  | (w', Some batch) =>
      let '(w'', res) := runBatch deliver batch (w', noResults) in
      (w'', Some res)
  end.

(** [forceSync()]. *)
Definition forceSync (deliver : nat -> SyncItem -> Outcome) (w : World)
    : World * option Results :=
  processSyncBatch deliver w.

(** [n] passes in a row. *)
Fixpoint passes (deliver : nat -> SyncItem -> Outcome) (n : nat) (w : World)
    : World :=
  match n with
  | O => w
  | S n' => passes deliver n' (fst (processSyncBatch deliver w))
  end.

(** [clearQueue()]. *)
Definition clearQueue (w : World) : World :=
  setManager (setQueue [] (manager w)) w.

(** [activateEmergencySync()], up to its call of [processSyncBatch]. *)
Definition escalateItem (item : SyncItem) : SyncItem :=
  {| s_id := s_id item; s_record := s_record item;
     s_priority := 1;
     s_attempts := s_attempts item; s_lastAttempt := s_lastAttempt item;
     s_timestamp := s_timestamp item; s_status := s_status item;
     s_error := s_error item |}.

Definition escalateAll (m : Manager) : Manager :=
  setQueue (JsArray.sort (fun a b => s_priority a - s_priority b)
              (map escalateItem (syncQueue m))) m.

Definition activateEmergencySync (deliver : nat -> SyncItem -> Outcome)
    (w : World) : World * option Results :=
  processSyncBatch deliver (setManager (escalateAll (manager w)) w).

(** [getQueuePriorityBreakdown()]: the object [{1: 0, 2: 0, 3: 0}] with one
    count added per item, as a list of keys and counts. *)
Fixpoint bump (p : Z) (b : list (Z * Z)) : list (Z * Z) :=
  match b with
  | [] => [(p, 1)]
  | (k, n) :: b' => if k =? p then (k, n + 1) :: b' else (k, n) :: bump p b'
  end.

Definition getQueuePriorityBreakdown (m : Manager) : list (Z * Z) :=
  fold_left (fun b item => bump (s_priority item) b) (syncQueue m)
            [(1, 0); (2, 0); (3, 0)].

Definition isSynced (item : SyncItem) : bool :=
  match s_status item with
  | synced => true
  | _ => false
  end.

Definition dateOf (d : option Z) : Z :=
  match d with
  | Some t => t
  | None => 0
  end.

(** [getLastSyncTime()]. *)
Definition getLastSyncTime (m : Manager) : option Z :=
  match syncQueue m with
  | [] => None
  | _ =>
      match JsArray.sort (fun a b => dateOf (s_lastAttempt b) - dateOf (s_lastAttempt a))
              (filter isSynced (syncQueue m)) with
      | [] => None
      | item :: _ => s_lastAttempt item
      end
  end.

(** [getSyncStatus()] (its [statistics] are the constant ['N/A'] strings). *)
Record SyncStatus := {
  st_isSyncing : bool;
  st_queueLength : Z;
  st_queuePriorities : list (Z * Z);
  st_lastSync : option Z
}.

Definition getSyncStatus (m : Manager) : SyncStatus :=
  {| st_isSyncing := isSyncing m;
     st_queueLength := Z.of_nat (List.length (syncQueue m));
     st_queuePriorities := getQueuePriorityBreakdown m;
     st_lastSync := getLastSyncTime m |}.

(** What can happen to an item while it is in the queue: a failed delivery
    that is retried at time [t], or an emergency escalation; and the
    priorities the item has, one after the other, under a list of them. *)
Inductive Event :=
| RetryAt (t : Z)
| Escalate.

Definition applyEvent (e : Event) (item : SyncItem) : SyncItem :=
  match e with
  | RetryAt t => retryItem t item
  | Escalate => escalateItem item
  end.

Fixpoint priorities (item : SyncItem) (events : list Event) : list Z :=
  s_priority item ::
  match events with
  | [] => []
  | e :: events' => priorities (applyEvent e item) events'
  end.

(** A delivery that fails every time. *)
Definition allThrow (deliver : nat -> SyncItem -> Outcome) : Prop :=
  forall n item, exists message t, deliver n item = Threw message t.

(** *** Passes that overlap

    [processSyncBatch] is an [async] function: it runs without interruption
    from its call to its first [await], and between two [await]s; while it
    waits for [syncSingleItem], other callbacks run.  A pass that is waiting
    holds the rest of its batch (the first of them is being delivered) and
    its counters.  The write of a delivery is placed at the moment its pass
    goes on; so are the entry of the item in the call log and the time its
    document is stamped with, although the code hands the item to
    [syncSingleItem], and [syncSingleItem] reads the clock, before it waits.
    The statements about passes that overlap rely on neither. *)
Record Pass := {
  pending : list SyncItem;
  results : Results
}.

Record Driver := {
  world : World;
  running : list Pass
}.

(** A call of [processSyncBatch] (from the timer, from [forceSync], from
    [activateEmergencySync]), up to its first [await]. *)
Definition startPass (d : Driver) : Driver :=
  match claimBatch (world d) with
  | (w, None) => {| world := w; running := running d |}
  | (w, Some []) => {| world := w; running := running d |}
  | (w, Some batch) =>
      {| world := w;
         running := running d ++ [{| pending := batch; results := noResults |}] |}
  end.

Definition forceSyncStart (d : Driver) : Driver := startPass d.

Definition timerTick (d : Driver) : Driver :=
  if syncInterval (manager (world d)) then startPass d else d.

Definition enqueue (sid : string) (now : Z) (record : RecordData)
    (priority : option Z) (d : Driver) : Driver :=
  {| world := setManager (snd (queueForSync sid now record priority
                                 (manager (world d)))) (world d);
     running := running d |}.

(** The [k]-th waiting pass gets the outcome [o] of its delivery, handles
    it, and goes on to its next item, or ends when there is none. *)
Definition resume (k : nat) (o : Outcome) (d : Driver) : Driver :=
  match nth_error (running d) k with
  | Some {| pending := item :: rest; results := res |} =>
      let '(w, res') := processItem o item (world d, res) in
      {| world := w;
         running :=
           firstn k (running d) ++
           match rest with
           | [] => []
           | _ => [{| pending := rest; results := res' |}]
           end ++ skipn (S k) (running d) |}
  | _ => d
  end.

(** The first waiting pass is given the outcomes of its deliveries, one
    after the other, [n] times, while nothing else happens. *)
Fixpoint runAlone (deliver : nat -> SyncItem -> Outcome) (n : nat) (d : Driver)
    : Driver :=
  match n with
  | O => d
  | S n' =>
      match running d with
      | {| pending := item :: _ |} :: _ =>
          runAlone deliver n'
            (resume 0 (deliver (List.length (calls (world d))) item) d)
      | _ => d
      end
  end.

(** [activateEmergencySync()] while passes may be waiting. *)
Definition emergencyStart (d : Driver) : Driver :=
  startPass {| world := setManager (escalateAll (manager (world d))) (world d);
               running := running d |}.

(** The items held by the passes that are waiting, and all items the
    manager holds: queued or in a waiting pass. *)
Definition inFlight (d : Driver) : list SyncItem :=
  flat_map pending (running d).

Definition heldItems (d : Driver) : list SyncItem :=
  syncQueue (manager (world d)) ++ inFlight d.

(** What can happen next to a driver: a call of [forceSync], a tick of the
    interval timer, an emergency activation, the end of a delivery some pass
    waits for, or a [queueForSync] (whose generated id is new). *)
Inductive step : Driver -> Driver -> Prop :=
| step_forceSync d : step d (forceSyncStart d)
| step_timer d : step d (timerTick d)
| step_emergency d : step d (emergencyStart d)
| step_resume d k o : step d (resume k o d)
| step_enqueue d sid now record priority :
    ~ In sid (map s_id (heldItems d)) ->
    step d (enqueue sid now record priority d).

Inductive steps : Driver -> Driver -> Prop :=
| steps_refl d : steps d d
| steps_next d d' d'' : steps d d' -> step d' d'' -> steps d d''.

End SyncManager.

(** ** SyncManager: whole operations, one after the other *)

Module SyncManagerOps.
Import SyncManager.

(** The calls that reach the manager: [queueForSync], a tick of the interval
    timer (which runs [processSyncBatch] while the timer is set),
    [forceSync], [activateEmergencySync] and [clearQueue].  Each one runs
    from its call to its return before the next one starts. *)
Inductive Op :=
| QueueForSync (sid : string) (now : Z) (record : RecordData) (priority : option Z)
| TimerTick (deliver : nat -> SyncItem -> Outcome)
| ForceSync (deliver : nat -> SyncItem -> Outcome)
| ActivateEmergencySync (deliver : nat -> SyncItem -> Outcome)
| ClearQueue.

Definition applyOp (w : World) (op : Op) : World :=
  match op with
  | QueueForSync sid now record priority =>
      setManager (snd (queueForSync sid now record priority (manager w))) w
  | TimerTick deliver =>
      if syncInterval (manager w) then fst (processSyncBatch deliver w) else w
  | ForceSync deliver => fst (forceSync deliver w)
  | ActivateEmergencySync deliver => fst (activateEmergencySync deliver w)
  | ClearQueue => clearQueue w
  end.

Definition runOps (ops : list Op) (w : World) : World :=
  fold_left applyOp ops w.

(** A delivery that succeeds every time. *)
Definition allDeliver (deliver : nat -> SyncItem -> Outcome) : Prop :=
  forall n item, exists t, deliver n item = Delivered t.

(** The sum of the counts of a priority breakdown. *)
Definition totalCount (b : list (Z * Z)) : Z :=
  fold_right (fun kn acc => snd kn + acc) 0 b.

(** The count a priority breakdown holds for priority [p] ([breakdown[p]],
    0 when the key is missing). *)
Definition countOf (p : Z) (b : list (Z * Z)) : Z :=
  match find (fun kn => fst kn =? p) b with
  | Some kn => snd kn
  | None => 0
  end.

(** What the manager keeps about attempts: the attempts of a queued item
    are between 0 and [maxRetries], and every failure log reports
    [maxRetries] attempts. *)
Definition attemptsBounded (w : World) : Prop :=
  0 <= maxRetries (manager w) /\
  Forall (fun i => 0 <= s_attempts i <= maxRetries (manager w)) (syncQueue (manager w)) /\
  Forall (fun f => f_attempts f = maxRetries (manager w)) (failures w).

(** No queued item has the status ['synced']. *)
Definition noneSynced (w : World) : Prop :=
  Forall (fun i => s_status i <> synced) (syncQueue (manager w)).

(** Queued work is served: while the queue is not empty, the interval timer
    is set. *)
Definition served (w : World) : Prop :=
  isSyncing (manager w) = syncInterval (manager w) /\
  (syncQueue (manager w) <> [] -> syncInterval (manager w) = true).

(** A document after a write, compared with the document before: it has the
    same id, and if it was synced it still is. *)
Definition keepsDoc (d d' : Doc) : Prop :=
  d_id d' = d_id d /\ (d_synced d = true -> d_synced d' = true).


End SyncManagerOps.

(** ** offlineDB.js and useOfflineSync.js: sequences of operations *)

Module OfflineOps.
Import OfflineDB OfflineSync.

(** The keys of an object store with a key generator: in ascending order,
    each one once, all below the next key the generator gives. *)
Definition keysInOrder {A : Type} (key : A -> Z) (s : Store A) : Prop :=
  StronglySorted Z.lt (map key (rows s)) /\
  Forall (fun a => key a < nextKey s) (rows s).

(** A database in which every queue entry belongs to a stored record and
    carries that record's priority, one of 1, 2 and 3. *)
Definition consistent (db : DB) : Prop :=
  keysInOrder rec_id (medical_records db) /\
  keysInOrder q_id (sync_queue db) /\
  Forall (fun e => In (q_priority e) [1; 2; 3] /\
                   exists r, In r (rows (medical_records db)) /\
                             rec_id r = q_recordId e /\
                             rec_syncPriority r = q_priority e)
    (rows (sync_queue db)).

(** A stored record and what a later state of the store holds for it: the
    same id, content, priority and creation time, the same (never updated)
    attempt count and last attempt, and [synced] still true if it was. *)
Definition keptRecord (r r' : MedicalRecord) : Prop :=
  rec_id r' = rec_id r /\
  rec_input r' = rec_input r /\
  rec_syncPriority r' = rec_syncPriority r /\
  rec_createdAt r' = rec_createdAt r /\
  rec_syncAttempts r' = rec_syncAttempts r /\
  rec_lastSyncAttempt r' = rec_lastSyncAttempt r /\
  (rec_synced r = true -> rec_synced r' = true).

(** The calls that change the database: [saveMedicalRecord],
    [markAsSynced], and a pass of the hook's [attemptSync]. *)
Inductive Op :=
| Save (now : Z) (record : RecordInput)
| MarkAsSynced (now : Z) (recordId : Z)
| AttemptSync (api : nat -> MedicalRecord -> ApiResult) (now : Z) (h : Hook).

Definition applyOp (db : DB) (op : Op) : DB :=
  match op with
  | Save now record => snd (saveMedicalRecord now record db)
  | MarkAsSynced now recordId => markAsSynced now recordId db
  | AttemptSync api now h => p_db (snd (attemptSync api now h db))
  end.

Definition runOps (ops : list Op) (db : DB) : DB := fold_left applyOp ops db.

(** An API that reports success for every record. *)
Definition allAccept (api : nat -> MedicalRecord -> ApiResult) : Prop :=
  forall n record, exists t, api n record = ApiSuccess t.

(** Whether the hook finds the record of an id. *)
Definition found (h : Hook) (db : DB) (k : Z) : bool :=
  match findRecord h db k with
  | Some _ => true
  | None => false
  end.

(** The state of a pass in which every record handed to the API so far is
    stored as synced and nothing was counted as an error. *)
Definition allMarked (p : Progress) : Prop :=
  errorCount p = 0 /\
  forall k, In k (p_calls p) ->
    exists r, get rec_id (medical_records (p_db p)) k = Some r /\ rec_synced r = true.

End OfflineOps.

(** ** offlineDB.js: the symptoms cache *)

From Stdlib Require Import Ascii.

Module SymptomsCache.

(** *** btoa

    A JavaScript string is given by its code units.  [btoa] throws an
    [InvalidCharacterError] when a code unit is above 255; otherwise it
    returns the base64 text of the bytes, padded with [=]. *)
Definition alphabet : list ascii :=
  list_ascii_of_string
    "ABCDEFGHIJKLMNOPQRSTUVWXYZabcdefghijklmnopqrstuvwxyz0123456789+/".

Definition sextet (n : Z) : ascii := nth (Z.to_nat n) alphabet "="%char.

Fixpoint encode (bytes : list Z) : list ascii :=
  match bytes with
  | [] => []
  | [a] =>
      [sextet (Z.shiftr a 2); sextet (Z.shiftl (Z.land a 3) 4); "="%char; "="%char]
  | [a; b] =>
      [sextet (Z.shiftr a 2);
       sextet (Z.lor (Z.shiftl (Z.land a 3) 4) (Z.shiftr b 4));
       sextet (Z.shiftl (Z.land b 15) 2);
       "="%char]
  | a :: b :: c :: rest =>
      sextet (Z.shiftr a 2)
      :: sextet (Z.lor (Z.shiftl (Z.land a 3) 4) (Z.shiftr b 4))
      :: sextet (Z.lor (Z.shiftl (Z.land b 15) 2) (Z.shiftr c 6))
      :: sextet (Z.land c 63)
      :: encode rest
  end.

Definition latin1 (s : list Z) : bool :=
  forallb (fun c => (0 <=? c) && (c <=? 255)) s.

Definition btoa (s : list Z) : option (list ascii) :=
  if latin1 s then Some (encode s) else None.

(** [items.join(sep)] on an array of strings. *)
Fixpoint join (sep : list Z) (items : list (list Z)) : list Z :=
  match items with
  | [] => []
  | [x] => x
  | x :: rest => x ++ sep ++ join sep rest
  end.

(** The [symptoms] argument: a string, or an array of strings. *)
Inductive Symptoms :=
| Text (s : list Z)
| Items (items : list (list Z)).

(** [generateCacheKey(symptoms)]; [None] when [btoa] throws. *)
Definition generateCacheKey (symptoms : Symptoms) : option string :=
  let symptomString :=
    match symptoms with
    | Items items => join [44] items
    | Text s => s
    end in
  match btoa symptomString with
  | Some text => Some (string_of_list_ascii (firstn 100 text))
  | None => None
  end.

Section Store.
Context {Analysis : Type}.

(** A row of [symptoms_cache] (key path [id]). *)
Record CacheEntry := {
  c_id : string;
  c_symptoms : Symptoms;
  c_analysis : Analysis;
  c_timestamp : Z
}.

(** The rows of [symptoms_cache], in key order.  The store is created with
    its [timestamp] index. *)
Definition Cache := list CacheEntry.

Definition get (c : Cache) (k : string) : option CacheEntry :=
  find (fun e => String.eqb (c_id e) k) c.

(** [db.put]: the row with the value's key is replaced; a value with a new
    key goes to its place in key order. *)
Definition put (v : CacheEntry) (c : Cache) : Cache :=
  if existsb (fun e => String.eqb (c_id e) (c_id v)) c
  then map (fun e => if String.eqb (c_id e) (c_id v) then v else e) c
  else filter (fun e => String.ltb (c_id e) (c_id v)) c ++ [v] ++
       filter (fun e => String.ltb (c_id v) (c_id e)) c.

Definition delete (k : string) (c : Cache) : Cache :=
  filter (fun e => negb (String.eqb (c_id e) k)) c.

(** [cacheSymptomAnalysis(symptoms, analysis)] at time [now]; when the key
    cannot be made the [catch] logs the error and nothing is stored. *)
Definition cacheSymptomAnalysis (now : Z) (symptoms : Symptoms) (analysis : Analysis)
    (c : Cache) : Cache :=
  match generateCacheKey symptoms with
  | Some cacheKey =>
      put {| c_id := cacheKey; c_symptoms := symptoms; c_analysis := analysis;
             c_timestamp := now |} c
  | None => c
  end.

(** [getCachedAnalysis(symptoms)] at time [now]; [None] is [null]. *)
Definition getCachedAnalysis (now : Z) (symptoms : Symptoms) (c : Cache)
    : option Analysis :=
  match generateCacheKey symptoms with
  | Some cacheKey =>
      match get c cacheKey with
      | Some cached =>
          if now - c_timestamp cached <? 60 * 60 * 1000
          then Some (c_analysis cached)
          else None
      | None => None
      end
  | None => None
  end.

(** [clearOldCache(hours = 24)] at time [now]: the entries of the
    [timestamp] index up to the cutoff are deleted by id. *)
Definition clearOldCache (now : Z) (hours : option Z) (c : Cache) : Cache :=
  let hours := match hours with
               | Some n => n
               | None => 24
               end in
  let cutoff := now - hours * 60 * 60 * 1000 in
  let oldEntries :=
    filter (fun e => c_timestamp e <=? cutoff)
      (JsArray.sort (fun a b => c_timestamp a - c_timestamp b) c) in
  fold_left (fun s entry => delete (c_id entry) s) oldEntries c.

(** No two different rows have the same id. *)
Definition distinctIds (c : Cache) : Prop :=
  forall e e', In e c -> In e' c -> c_id e = c_id e' -> e = e'.

(** The calls that change the cache. *)
Inductive Op :=
| CacheSymptomAnalysis (now : Z) (symptoms : Symptoms) (analysis : Analysis)
| ClearOldCache (now : Z) (hours : option Z).

Definition applyOp (c : Cache) (op : Op) : Cache :=
  match op with
  | CacheSymptomAnalysis now symptoms analysis =>
      cacheSymptomAnalysis now symptoms analysis c
  | ClearOldCache now hours => clearOldCache now hours c
  end.

Definition runOps (ops : list Op) (c : Cache) : Cache := fold_left applyOp ops c.

End Store.

Arguments CacheEntry : clear implicits.
Arguments Cache : clear implicits.
Arguments Op : clear implicits.

End SymptomsCache.

(** ** offlineDB.js: saveMedicalRecord in full *)

Module OfflineSave.
Import OfflineDB.

(** [encryptRecord(record)] is [btoa(JSON.stringify(record))].  [json] is
    the JSON text of the record, given by its code units; the result is
    [None] when [btoa] throws. *)
Definition encryptRecord (json : list Z) : option (list ascii) :=
  SymptomsCache.btoa json.

(** The clock as one save reads it: [createdAt: new Date()], then
    [updatedAt: new Date()], then [timestamp: new Date()] in
    [addToSyncQueue]. *)
Record Clock := {
  atCreated : Z;
  atUpdated : Z;
  atQueued : Z
}.

(** [saveMedicalRecord(record)] with its failure: the priority is computed,
    then the record is encrypted; when that throws, the [catch] logs the
    error and throws it again, and nothing was stored or queued ([None],
    with the database as it was).  Otherwise the record is added, then its
    queue entry, and the new id is returned.  (The [encrypted] text is
    stored with the record; no function modelled here reads it.) *)
Definition saveMedicalRecord (clock : Clock) (record : RecordInput) (json : list Z)
    (db : DB) : option Z * DB :=
  let priority := calculateSyncPriority record in
  match encryptRecord json with
  | None => (None, db)
  | Some encrypted =>
      let '(id, recs) :=
        add (fun k => {| rec_id := k; rec_input := record; rec_synced := false;
                         rec_syncAttempts := 0; rec_syncPriority := priority;
                         rec_lastSyncAttempt := None;
                         rec_createdAt := atCreated clock;
                         rec_updatedAt := atUpdated clock |})
            (medical_records db) in
      (Some id,
       addToSyncQueue (atQueued clock) "medical_record" id priority
         {| medical_records := recs; sync_queue := sync_queue db |})
  end.

End OfflineSave.

(** ** useOfflineSync.js: queueRecord and getSyncStats *)

Module SyncHook.
Import OfflineDB OfflineSync.

(** [recordWithSoldier]: the record with the soldier id of the session, or
    ['emergency-unknown'] without an authenticated soldier. *)
Definition recordWithSoldier (h : Hook) (record : RecordInput) : RecordInput :=
  {| in_soldierId := match soldier h with
                     | Some s => s
                     | None => "emergency-unknown"
                     end;
     in_triageLevel := in_triageLevel record;
     in_emergencyActions := in_emergencyActions record |}.

(** What [queueRecord] leaves and returns: [Some id] is
    [{success: true, recordId: id}], [None] is [{success: false, error}];
    [startsSync] tells whether it called [attemptSync] (it does so, without
    waiting for it, when the save succeeded and the hook is online). *)
Record Queued := {
  hook : Hook;
  database : DB;
  result : option Z;
  startsSync : bool
}.

(** [queueRecord(record)].  [json] is the JSON text of [recordWithSoldier],
    [clock] the clock as [saveMedicalRecord] reads it.  When the save throws,
    the [catch] returns the failure and the hook's list is left alone.
    Otherwise the entry added to the hook's own list, at time [now'], has
    the record id as its id and the priority of the record as it was handed
    in (it has no [attempts] and [lastAttempt] properties; nothing reads
    them). *)
Definition queueRecord (clock : OfflineSave.Clock) (now' : Z) (record : RecordInput)
    (json : list Z) (h : Hook) (db : DB) : Queued :=
  match OfflineSave.saveMedicalRecord clock (recordWithSoldier h record) json db with
  | (Some id, db') =>
      {| hook :=
           {| syncStatus := syncStatus h;
              queuedRecords :=
                queuedRecords h ++
                [{| q_id := id; q_type := "medical_record"; q_recordId := id;
                    q_priority := calculateSyncPriority record; q_timestamp := now';
                    q_attempts := 0; q_lastAttempt := None |}];
              lastSync := lastSync h; isSyncing := isSyncing h; soldier := soldier h |};
         database := db';
         result := Some id;
         startsSync := String.eqb (syncStatus h) "online" |}
  | (None, db') =>
      {| hook := h; database := db'; result := None; startsSync := false |}
  end.

(** [getSyncStats()]. *)
Record SyncStats := {
  total : Z;
  highPriority : Z;
  stats_isSyncing : bool;
  stats_lastSync : option Z;
  status : string
}.

Definition getSyncStats (h : Hook) : SyncStats :=
  {| total := Z.of_nat (List.length (queuedRecords h));
     highPriority :=
       Z.of_nat (List.length (filter (fun r => q_priority r =? 1) (queuedRecords h)));
     stats_isSyncing := isSyncing h;
     stats_lastSync := lastSync h;
     status := syncStatus h |}.

(** The record the chatbot builds after an assessment and hands to
    [queueRecord]: [soldierId], [encryptedData], [metadata] (the triage level
    of the analysis is in there) and [emergencyMode].  It has no
    [triageLevel] and no [emergencyActions] property of its own. *)
Definition assessmentRecord (soldier : option string) (analysisTriage : string)
    : RecordInput :=
  {| in_soldierId := match soldier with
                     | Some s => if String.eqb s "" then "emergency-unknown" else s
                     | None => "emergency-unknown"
                     end;
     in_triageLevel := None;
     in_emergencyActions := None |}.

End SyncHook.

(** ** Scenarios used by the examples below *)

Module Scenario.
Import OfflineDB.

(** A record saved by soldier S-100 at time 1000 on a new device. *)
Definition immediateRecord : RecordInput :=
  {| in_soldierId := "S-100";
     in_triageLevel := Some "IMMEDIATE";
     in_emergencyActions := None |}.

Definition savedOnce : DB := snd (saveMedicalRecord 1000 immediateRecord init).

(** The queue entry that [saveMedicalRecord] added for that record. *)
Definition savedEntry : QueueEntry :=
  {| q_id := 1; q_type := "medical_record"; q_recordId := 1; q_priority := 1;
     q_timestamp := 1000; q_attempts := 0; q_lastAttempt := None |}.

(** The hook of a session that is online and has no authenticated soldier:
    it looks records up among the emergency records. *)
Definition anonymousOnline : OfflineSync.Hook :=
  {| OfflineSync.syncStatus := "online";
     OfflineSync.queuedRecords := [];
     OfflineSync.lastSync := None;
     OfflineSync.isSyncing := false;
     OfflineSync.soldier := None |}.

(** An API that accepts every record. *)
Definition accepting (n : nat) (record : MedicalRecord) : OfflineSync.ApiResult :=
  OfflineSync.ApiSuccess (3000 + Z.of_nat n).

(** The server side: the database cannot be reached, so every
    [syncSingleItem] throws (the [n]-th call at time [6000 + 5000 n]). *)
Definition unreachable (n : nat) (item : SyncManager.SyncItem) : SyncManager.Outcome :=
  SyncManager.Threw "ECONNREFUSED" (6000 + 5000 * Z.of_nat n).

Definition routineRecord : SyncManager.RecordData :=
  {| SyncManager.r_id := None;
     SyncManager.r_soldierId := "S-100";
     SyncManager.r_encryptedData := "b64";
     SyncManager.r_metadata := "MINOR" |}.

(** One record queued at time 1000 with the default priority 3. *)
Definition oneQueued : SyncManager.World :=
  SyncManager.setManager
    (snd (SyncManager.queueForSync "sync_1000_a" 1000 routineRecord None
            SyncManager.constructor))
    SyncManager.newWorld.

Definition routineItem : SyncManager.SyncItem :=
  {| SyncManager.s_id := "sync_1000_a";
     SyncManager.s_record := routineRecord;
     SyncManager.s_priority := 3;
     SyncManager.s_attempts := 0;
     SyncManager.s_lastAttempt := None;
     SyncManager.s_timestamp := 1000;
     SyncManager.s_status := SyncManager.queued;
     SyncManager.s_error := None |}.

(** Eleven records queued one after the other with the default priority,
    one more than a batch holds. *)
Definition elevenQueued : SyncManager.World :=
  SyncManager.setManager
    (fold_left
       (fun m c => snd (SyncManager.queueForSync (fst c) (snd c) routineRecord None m))
       [("s00", 1000); ("s01", 1001); ("s02", 1002); ("s03", 1003);
        ("s04", 1004); ("s05", 1005); ("s06", 1006); ("s07", 1007);
        ("s08", 1008); ("s09", 1009); ("s10", 1010)]
       SyncManager.constructor)
    SyncManager.newWorld.

(** The first delivery throws, the later ones succeed. *)
Definition failFirst (n : nat) (item : SyncManager.SyncItem) : SyncManager.Outcome :=
  match n with
  | O => SyncManager.Threw "ETIMEDOUT" 6000
  | _ => SyncManager.Delivered (6000 + Z.of_nat n)
  end.

(** A routine record queued at time 1000 and an urgent one queued at time
    2000; then emergency mode is activated. *)
Definition twoQueued : SyncManager.World :=
  SyncManager.setManager
    (snd (SyncManager.queueForSync "sync_2000_a" 2000 routineRecord (Some 1)
       (snd (SyncManager.queueForSync "sync_1000_b" 1000 routineRecord (Some 3)
          SyncManager.constructor))))
    SyncManager.newWorld.

Definition twoEscalated : SyncManager.World :=
  SyncManager.setManager (SyncManager.escalateAll (SyncManager.manager twoQueued))
    twoQueued.

(** Four queue entries added with priorities 3, 1, 2, 1, at the given times. *)
Definition fourEntries (t1 t2 t3 t4 : Z) : OfflineDB.DB :=
  OfflineDB.addToSyncQueue t4 "medical_record" 4 1
    (OfflineDB.addToSyncQueue t3 "medical_record" 3 2
       (OfflineDB.addToSyncQueue t2 "medical_record" 2 1
          (OfflineDB.addToSyncQueue t1 "medical_record" 1 3 OfflineDB.init))).

Definition fourItems (t1 t2 t3 t4 : Z) : SyncManager.Manager :=
  snd (SyncManager.queueForSync "d" t4 routineRecord (Some 1)
    (snd (SyncManager.queueForSync "c" t3 routineRecord (Some 2)
      (snd (SyncManager.queueForSync "b" t2 routineRecord (Some 1)
        (snd (SyncManager.queueForSync "a" t1 routineRecord (Some 3)
           SyncManager.constructor))))))).

(** A pass started by the timer is waiting for the delivery of the first
    record when a second record is queued. *)
Definition passWaiting : SyncManager.Driver :=
  SyncManager.enqueue "sync_2000_b" 2000 routineRecord None
    (SyncManager.timerTick
       {| SyncManager.world := oneQueued; SyncManager.running := [] |}).

End Scenario.

(** ** More scenarios *)

Module Scenario2.

(** The only queued record is in a pass that waits for its delivery; the
    queue is empty and the interval timer is set. *)
Definition onlyPassWaiting : SyncManager.Driver :=
  SyncManager.timerTick
    {| SyncManager.world := Scenario.oneQueued; SyncManager.running := [] |}.

(** A day at the manager: two records are queued, the timer fires, a sync is
    forced, emergency mode is activated, the queue is cleared, and a record
    is queued again. *)
Definition someOps : list SyncManagerOps.Op :=
  [SyncManagerOps.QueueForSync "sync_1000_a" 1000 Scenario.routineRecord None;
   SyncManagerOps.QueueForSync "sync_2000_b" 2000 Scenario.routineRecord (Some 1);
   SyncManagerOps.TimerTick Scenario.failFirst;
   SyncManagerOps.ForceSync Scenario.unreachable;
   SyncManagerOps.ActivateEmergencySync Scenario.unreachable;
   SyncManagerOps.ClearQueue;
   SyncManagerOps.QueueForSync "sync_9000_c" 9000 Scenario.routineRecord (Some 2)].

(** A server that stores every record (the [n]-th call returns at time
    [6000 + n]). *)
Definition storing (n : nat) (item : SyncManager.SyncItem) : SyncManager.Outcome :=
  SyncManager.Delivered (6000 + Z.of_nat n).

(** The hook of soldier S-100, online. *)
Definition soldierOnline : OfflineSync.Hook :=
  {| OfflineSync.syncStatus := "online";
     OfflineSync.queuedRecords := [];
     OfflineSync.lastSync := None;
     OfflineSync.isSyncing := false;
     OfflineSync.soldier := Some "S-100" |}.

Definition delayedRecord : OfflineDB.RecordInput :=
  {| OfflineDB.in_soldierId := "S-100";
     OfflineDB.in_triageLevel := Some "DELAYED";
     OfflineDB.in_emergencyActions := Some [] |}.

(** Two records are saved, a pass of the hook runs against an API that
    accepts everything, and [markAsSynced] is called for a stored and for an
    unknown id. *)
Definition dbOps : list OfflineOps.Op :=
  [OfflineOps.Save 1000 Scenario.immediateRecord;
   OfflineOps.Save 2000 delayedRecord;
   OfflineOps.AttemptSync Scenario.accepting 3000 soldierOnline;
   OfflineOps.MarkAsSynced 4000 2;
   OfflineOps.MarkAsSynced 5000 99].

(** A new device on which the queue holds an entry for record 99 while
    [medical_records] is empty: the record the entry refers to is missing
    from the record store. *)
Definition orphanQueued : OfflineDB.DB :=
  OfflineDB.addToSyncQueue 1000 "medical_record" 99 3 OfflineDB.init.

Definition orphanEntry : OfflineDB.QueueEntry :=
  {| OfflineDB.q_id := 1; OfflineDB.q_type := "medical_record";
     OfflineDB.q_recordId := 99; OfflineDB.q_priority := 3;
     OfflineDB.q_timestamp := 1000; OfflineDB.q_attempts := 0;
     OfflineDB.q_lastAttempt := None |}.

(** The clock of a second save: the record is stamped at 2000 and 2001,
    its queue entry at 2003. *)
Definition secondSave : OfflineSave.Clock :=
  {| OfflineSave.atCreated := 2000; OfflineSave.atUpdated := 2001;
     OfflineSave.atQueued := 2003 |}.

(** The JSON text of a record with the properties soldierId S-100 and
    triageLevel DELAYED, by its code units (the text below has an
    apostrophe where the JSON text has a quotation mark, code unit 34), and
    a text with the code unit of a euro sign in it. *)
Definition delayedJson : list Z :=
  map (fun c => let n := Z.of_nat (nat_of_ascii c) in if n =? 39 then 34 else n)
    (list_ascii_of_string "{'soldierId':'S-100','triageLevel':'DELAYED'}").

Definition euroJson : list Z := delayedJson ++ [8364].

End Scenario2.

(** * Properties *)

(** ** The stable sort *)

Section SortFacts.
Context {A : Type}.
Variable cmp : A -> A -> Z.

Lemma insert_perm (x : A) (l : list A) :
  Permutation (JsArray.insert cmp x l) (x :: l).
Proof.
  induction l as [|y ys IH]; simpl.
  - apply Permutation_refl.
  - destruct (cmp x y <=? 0).
    + apply Permutation_refl.
    + eapply perm_trans; [apply perm_skip, IH | apply perm_swap].
Qed.

Lemma sort_perm (l : list A) : Permutation (JsArray.sort cmp l) l.
Proof.
  induction l as [|x l IH]; simpl.
  - constructor.
  - eapply perm_trans; [apply insert_perm | apply perm_skip, IH].
Qed.

Lemma sort_length (l : list A) :
  List.length (JsArray.sort cmp l) = List.length l.
Proof. apply Permutation_length, sort_perm. Qed.

Lemma sort_In (x : A) (l : list A) : In x (JsArray.sort cmp l) <-> In x l.
Proof.
  split; apply Permutation_in;
    [apply sort_perm | apply Permutation_sym, sort_perm].
Qed.

(** Elements that tie pairwise keep their input order: a class [P] of
    mutually tied elements is listed by the sorted array as by the input. *)
Section Stable.
Variable P : A -> bool.
Hypothesis tie : forall a b, P a = true -> P b = true -> cmp a b <= 0.

Lemma filter_insert (x : A) (l : list A) :
  filter P (JsArray.insert cmp x l) = filter P (x :: l).
Proof.
  induction l as [|y ys IH]; simpl; [reflexivity|].
  destruct (cmp x y <=? 0) eqn:E; simpl; [reflexivity|].
  rewrite IH. simpl.
  destruct (P x) eqn:Px; destruct (P y) eqn:Py; try reflexivity.
  apply Z.leb_gt in E. specialize (tie x y Px Py). lia.
Qed.

Lemma sort_stable (l : list A) : filter P (JsArray.sort cmp l) = filter P l.
Proof.
  induction l as [|x l IH]; simpl; [reflexivity|].
  rewrite filter_insert. simpl. now rewrite IH.
Qed.
End Stable.

(** A list whose elements all tie is left as it is. *)
Lemma insert_tied (x : A) (l : list A) :
  Forall (fun y => cmp x y <= 0) l -> JsArray.insert cmp x l = x :: l.
Proof.
  intros H. destruct l as [|y ys]; simpl; [reflexivity|].
  inversion H; subst. destruct (cmp x y <=? 0) eqn:E; [reflexivity|].
  apply Z.leb_gt in E. lia.
Qed.

Lemma sort_tied (l : list A) :
  (forall a b, In a l -> In b l -> cmp a b <= 0) -> JsArray.sort cmp l = l.
Proof.
  induction l as [|x l IH]; intros H; simpl; [reflexivity|].
  rewrite IH by (intros; apply H; now right).
  apply insert_tied. apply Forall_forall. intros y Hy.
  apply H; [now left | now right].
Qed.

(** With a comparator that is total and transitive the result is sorted. *)
Section Sorted.
Hypothesis total : forall a b, 0 < cmp a b -> cmp b a <= 0.
Hypothesis trans : forall a b c, cmp a b <= 0 -> cmp b c <= 0 -> cmp a c <= 0.

Lemma insert_sorted (x : A) (l : list A) :
  StronglySorted (fun a b => cmp a b <= 0) l ->
  StronglySorted (fun a b => cmp a b <= 0) (JsArray.insert cmp x l).
Proof.
  induction l as [|y ys IH]; intros H; simpl.
  - constructor; constructor.
  - inversion H as [|? ? Hs Hall]; subst.
    destruct (cmp x y <=? 0) eqn:E.
    + apply Z.leb_le in E. constructor; [assumption|].
      constructor; [assumption|].
      eapply Forall_impl; [|exact Hall]. intros c Hc. now apply trans with y.
    + apply Z.leb_gt in E. constructor; [now apply IH|].
      apply Forall_forall. intros c Hc.
      apply (Permutation_in _ (insert_perm x ys)) in Hc.
      destruct Hc as [<-|Hc]; [now apply total|].
      rewrite Forall_forall in Hall. now apply Hall.
Qed.

Lemma sort_sorted (l : list A) :
  StronglySorted (fun a b => cmp a b <= 0) (JsArray.sort cmp l).
Proof.
  induction l as [|x l IH]; simpl; [constructor | now apply insert_sorted].
Qed.
End Sorted.

End SortFacts.

(** The comparator of the two queues is total and transitive, and it ranks
    [a] before or with [b] exactly when [a]'s priority is smaller, or equal
    with a timestamp that is not later. *)
Lemma byPriorityThenTime_le {A : Type} (prio time : A -> Z) (a b : A) :
  OfflineDB.byPriorityThenTime prio time a b <= 0 <->
  prio a < prio b \/ (prio a = prio b /\ time a <= time b).
Proof.
  unfold OfflineDB.byPriorityThenTime.
  destruct (prio a =? prio b) eqn:E; simpl.
  - apply Z.eqb_eq in E. lia.
  - apply Z.eqb_neq in E. lia.
Qed.

Lemma byPriorityThenTime_total {A : Type} (prio time : A -> Z) (a b : A) :
  0 < OfflineDB.byPriorityThenTime prio time a b ->
  OfflineDB.byPriorityThenTime prio time b a <= 0.
Proof.
  intros H. apply byPriorityThenTime_le.
  assert (~ OfflineDB.byPriorityThenTime prio time a b <= 0) as N by lia.
  rewrite byPriorityThenTime_le in N. lia.
Qed.

Lemma byPriorityThenTime_trans {A : Type} (prio time : A -> Z) (a b c : A) :
  OfflineDB.byPriorityThenTime prio time a b <= 0 ->
  OfflineDB.byPriorityThenTime prio time b c <= 0 ->
  OfflineDB.byPriorityThenTime prio time a c <= 0.
Proof. rewrite !byPriorityThenTime_le. lia. Qed.

(** ** What the operations do to the manager's queue *)

(** What the loop body does to the queue: nothing, or the retried item is
    pushed at the back. *)
Lemma processItem_queue (o : SyncManager.Outcome) (item : SyncManager.SyncItem)
    (w : SyncManager.World) (res : SyncManager.Results) :
  let q := SyncManager.syncQueue (SyncManager.manager w) in
  let q' := SyncManager.syncQueue
              (SyncManager.manager (fst (SyncManager.processItem o item (w, res)))) in
  q' = q \/ exists t, q' = q ++ [SyncManager.retryItem t item].
Proof.
  cbv zeta. unfold SyncManager.processItem.
  destruct o as [t|message t]; simpl; [now left|].
  destruct (SyncManager.s_attempts item <? SyncManager.maxRetries (SyncManager.manager w));
    simpl; [right; now exists t | now left].
Qed.

(** [activateEmergencySync] sets every priority to 1, and its sort then
    leaves the queue in the order it had. *)
Lemma escalateAll_queue (m : SyncManager.Manager) :
  SyncManager.syncQueue (SyncManager.escalateAll m) =
  map SyncManager.escalateItem (SyncManager.syncQueue m).
Proof.
  unfold SyncManager.escalateAll. simpl. apply sort_tied.
  intros a b Ha Hb. apply in_map_iff in Ha, Hb.
  destruct Ha as (a' & <- & _), Hb as (b' & <- & _). simpl. lia.
Qed.

(** [queueForSync] keeps the items of the queue and adds the new one. *)
Lemma queueForSync_queue (sid : string) (now : Z) (record : SyncManager.RecordData)
    (priority : option Z) (m : SyncManager.Manager) :
  SyncManager.syncQueue (snd (SyncManager.queueForSync sid now record priority m)) =
  JsArray.sort (OfflineDB.byPriorityThenTime SyncManager.s_priority SyncManager.s_timestamp)
    (SyncManager.syncQueue m ++
     [{| SyncManager.s_id := sid; SyncManager.s_record := record;
         SyncManager.s_priority := match priority with Some p => p | None => 3 end;
         SyncManager.s_attempts := 0; SyncManager.s_lastAttempt := None;
         SyncManager.s_timestamp := now; SyncManager.s_status := SyncManager.queued;
         SyncManager.s_error := None |}]).
Proof.
  unfold SyncManager.queueForSync, SyncManager.startSyncProcess. simpl.
  now destruct (SyncManager.isSyncing m).
Qed.

(** The batch of a pass is the front of the array as it stands. *)
Lemma claimBatch_takes_prefix (w : SyncManager.World) :
  SyncManager.syncQueue (SyncManager.manager w) <> [] ->
  SyncManager.claimBatch w =
    (SyncManager.setManager
       (SyncManager.setQueue
          (skipn (SyncManager.syncBatchSize (SyncManager.manager w))
             (SyncManager.syncQueue (SyncManager.manager w)))
          (SyncManager.manager w)) w,
     Some (firstn (SyncManager.syncBatchSize (SyncManager.manager w))
             (SyncManager.syncQueue (SyncManager.manager w)))).
Proof.
  intros H. unfold SyncManager.claimBatch.
  destruct (SyncManager.syncQueue (SyncManager.manager w)); [congruence | reflexivity].
Qed.


(** A pass that nothing interrupts is [processSyncBatch] run from its call
    to its return. *)
Lemma runAlone_runBatch (deliver : nat -> SyncManager.SyncItem -> SyncManager.Outcome)
    (batch : list SyncManager.SyncItem) :
  forall (w : SyncManager.World) (res : SyncManager.Results),
  batch <> [] ->
  SyncManager.runAlone deliver (List.length batch)
    {| SyncManager.world := w;
       SyncManager.running :=
         [{| SyncManager.pending := batch; SyncManager.results := res |}] |} =
  {| SyncManager.world := fst (SyncManager.runBatch deliver batch (w, res));
     SyncManager.running := [] |}.
Proof.
  induction batch as [|item rest IH]; intros w res Hne; [congruence|].
  cbn [List.length SyncManager.runAlone SyncManager.running SyncManager.world].
  unfold SyncManager.resume.
  cbn [SyncManager.running SyncManager.world nth_error firstn skipn app].
  change (SyncManager.runBatch deliver (item :: rest) (w, res))
    with (SyncManager.runBatch deliver rest
            (SyncManager.processItem
               (deliver (List.length (SyncManager.calls w)) item) item (w, res))).
  destruct (SyncManager.processItem
              (deliver (List.length (SyncManager.calls w)) item) item (w, res))
    as [w1 res1].
  destruct rest as [|item' rest'].
  - reflexivity.
  - rewrite app_nil_r. apply IH. discriminate.
Qed.

Lemma pass_alone_is_processSyncBatch
    (deliver : nat -> SyncManager.SyncItem -> SyncManager.Outcome)
    (w : SyncManager.World) :
  let d := SyncManager.startPass
             {| SyncManager.world := w; SyncManager.running := [] |} in
  SyncManager.runAlone deliver (List.length (SyncManager.inFlight d)) d =
  {| SyncManager.world := fst (SyncManager.processSyncBatch deliver w);
     SyncManager.running := [] |}.
Proof.
  cbv zeta. unfold SyncManager.startPass, SyncManager.processSyncBatch, SyncManager.inFlight.
  cbn [SyncManager.world SyncManager.running].
  destruct (SyncManager.claimBatch w) as [w' [batch|]]; [|reflexivity].
  destruct batch as [|item rest]; [reflexivity|].
  cbn [app flat_map SyncManager.pending SyncManager.running]. rewrite app_nil_r.
  rewrite runAlone_runBatch by discriminate.
  now destruct (SyncManager.runBatch deliver (item :: rest) (w', SyncManager.noResults)).
Qed.

(** ** Marking a record as synced *)

(** The [sync_queue] store of [init] has the indexes [priority] and
    [timestamp] only, and no operation of the module adds one. *)
Lemma init_has_no_recordId_index :
  OfflineDB.index (OfflineDB.sync_queue OfflineDB.init) "recordId" = None.
Proof. reflexivity. Qed.

(** Without a [recordId] index [markAsSynced] never touches the queue. *)
Lemma markAsSynced_without_index (now recordId : Z) (db : OfflineDB.DB) :
  OfflineDB.index (OfflineDB.sync_queue db) "recordId" = None ->
  OfflineDB.sync_queue (OfflineDB.markAsSynced now recordId db) = OfflineDB.sync_queue db.
Proof.
  intros H. unfold OfflineDB.markAsSynced.
  destruct (OfflineDB.get OfflineDB.rec_id (OfflineDB.medical_records db) recordId);
    simpl; rewrite H; reflexivity.
Qed.

Lemma fold_delete_rows (items : list OfflineDB.QueueEntry)
    (s : OfflineDB.Store OfflineDB.QueueEntry) :
  OfflineDB.rows
    (fold_left (fun s item => OfflineDB.delete OfflineDB.q_id (OfflineDB.q_id item) s)
       items s) =
  filter (fun a => negb (existsb (fun item => OfflineDB.q_id a =? OfflineDB.q_id item) items))
    (OfflineDB.rows s).
Proof.
  revert s. induction items as [|i items IH]; intros s; simpl.
  - induction (OfflineDB.rows s) as [|a l IHl]; simpl; [reflexivity|].
    now rewrite <- IHl.
  - rewrite IH. simpl. clear IH.
    induction (OfflineDB.rows s) as [|a l IHl]; simpl; [reflexivity|].
    destruct (OfflineDB.q_id a =? OfflineDB.q_id i); simpl; [exact IHl|].
    destruct (existsb _ items); simpl; [exact IHl|]. now rewrite IHl.
Qed.

(** With a [recordId] index the queue deletion does what its comment says:
    no entry of the record is left. *)
Lemma markAsSynced_with_index (now recordId : Z) (db : OfflineDB.DB)
    (e : OfflineDB.QueueEntry) :
  OfflineDB.index (OfflineDB.sync_queue db) "recordId" <> None ->
  In e (OfflineDB.rows (OfflineDB.sync_queue (OfflineDB.markAsSynced now recordId db))) ->
  OfflineDB.q_recordId e <> recordId.
Proof.
  intros Hidx Hin Heq. unfold OfflineDB.markAsSynced in Hin.
  set (db1 := match OfflineDB.get OfflineDB.rec_id (OfflineDB.medical_records db) recordId with
              | Some record => _
              | None => db
              end) in Hin.
  assert (OfflineDB.sync_queue db1 = OfflineDB.sync_queue db) as Q.
  { unfold db1.
    now destruct (OfflineDB.get OfflineDB.rec_id (OfflineDB.medical_records db) recordId). }
  rewrite Q in Hin. unfold OfflineDB.index in *.
  destruct (existsb (String.eqb "recordId") (OfflineDB.indexNames (OfflineDB.sync_queue db)));
    [|congruence].
  simpl in Hin. rewrite fold_delete_rows in Hin.
  apply filter_In in Hin. destruct Hin as [Hrow Hneg].
  apply negb_true_iff in Hneg.
  assert (existsb (fun item => OfflineDB.q_id e =? OfflineDB.q_id item)
            (OfflineDB.getAllEq (OfflineDB.queueKey "recordId") recordId
               (OfflineDB.sync_queue db)) = true) as Hex; [|congruence].
  apply existsb_exists. exists e. split; [|apply Z.eqb_refl].
  unfold OfflineDB.getAllEq. apply filter_In. split; [assumption|].
  simpl. now apply Z.eqb_eq.
Qed.

(** C1, on the database that [init] creates: a record is saved (which
    queues it) and then marked as synced.  The record is stored with
    [synced = true], and its queue entry is still there: the lookup of the
    [recordId] index throws after the record was written. *)
Theorem markAsSynced_leaves_queue_entry :
  let db := OfflineDB.markAsSynced 2000 1 Scenario.savedOnce in
  map (fun r => (OfflineDB.rec_id r, OfflineDB.rec_synced r))
      (OfflineDB.rows (OfflineDB.medical_records db)) = [(1, true)] /\
  map (fun e => (OfflineDB.q_id e, OfflineDB.q_recordId e))
      (OfflineDB.rows (OfflineDB.sync_queue db)) = [(1, 1)] /\
  OfflineDB.getPendingSyncItems 5 db = OfflineDB.getPendingSyncItems 5 Scenario.savedOnce /\
  List.length (OfflineDB.getPendingSyncItems 5 db) = 1%nat.
Proof. vm_compute. repeat split; reflexivity. Qed.

(** ** The retry cap *)

Lemma Forall2_chain {A B C : Type} (R : A -> B -> Prop) (S : B -> C -> Prop)
    (T : A -> C -> Prop) (l1 : list A) (l2 : list B) (l3 : list C) :
  (forall a b c, R a b -> S b c -> T a c) ->
  Forall2 R l1 l2 -> Forall2 S l2 l3 -> Forall2 T l1 l3.
Proof.
  intros H H12. revert l3. induction H12; intros l3 H23; inversion H23; subst.
  - constructor.
  - constructor; eauto.
Qed.

Lemma concat_repeat_snoc {A : Type} (l : list A) (k : nat) :
  List.concat (repeat l k) ++ l = List.concat (repeat l (S k)).
Proof.
  induction k as [|k IH]; simpl.
  - now rewrite app_nil_r.
  - rewrite <- app_assoc. f_equal. exact IH.
Qed.

Lemma passes_snoc (deliver : nat -> SyncManager.SyncItem -> SyncManager.Outcome)
    (k : nat) (w : SyncManager.World) :
  SyncManager.passes deliver (S k) w =
  fst (SyncManager.processSyncBatch deliver (SyncManager.passes deliver k w)).
Proof.
  revert w. induction k as [|k IH]; intros w; [reflexivity|].
  change (SyncManager.passes deliver (S (S k)) w)
    with (SyncManager.passes deliver (S k)
            (fst (SyncManager.processSyncBatch deliver w))).
  now rewrite IH.
Qed.

Lemma runBatch_cons (deliver : nat -> SyncManager.SyncItem -> SyncManager.Outcome)
    (i : SyncManager.SyncItem) (batch : list SyncManager.SyncItem)
    (w : SyncManager.World) (res : SyncManager.Results) :
  SyncManager.runBatch deliver (i :: batch) (w, res) =
  SyncManager.runBatch deliver batch
    (SyncManager.processItem (deliver (List.length (SyncManager.calls w)) i) i (w, res)).
Proof. reflexivity. Qed.

Section AllThrow.
Variable deliver : nat -> SyncManager.SyncItem -> SyncManager.Outcome.
Hypothesis throws : SyncManager.allThrow deliver.

(** A batch of items that all have attempts left: every one is delivered
    once and pushed back, in order. *)
Lemma runBatch_all_retried (batch : list SyncManager.SyncItem) :
  forall (w : SyncManager.World) (res : SyncManager.Results),
  Forall (fun i => SyncManager.s_attempts i < SyncManager.maxRetries (SyncManager.manager w))
    batch ->
  exists batch',
    Forall2 (fun i j => exists t, j = SyncManager.retryItem t i) batch batch' /\
    fst (SyncManager.runBatch deliver batch (w, res)) =
      {| SyncManager.manager :=
           SyncManager.setQueue
             (SyncManager.syncQueue (SyncManager.manager w) ++ batch')
             (SyncManager.manager w);
         SyncManager.collection := SyncManager.collection w;
         SyncManager.failures := SyncManager.failures w;
         SyncManager.calls := SyncManager.calls w ++ map SyncManager.s_id batch |}.
Proof.
  induction batch as [|i batch IH]; intros w res H.
  - exists []. split; [constructor|]. simpl. rewrite !app_nil_r.
    destruct w as [[q s t m b] c f l]; reflexivity.
  - inversion H as [|? ? Hi Hrest]; subst.
    rewrite runBatch_cons.
    destruct (throws (List.length (SyncManager.calls w)) i) as (message & t & ->).
    unfold SyncManager.processItem.
    apply Z.ltb_lt in Hi. rewrite Hi.
    match goal with |- context [SyncManager.runBatch deliver batch (?w1, ?r1)] =>
      destruct (IH w1 r1) as (batch' & HF & Heq); [exact Hrest|]
    end.
    exists (SyncManager.retryItem t i :: batch'). split.
    + constructor; [now exists t | exact HF].
    + rewrite Heq. simpl. rewrite <- !app_assoc. reflexivity.
Qed.

(** A batch of items that have no attempt left: every one is delivered once
    more, logged as failed, and not pushed back. *)
Lemma runBatch_all_failed (batch : list SyncManager.SyncItem) :
  forall (w : SyncManager.World) (res : SyncManager.Results),
  Forall (fun i => SyncManager.maxRetries (SyncManager.manager w) <= SyncManager.s_attempts i)
    batch ->
  exists logs,
    Forall2 (fun i f => exists message t,
               f = SyncManager.logSyncFailure t (SyncManager.failItem message t i))
      batch logs /\
    fst (SyncManager.runBatch deliver batch (w, res)) =
      {| SyncManager.manager := SyncManager.manager w;
         SyncManager.collection := SyncManager.collection w;
         SyncManager.failures := SyncManager.failures w ++ logs;
         SyncManager.calls := SyncManager.calls w ++ map SyncManager.s_id batch |}.
Proof.
  induction batch as [|i batch IH]; intros w res H.
  - exists []. split; [constructor|]. simpl. rewrite !app_nil_r.
    destruct w; reflexivity.
  - inversion H as [|? ? Hi Hrest]; subst.
    rewrite runBatch_cons.
    destruct (throws (List.length (SyncManager.calls w)) i) as (message & t & ->).
    unfold SyncManager.processItem.
    apply Z.ltb_ge in Hi. rewrite Hi.
    match goal with |- context [SyncManager.runBatch deliver batch (?w1, ?r1)] =>
      destruct (IH w1 r1) as (logs & HF & Heq); [exact Hrest|]
    end.
    exists (SyncManager.logSyncFailure t (SyncManager.failItem message t i) :: logs).
    split.
    + constructor; [now exists message, t | exact HF].
    + rewrite Heq. simpl. rewrite <- !app_assoc. reflexivity.
Qed.

(** One pass over a queue that fits in a batch. *)
Lemma pass_all_retried (w : SyncManager.World) :
  let m := SyncManager.manager w in
  (List.length (SyncManager.syncQueue m) <= SyncManager.syncBatchSize m)%nat ->
  Forall (fun i => SyncManager.s_attempts i < SyncManager.maxRetries m)
    (SyncManager.syncQueue m) ->
  let w' := fst (SyncManager.processSyncBatch deliver w) in
  SyncManager.maxRetries (SyncManager.manager w') = SyncManager.maxRetries m /\
  SyncManager.syncBatchSize (SyncManager.manager w') = SyncManager.syncBatchSize m /\
  SyncManager.failures w' = SyncManager.failures w /\
  SyncManager.calls w' =
    SyncManager.calls w ++ map SyncManager.s_id (SyncManager.syncQueue m) /\
  Forall2 (fun i j => exists t, j = SyncManager.retryItem t i)
    (SyncManager.syncQueue m) (SyncManager.syncQueue (SyncManager.manager w')).
Proof.
  cbv zeta. intros Hlen Hall.
  unfold SyncManager.processSyncBatch, SyncManager.claimBatch.
  destruct (SyncManager.syncQueue (SyncManager.manager w)) as [|i q] eqn:Q.
  - simpl. rewrite Q, app_nil_r. repeat split; constructor.
  - unfold JsArray.splice0.
    rewrite firstn_all2, skipn_all2 by exact Hlen.
    destruct (runBatch_all_retried (i :: q)
                (SyncManager.setManager (SyncManager.setQueue [] (SyncManager.manager w)) w)
                SyncManager.noResults) as (batch' & HF & Heq); [exact Hall|].
    destruct (SyncManager.runBatch deliver (i :: q) _) as [w'' res''] eqn:R.
    simpl in Heq. subst w''. simpl. repeat split; assumption.
Qed.

Lemma pass_all_failed (w : SyncManager.World) :
  let m := SyncManager.manager w in
  (List.length (SyncManager.syncQueue m) <= SyncManager.syncBatchSize m)%nat ->
  Forall (fun i => SyncManager.maxRetries m <= SyncManager.s_attempts i)
    (SyncManager.syncQueue m) ->
  let w' := fst (SyncManager.processSyncBatch deliver w) in
  SyncManager.syncQueue (SyncManager.manager w') = [] /\
  SyncManager.calls w' =
    SyncManager.calls w ++ map SyncManager.s_id (SyncManager.syncQueue m) /\
  exists logs,
    SyncManager.failures w' = SyncManager.failures w ++ logs /\
    Forall2 (fun i f => exists message t,
               f = SyncManager.logSyncFailure t (SyncManager.failItem message t i))
      (SyncManager.syncQueue m) logs.
Proof.
  cbv zeta. intros Hlen Hall.
  unfold SyncManager.processSyncBatch, SyncManager.claimBatch.
  destruct (SyncManager.syncQueue (SyncManager.manager w)) as [|i q] eqn:Q.
  - simpl. rewrite Q, app_nil_r. repeat split.
    exists []. rewrite app_nil_r. split; constructor.
  - unfold JsArray.splice0.
    rewrite firstn_all2, skipn_all2 by exact Hlen.
    destruct (runBatch_all_failed (i :: q)
                (SyncManager.setManager (SyncManager.setQueue [] (SyncManager.manager w)) w)
                SyncManager.noResults) as (logs & HF & Heq); [exact Hall|].
    destruct (SyncManager.runBatch deliver (i :: q) _) as [w'' res''] eqn:R.
    simpl in Heq. subst w''. simpl. repeat split. exists logs. split; [reflexivity | exact HF].
Qed.

(** The state after [k] passes, while attempts are left. *)
Lemma passes_all_retried (w : SyncManager.World) (k : nat) :
  let m := SyncManager.manager w in
  (List.length (SyncManager.syncQueue m) <= SyncManager.syncBatchSize m)%nat ->
  Forall (fun i => SyncManager.s_attempts i = 0) (SyncManager.syncQueue m) ->
  Z.of_nat k <= SyncManager.maxRetries m ->
  let wk := SyncManager.passes deliver k w in
  SyncManager.maxRetries (SyncManager.manager wk) = SyncManager.maxRetries m /\
  SyncManager.syncBatchSize (SyncManager.manager wk) = SyncManager.syncBatchSize m /\
  SyncManager.failures wk = SyncManager.failures w /\
  SyncManager.calls wk =
    SyncManager.calls w ++ List.concat (repeat (map SyncManager.s_id (SyncManager.syncQueue m)) k) /\
  Forall2 (fun i j => SyncManager.s_id j = SyncManager.s_id i /\
                      SyncManager.s_attempts j = Z.of_nat k /\
                      (k <> O -> SyncManager.s_status j = SyncManager.retrying))
    (SyncManager.syncQueue m) (SyncManager.syncQueue (SyncManager.manager wk)).
Proof.
  cbv zeta. intros Hlen H0. induction k as [|k IH]; intros Hk.
  - simpl. rewrite app_nil_r. repeat split.
    induction H0 as [|i l Hi _ IH0]; [constructor|].
    constructor; [|apply IH0; simpl in Hlen; lia].
    repeat split; [exact Hi | congruence].
  - destruct IH as (Hmax & Hbs & Hf & Hc & HF); [lia|].
    rewrite passes_snoc.
    pose proof (Forall2_length HF) as Hl.
    destruct (pass_all_retried (SyncManager.passes deliver k w))
      as (Hmax' & Hbs' & Hf' & Hc' & HF').
    + rewrite Hbs, <- Hl. exact Hlen.
    + rewrite Hmax. clear - HF Hk.
      induction HF as [|i j l l' (_ & Ha & _) _ IH']; constructor; auto. lia.
    + repeat split; try congruence.
      * rewrite Hc', Hc, <- app_assoc. f_equal.
        rewrite <- concat_repeat_snoc. f_equal.
        clear - HF. induction HF as [|i j l l' (Hi & _) _ IH']; simpl; congruence.
      * eapply Forall2_chain; [|exact HF|exact HF'].
        simpl. intros a b c (Hi & Ha & _) (t & ->). simpl.
        repeat split; auto. lia.
Qed.
End AllThrow.

(** C2, as the code has it: an item whose every delivery throws is pushed
    back after each of its first [maxRetries] failed deliveries (it is
    never logged as failed after [maxRetries] or fewer of them) and is
    logged as permanently failed, and dropped from the queue, by the failed
    delivery that follows: after exactly [maxRetries + 1] calls of
    [syncSingleItem] on it (4 with the default 3).  First for one failed
    delivery of any item in any state of the manager: it is pushed back with
    one more attempt while its attempts are below [maxRetries], and logged
    as failed otherwise; then for the passes over a queue of new items that
    fits in one batch. *)
Theorem retry_cap_is_maxRetries_plus_one
    (deliver : nat -> SyncManager.SyncItem -> SyncManager.Outcome)
    (w : SyncManager.World) :
  SyncManager.allThrow deliver ->
  (List.length (SyncManager.syncQueue (SyncManager.manager w)) <=
   SyncManager.syncBatchSize (SyncManager.manager w))%nat ->
  Forall (fun i => SyncManager.s_attempts i = 0)
    (SyncManager.syncQueue (SyncManager.manager w)) ->
  0 <= SyncManager.maxRetries (SyncManager.manager w) ->
  let q := SyncManager.syncQueue (SyncManager.manager w) in
  let n := Z.to_nat (SyncManager.maxRetries (SyncManager.manager w)) in
  (forall (w0 : SyncManager.World) (res : SyncManager.Results)
          (item : SyncManager.SyncItem) (message : string) (t : Z),
     let w1 := fst (SyncManager.processItem (SyncManager.Threw message t) item (w0, res)) in
     (SyncManager.s_attempts item < SyncManager.maxRetries (SyncManager.manager w0) ->
      SyncManager.syncQueue (SyncManager.manager w1) =
        SyncManager.syncQueue (SyncManager.manager w0) ++ [SyncManager.retryItem t item] /\
      SyncManager.s_attempts (SyncManager.retryItem t item) = SyncManager.s_attempts item + 1 /\
      SyncManager.failures w1 = SyncManager.failures w0) /\
     (SyncManager.maxRetries (SyncManager.manager w0) <= SyncManager.s_attempts item ->
      SyncManager.syncQueue (SyncManager.manager w1) =
        SyncManager.syncQueue (SyncManager.manager w0) /\
      SyncManager.failures w1 =
        SyncManager.failures w0 ++
        [SyncManager.logSyncFailure t (SyncManager.failItem message t item)])) /\
  (forall k, (k <= n)%nat ->
     SyncManager.failures (SyncManager.passes deliver k w) = SyncManager.failures w /\
     SyncManager.calls (SyncManager.passes deliver k w) =
       SyncManager.calls w ++ List.concat (repeat (map SyncManager.s_id q) k) /\
     Forall2 (fun i j => SyncManager.s_id j = SyncManager.s_id i /\
                         SyncManager.s_attempts j = Z.of_nat k)
       q (SyncManager.syncQueue (SyncManager.manager (SyncManager.passes deliver k w)))) /\
  SyncManager.syncQueue (SyncManager.manager (SyncManager.passes deliver (S n) w)) = [] /\
  SyncManager.calls (SyncManager.passes deliver (S n) w) =
    SyncManager.calls w ++ List.concat (repeat (map SyncManager.s_id q) (S n)) /\
  exists logs,
    SyncManager.failures (SyncManager.passes deliver (S n) w) =
      SyncManager.failures w ++ logs /\
    Forall2 (fun i f => SyncManager.f_syncItemId f = SyncManager.s_id i /\
                        SyncManager.f_attempts f =
                          SyncManager.maxRetries (SyncManager.manager w))
      q logs.
Proof.
  intros throws Hlen H0 Hmax. cbv zeta. split; [|split].
  - intros w0 res item message t. unfold SyncManager.processItem. split; intros Ha.
    + apply Z.ltb_lt in Ha. rewrite Ha. repeat split.
    + apply Z.ltb_ge in Ha. rewrite Ha. repeat split.
  - intros k Hk.
    destruct (passes_all_retried deliver throws w k Hlen H0)
      as (_ & _ & Hf & Hc & HF); [lia|].
    repeat split; [exact Hf | exact Hc |].
    eapply Forall2_impl; [|exact HF]. simpl. tauto.
  - set (n := Z.to_nat (SyncManager.maxRetries (SyncManager.manager w))).
    destruct (passes_all_retried deliver throws w n Hlen H0)
      as (Hm & Hbs & Hf & Hc & HF); [lia|].
    pose proof (Forall2_length HF) as Hl.
    rewrite passes_snoc.
    destruct (pass_all_failed deliver throws (SyncManager.passes deliver n w))
      as (Hq & Hc' & logs & Hf' & HF').
    + rewrite Hbs, <- Hl. exact Hlen.
    + rewrite Hm. clear - HF Hmax.
      induction HF as [|i j l l' (_ & Ha & _) _ IH']; constructor; auto.
      rewrite Ha. lia.
    + repeat split; [exact Hq | |].
      * rewrite Hc', Hc, <- app_assoc. f_equal.
        rewrite <- concat_repeat_snoc. f_equal.
        clear - HF. induction HF as [|i j l l' (Hi & _) _ IH']; simpl; congruence.
      * exists logs. split; [congruence|].
        eapply Forall2_chain; [|exact HF|exact HF'].
        simpl. intros a b c (Hi & Ha & _) (message & t & ->). simpl.
        split; [exact Hi | lia].
Qed.

Lemma unreachable_allThrow : SyncManager.allThrow Scenario.unreachable.
Proof. intros n item. eexists. eexists. reflexivity. Qed.

Lemma retry_cap_is_maxRetries_plus_one_witness :
  let w := Scenario.oneQueued in
  let deliver := Scenario.unreachable in
  (forall (w0 : SyncManager.World) (res : SyncManager.Results)
          (item : SyncManager.SyncItem) (message : string) (t : Z),
     let w1 := fst (SyncManager.processItem (SyncManager.Threw message t) item (w0, res)) in
     (SyncManager.s_attempts item < SyncManager.maxRetries (SyncManager.manager w0) ->
      SyncManager.syncQueue (SyncManager.manager w1) =
        SyncManager.syncQueue (SyncManager.manager w0) ++ [SyncManager.retryItem t item] /\
      SyncManager.s_attempts (SyncManager.retryItem t item) = SyncManager.s_attempts item + 1 /\
      SyncManager.failures w1 = SyncManager.failures w0) /\
     (SyncManager.maxRetries (SyncManager.manager w0) <= SyncManager.s_attempts item ->
      SyncManager.syncQueue (SyncManager.manager w1) =
        SyncManager.syncQueue (SyncManager.manager w0) /\
      SyncManager.failures w1 =
        SyncManager.failures w0 ++
        [SyncManager.logSyncFailure t (SyncManager.failItem message t item)])) /\
  (forall k, (k <= 3)%nat ->
     SyncManager.failures (SyncManager.passes deliver k w) = [] /\
     SyncManager.calls (SyncManager.passes deliver k w) =
       [] ++ List.concat (repeat ["sync_1000_a"] k) /\
     Forall2 (fun i j => SyncManager.s_id j = SyncManager.s_id i /\
                         SyncManager.s_attempts j = Z.of_nat k)
       [Scenario.routineItem]
       (SyncManager.syncQueue (SyncManager.manager (SyncManager.passes deliver k w)))) /\
  SyncManager.syncQueue (SyncManager.manager (SyncManager.passes deliver 4 w)) = [] /\
  SyncManager.calls (SyncManager.passes deliver 4 w) =
    [] ++ List.concat (repeat ["sync_1000_a"] 4) /\
  exists logs,
    SyncManager.failures (SyncManager.passes deliver 4 w) = [] ++ logs /\
    Forall2 (fun i f => SyncManager.f_syncItemId f = SyncManager.s_id i /\
                        SyncManager.f_attempts f = 3)
      [Scenario.routineItem] logs.
Proof.
  apply (retry_cap_is_maxRetries_plus_one Scenario.unreachable Scenario.oneQueued).
  - exact unreachable_allThrow.
  - simpl. lia.
  - repeat constructor.
  - simpl. lia.
Defined.

(** C2 as the claim states it fails with the default [maxRetries = 3]: after
    three failed deliveries the item is not permanently failed (nothing is
    logged, the item is in the queue with status [retrying]); it fails with
    the fourth. *)
Lemma three_failed_deliveries_do_not_fail_the_item :
  let w3 := SyncManager.passes Scenario.unreachable 3 Scenario.oneQueued in
  let w4 := SyncManager.passes Scenario.unreachable 4 Scenario.oneQueued in
  SyncManager.calls w3 = ["sync_1000_a"; "sync_1000_a"; "sync_1000_a"] /\
  SyncManager.failures w3 = [] /\
  map (fun i => (SyncManager.s_id i, SyncManager.s_attempts i, SyncManager.s_status i))
    (SyncManager.syncQueue (SyncManager.manager w3))
    = [("sync_1000_a", 3, SyncManager.retrying)] /\
  SyncManager.calls w4 =
    ["sync_1000_a"; "sync_1000_a"; "sync_1000_a"; "sync_1000_a"] /\
  map SyncManager.f_syncItemId (SyncManager.failures w4) = ["sync_1000_a"] /\
  SyncManager.syncQueue (SyncManager.manager w4) = [].
Proof. vm_compute. repeat split; reflexivity. Qed.

(** ** Retries *)

(** C3, as the code has it: an item with priority 1, 2 or 3 whose delivery
    throws at time [t] while its attempt count is below [maxRetries] is
    pushed at the back of the queue with status [retrying], priority
    [min(p + 1, 1) = 1], one more attempt, [lastAttempt = t], and the
    timestamp it was first queued with. *)
Theorem retry_requeues_with_priority_1
    (w : SyncManager.World) (res : SyncManager.Results)
    (item : SyncManager.SyncItem) (message : string) (t : Z) :
  In (SyncManager.s_priority item) [1; 2; 3] ->
  SyncManager.s_attempts item < SyncManager.maxRetries (SyncManager.manager w) ->
  let st := SyncManager.processItem (SyncManager.Threw message t) item (w, res) in
  exists item',
    SyncManager.syncQueue (SyncManager.manager (fst st)) =
      SyncManager.syncQueue (SyncManager.manager w) ++ [item'] /\
    SyncManager.s_status item' = SyncManager.retrying /\
    SyncManager.s_priority item' = 1 /\
    SyncManager.s_attempts item' = SyncManager.s_attempts item + 1 /\
    SyncManager.s_lastAttempt item' = Some t /\
    SyncManager.s_timestamp item' = SyncManager.s_timestamp item /\
    SyncManager.s_id item' = SyncManager.s_id item /\
    SyncManager.s_record item' = SyncManager.s_record item /\
    SyncManager.failures (fst st) = SyncManager.failures w /\
    SyncManager.retried (snd st) = SyncManager.retried res + 1.
Proof.
  intros Hp Ha. cbv zeta. unfold SyncManager.processItem.
  apply Z.ltb_lt in Ha. rewrite Ha. simpl.
  exists (SyncManager.retryItem t item). simpl.
  repeat split; try reflexivity.
  simpl in Hp. lia.
Qed.

Lemma retry_requeues_with_priority_1_witness :
  exists item',
    SyncManager.syncQueue (SyncManager.manager (fst
      (SyncManager.processItem (SyncManager.Threw "ECONNREFUSED" 6000)
         Scenario.routineItem (SyncManager.newWorld, SyncManager.noResults)))) =
      [] ++ [item'] /\
    SyncManager.s_status item' = SyncManager.retrying /\
    SyncManager.s_priority item' = 1 /\
    SyncManager.s_attempts item' = 0 + 1 /\
    SyncManager.s_lastAttempt item' = Some 6000 /\
    SyncManager.s_timestamp item' = 1000 /\
    SyncManager.s_id item' = "sync_1000_a" /\
    SyncManager.s_record item' = Scenario.routineRecord /\
    SyncManager.failures (fst
      (SyncManager.processItem (SyncManager.Threw "ECONNREFUSED" 6000)
         Scenario.routineItem (SyncManager.newWorld, SyncManager.noResults))) = [] /\
    SyncManager.retried (snd
      (SyncManager.processItem (SyncManager.Threw "ECONNREFUSED" 6000)
         Scenario.routineItem (SyncManager.newWorld, SyncManager.noResults))) = 0 + 1.
Proof.
  apply (retry_requeues_with_priority_1 SyncManager.newWorld SyncManager.noResults
           Scenario.routineItem "ECONNREFUSED" 6000).
  - simpl. right. right. left. reflexivity.
  - reflexivity.
Defined.

(** C3 as the claim states it fails for priority 3: the item queued at time
    1000 whose first delivery throws at time 6000 is requeued, but not with
    status [queued], not with priority [max(1, 3 - 1) = 2], and not with
    its timestamp reset to 6000. *)
Lemma retry_of_priority_3_is_not_one_step :
  exists item',
    SyncManager.syncQueue (SyncManager.manager (fst
      (SyncManager.processItem (SyncManager.Threw "ECONNREFUSED" 6000)
         Scenario.routineItem (SyncManager.newWorld, SyncManager.noResults)))) =
      [item'] /\
    SyncManager.s_status item' <> SyncManager.queued /\
    SyncManager.s_priority item' <>
      Z.max 1 (SyncManager.s_priority Scenario.routineItem - 1) /\
    SyncManager.s_timestamp item' <> 6000 /\
    (SyncManager.s_status item', SyncManager.s_priority item',
     SyncManager.s_timestamp item') = (SyncManager.retrying, 1, 1000).
Proof.
  eexists. split; [reflexivity|]. simpl.
  repeat split; try discriminate; reflexivity.
Qed.

(** ** Enqueueing *)

Lemma addToSyncQueue_rows (now : Z) (type : string) (recordId priority : Z)
    (db : OfflineDB.DB) :
  OfflineDB.rows (OfflineDB.sync_queue (OfflineDB.addToSyncQueue now type recordId priority db)) =
  OfflineDB.rows (OfflineDB.sync_queue db) ++
  [{| OfflineDB.q_id := OfflineDB.nextKey (OfflineDB.sync_queue db);
      OfflineDB.q_type := type; OfflineDB.q_recordId := recordId;
      OfflineDB.q_priority := priority; OfflineDB.q_timestamp := now;
      OfflineDB.q_attempts := 0; OfflineDB.q_lastAttempt := None |}].
Proof. reflexivity. Qed.

Lemma addToSyncQueue_entriesOf (now : Z) (type : string) (recordId priority : Z)
    (db : OfflineDB.DB) :
  OfflineDB.entriesOf recordId (OfflineDB.addToSyncQueue now type recordId priority db) =
  OfflineDB.entriesOf recordId db ++
  [{| OfflineDB.q_id := OfflineDB.nextKey (OfflineDB.sync_queue db);
      OfflineDB.q_type := type; OfflineDB.q_recordId := recordId;
      OfflineDB.q_priority := priority; OfflineDB.q_timestamp := now;
      OfflineDB.q_attempts := 0; OfflineDB.q_lastAttempt := None |}].
Proof.
  unfold OfflineDB.entriesOf, OfflineDB.getAllEq.
  rewrite addToSyncQueue_rows, filter_app. simpl.
  now rewrite Z.eqb_refl.
Qed.

(** C4, as the code has it: every enqueue adds an entry.  After a sequence
    of [addToSyncQueue] calls for a record, the record has the entries it
    had, unchanged, followed by one entry per call with the priority and the
    time of that call; and [queueForSync] leaves the queue with the items it
    had and the new one, one more than before. *)
Theorem enqueue_adds_an_entry_per_call :
  (forall (calls : list (Z * Z)) (recordId : Z) (db : OfflineDB.DB),
     map (fun e => (OfflineDB.q_priority e, OfflineDB.q_timestamp e))
       (OfflineDB.entriesOf recordId (OfflineDB.addAllToSyncQueue calls recordId db)) =
     map (fun e => (OfflineDB.q_priority e, OfflineDB.q_timestamp e))
       (OfflineDB.entriesOf recordId db) ++
     map (fun c => (snd c, fst c)) calls /\
     List.length (OfflineDB.entriesOf recordId (OfflineDB.addAllToSyncQueue calls recordId db)) =
     (List.length (OfflineDB.entriesOf recordId db) + List.length calls)%nat) /\
  (forall (sid : string) (now : Z) (record : SyncManager.RecordData)
          (priority : option Z) (m : SyncManager.Manager),
     Permutation
       (SyncManager.syncQueue (snd (SyncManager.queueForSync sid now record priority m)))
       (SyncManager.syncQueue m ++
        [{| SyncManager.s_id := sid; SyncManager.s_record := record;
            SyncManager.s_priority := match priority with Some p => p | None => 3 end;
            SyncManager.s_attempts := 0; SyncManager.s_lastAttempt := None;
            SyncManager.s_timestamp := now; SyncManager.s_status := SyncManager.queued;
            SyncManager.s_error := None |}]) /\
     List.length
       (SyncManager.syncQueue (snd (SyncManager.queueForSync sid now record priority m))) =
     S (List.length (SyncManager.syncQueue m))).
Proof.
  split.
  - intros calls recordId. induction calls as [|[now priority] calls IH]; intros db.
    + simpl. rewrite app_nil_r. split; [reflexivity | lia].
    + simpl OfflineDB.addAllToSyncQueue.
      destruct (IH (OfflineDB.addToSyncQueue now "medical_record" recordId priority db))
        as [IH1 IH2].
      rewrite IH1, IH2, addToSyncQueue_entriesOf.
      rewrite map_app, length_app, <- app_assoc. simpl. split; [reflexivity | lia].
  - intros sid now record priority m. rewrite queueForSync_queue. split.
    + apply sort_perm.
    + rewrite sort_length, length_app. simpl. lia.
Qed.

(** C4 as the claim states it fails: two enqueues of record 1, with
    priority 3 and then 1, leave two entries of record 1 in [sync_queue],
    and the first keeps its priority 3; two [queueForSync] calls with the
    same record leave two items in the manager's queue. *)
Lemma second_enqueue_adds_a_second_entry :
  map (fun e => (OfflineDB.q_id e, OfflineDB.q_recordId e, OfflineDB.q_priority e))
    (OfflineDB.rows (OfflineDB.sync_queue
       (OfflineDB.addToSyncQueue 2000 "medical_record" 1 1
          (OfflineDB.addToSyncQueue 1000 "medical_record" 1 3 OfflineDB.init))))
  = [(1, 1, 3); (2, 1, 1)] /\
  map (fun i => (SyncManager.s_id i, SyncManager.s_record i, SyncManager.s_priority i))
    (SyncManager.syncQueue
       (snd (SyncManager.queueForSync "sync_2000_b" 2000 Scenario.routineRecord (Some 1)
          (snd (SyncManager.queueForSync "sync_1000_a" 1000 Scenario.routineRecord (Some 3)
             SyncManager.constructor)))))
  = [("sync_2000_b", Scenario.routineRecord, 1);
     ("sync_1000_a", Scenario.routineRecord, 3)].
Proof. split; reflexivity. Qed.

(** ** Passes at the same time *)

Lemma nth_error_cut {A : Type} (l : list A) (k : nat) (a : A) :
  nth_error l k = Some a -> l = firstn k l ++ a :: skipn (S k) l.
Proof.
  revert l. induction k as [|k IH]; intros [|x l] H; simpl in *; try discriminate.
  - now injection H as ->.
  - f_equal. now apply IH.
Qed.

Lemma startPass_held (d : SyncManager.Driver) :
  Permutation (SyncManager.heldItems (SyncManager.startPass d)) (SyncManager.heldItems d).
Proof.
  unfold SyncManager.startPass, SyncManager.claimBatch, SyncManager.heldItems,
    SyncManager.inFlight.
  destruct (SyncManager.syncQueue (SyncManager.manager (SyncManager.world d)))
    as [|i q] eqn:Q.
  - simpl. rewrite Q. apply Permutation_refl.
  - remember (i :: q) as l eqn:L. clear L Q. unfold JsArray.splice0.
    pose proof (firstn_skipn
                  (SyncManager.syncBatchSize (SyncManager.manager (SyncManager.world d))) l)
      as E.
    remember (skipn (SyncManager.syncBatchSize (SyncManager.manager (SyncManager.world d))) l)
      as rest eqn:R. clear R.
    destruct (firstn (SyncManager.syncBatchSize (SyncManager.manager (SyncManager.world d))) l)
      as [|b batch]; cbn [SyncManager.world SyncManager.running SyncManager.manager
                          SyncManager.setManager SyncManager.setQueue
                          SyncManager.syncQueue]; subst l.
    + apply Permutation_refl.
    + rewrite flat_map_app. cbn [flat_map SyncManager.pending]. rewrite app_nil_r.
      rewrite app_assoc.
      eapply perm_trans; [apply Permutation_app_comm|].
      rewrite <- app_assoc. apply Permutation_refl.
Qed.

Lemma escalateItem_ids (q : list SyncManager.SyncItem) :
  map SyncManager.s_id (map SyncManager.escalateItem q) = map SyncManager.s_id q.
Proof. rewrite map_map. apply map_ext. reflexivity. Qed.

(** Every step leaves the ids of the held items distinct. *)
Lemma step_keeps_ids_distinct (d d' : SyncManager.Driver) :
  SyncManager.step d d' ->
  NoDup (map SyncManager.s_id (SyncManager.heldItems d)) ->
  NoDup (map SyncManager.s_id (SyncManager.heldItems d')).
Proof.
  intros Hstep Hnd. destruct Hstep as [d|d|d|d k o|d sid now record priority Hfresh].
  - eapply Permutation_NoDup; [|exact Hnd].
    apply Permutation_map, Permutation_sym, startPass_held.
  - unfold SyncManager.timerTick.
    destruct (SyncManager.syncInterval _); [|exact Hnd].
    eapply Permutation_NoDup; [|exact Hnd].
    apply Permutation_map, Permutation_sym, startPass_held.
  - unfold SyncManager.emergencyStart.
    eapply Permutation_NoDup;
      [apply Permutation_map, Permutation_sym, startPass_held|].
    unfold SyncManager.heldItems, SyncManager.inFlight in *.
    cbn [SyncManager.world SyncManager.manager SyncManager.setManager SyncManager.running].
    rewrite escalateAll_queue, map_app, escalateItem_ids, <- map_app. exact Hnd.
  - unfold SyncManager.resume.
    destruct (nth_error (SyncManager.running d) k) as [[pend res]|] eqn:N; [|exact Hnd].
    destruct pend as [|item rest]; [exact Hnd|].
    pose proof (nth_error_cut _ _ _ N) as Hcut.
    pose proof (processItem_queue o item (SyncManager.world d) res) as Hq.
    cbv zeta in Hq.
    remember (firstn k (SyncManager.running d)) as R1 eqn:E1.
    remember (skipn (S k) (SyncManager.running d)) as R2 eqn:E2. clear E1 E2 N.
    destruct (SyncManager.processItem o item (SyncManager.world d, res)) as [w res'].
    cbn [fst] in Hq.
    unfold SyncManager.heldItems, SyncManager.inFlight in *.
    cbn [SyncManager.world SyncManager.running].
    rewrite Hcut in Hnd. clear Hcut.
    rewrite flat_map_app in Hnd. cbn [flat_map SyncManager.pending] in Hnd.
    set (F1 := flat_map SyncManager.pending R1) in *.
    set (F2 := flat_map SyncManager.pending R2) in *.
    set (q := SyncManager.syncQueue (SyncManager.manager (SyncManager.world d))) in *.
    assert (flat_map SyncManager.pending
              (R1 ++
               match rest with
               | [] => []
               | _ :: _ => [{| SyncManager.pending := rest; SyncManager.results := res' |}]
               end ++ R2) = F1 ++ rest ++ F2) as ->.
    { rewrite !flat_map_app. fold F1 F2. destruct rest; simpl; [reflexivity|].
      now rewrite app_nil_r. }
    assert (Permutation (map SyncManager.s_id (q ++ F1 ++ (item :: rest) ++ F2))
              (SyncManager.s_id item :: map SyncManager.s_id (q ++ F1 ++ rest ++ F2))) as P.
    { apply (Permutation_map SyncManager.s_id (l' := item :: q ++ F1 ++ rest ++ F2)).
      change ((item :: rest) ++ F2) with (item :: rest ++ F2).
      rewrite (app_assoc q F1 (item :: rest ++ F2)), (app_assoc q F1 (rest ++ F2)).
      apply Permutation_sym, Permutation_middle. }
    pose proof (Permutation_NoDup P Hnd) as Hnd'.
    destruct Hq as [->|(t & ->)].
    + now inversion Hnd'.
    + eapply Permutation_NoDup; [|exact Hnd'].
      rewrite <- app_assoc. simpl.
      rewrite !map_app. simpl.
      apply Permutation_cons_app. rewrite <- !map_app. apply Permutation_refl.
  - unfold SyncManager.enqueue, SyncManager.heldItems, SyncManager.inFlight in *.
    cbn [SyncManager.world SyncManager.running SyncManager.manager SyncManager.setManager].
    rewrite queueForSync_queue.
    eapply Permutation_NoDup.
    + apply Permutation_map, Permutation_app_tail, Permutation_sym, sort_perm.
    + rewrite <- app_assoc, !map_app. simpl.
      eapply Permutation_NoDup; [apply Permutation_middle|].
      constructor; [|rewrite <- map_app; exact Hnd].
      rewrite <- map_app. exact Hfresh.
Qed.

Lemma steps_keep_ids_distinct (d d' : SyncManager.Driver) :
  SyncManager.steps d d' ->
  NoDup (map SyncManager.s_id (SyncManager.heldItems d)) ->
  NoDup (map SyncManager.s_id (SyncManager.heldItems d')).
Proof.
  intros Hsteps Hnd. induction Hsteps as [d|d d' d'' _ IH Hstep]; [exact Hnd|].
  eapply step_keeps_ids_distinct; [exact Hstep | now apply IH].
Qed.

(** C5, as the code has it.  [SyncManager.forceSync] does not look whether a
    pass is running: called while passes wait for their deliveries, with a
    queue that is not empty, it takes the next batch off the queue and
    starts one more pass beside them, without error; with an empty queue it
    starts none.  A batch leaves the queue when it is taken, so whatever
    steps are taken (enqueues, timer ticks, forced and emergency passes,
    deliveries that end), items with distinct ids stay distinct: no item is
    in two passes, or queued and in a pass, at the same time.  The hook's
    [attemptSync] returns at once, doing nothing, when its [isSyncing] flag
    is set: it does not wait for the running pass. *)
Theorem forceSync_starts_another_pass_beside_a_running_one :
  (forall d : SyncManager.Driver,
     let m := SyncManager.manager (SyncManager.world d) in
     SyncManager.syncQueue m <> [] ->
     SyncManager.syncBatchSize m <> O ->
     SyncManager.forceSyncStart d =
       {| SyncManager.world :=
            SyncManager.setManager
              (SyncManager.setQueue
                 (skipn (SyncManager.syncBatchSize m) (SyncManager.syncQueue m)) m)
              (SyncManager.world d);
          SyncManager.running :=
            SyncManager.running d ++
            [{| SyncManager.pending :=
                  firstn (SyncManager.syncBatchSize m) (SyncManager.syncQueue m);
                SyncManager.results := SyncManager.noResults |}] |}) /\
  (forall d : SyncManager.Driver,
     SyncManager.syncQueue (SyncManager.manager (SyncManager.world d)) = [] ->
     SyncManager.running (SyncManager.forceSyncStart d) = SyncManager.running d) /\
  (forall d d' : SyncManager.Driver,
     SyncManager.steps d d' ->
     NoDup (map SyncManager.s_id (SyncManager.heldItems d)) ->
     NoDup (map SyncManager.s_id (SyncManager.heldItems d'))) /\
  (forall api now h db,
     OfflineSync.isSyncing h = true ->
     OfflineSync.attemptSync api now h db = (h, OfflineSync.noProgress db)).
Proof.
  split; [|split; [|split]].
  - intros d m Hq Hbs. unfold SyncManager.forceSyncStart, SyncManager.startPass.
    rewrite claimBatch_takes_prefix by exact Hq. fold m.
    destruct (SyncManager.syncQueue m) as [|i q] eqn:Q; [congruence|].
    destruct (SyncManager.syncBatchSize m) as [|n]; [congruence|]. reflexivity.
  - intros d Hq. unfold SyncManager.forceSyncStart, SyncManager.startPass,
      SyncManager.claimBatch. now rewrite Hq.
  - apply steps_keep_ids_distinct.
  - intros api now h db H. unfold OfflineSync.attemptSync. now rewrite H.
Qed.

Lemma forceSync_starts_another_pass_beside_a_running_one_witness :
  let d := Scenario.passWaiting in
  let m := SyncManager.manager (SyncManager.world d) in
  SyncManager.forceSyncStart d =
    {| SyncManager.world :=
         SyncManager.setManager
           (SyncManager.setQueue
              (skipn (SyncManager.syncBatchSize m) (SyncManager.syncQueue m)) m)
           (SyncManager.world d);
       SyncManager.running :=
         SyncManager.running d ++
         [{| SyncManager.pending :=
               firstn (SyncManager.syncBatchSize m) (SyncManager.syncQueue m);
             SyncManager.results := SyncManager.noResults |}] |}.
Proof.
  apply (proj1 forceSync_starts_another_pass_beside_a_running_one Scenario.passWaiting).
  - discriminate.
  - discriminate.
Defined.

(** C5 as the claim states it fails: while the pass that the timer started
    waits for the delivery of the first record, a second record is queued
    and [forceSync] is called; it starts a second pass, and two passes are
    delivering at the same time. *)
Lemma forceSync_while_a_pass_waits_starts_a_second_pass :
  map (fun p => map SyncManager.s_id (SyncManager.pending p))
    (SyncManager.running Scenario.passWaiting) = [["sync_1000_a"]] /\
  map (fun p => map SyncManager.s_id (SyncManager.pending p))
    (SyncManager.running (SyncManager.forceSyncStart Scenario.passWaiting))
    = [["sync_1000_a"]; ["sync_2000_b"]].
Proof. split; reflexivity. Qed.

(** ** Dequeue order *)

Lemma StronglySorted_impl {A : Type} (R R' : A -> A -> Prop) (l : list A) :
  (forall a b, R a b -> R' a b) -> StronglySorted R l -> StronglySorted R' l.
Proof.
  intros H S. induction S as [|a l S IH Hall]; constructor; [exact IH|].
  eapply Forall_impl; [|exact Hall]. intros b. apply H.
Qed.

Lemma In_firstn {A : Type} (n : nat) (l : list A) (x : A) :
  In x (firstn n l) -> In x l.
Proof.
  intros H. rewrite <- (firstn_skipn n l). apply in_or_app. now left.
Qed.

Lemma StronglySorted_firstn {A : Type} (R : A -> A -> Prop) (n : nat) (l : list A) :
  StronglySorted R l -> StronglySorted R (firstn n l).
Proof.
  revert l. induction n as [|n IH]; intros l Hs; simpl; [constructor|].
  destruct l as [|a l]; [constructor|].
  inversion Hs as [|? ? Hs' Hall]; subst. constructor; [now apply IH|].
  apply Forall_forall. intros b Hb. rewrite Forall_forall in Hall.
  apply Hall. revert Hb. apply In_firstn.
Qed.

Lemma index_present {A : Type} (s : OfflineDB.Store A) (name : string) :
  In name (OfflineDB.indexNames s) -> OfflineDB.index s name = Some s.
Proof.
  intros H. unfold OfflineDB.index.
  replace (existsb (String.eqb name) (OfflineDB.indexNames s)) with true; [reflexivity|].
  symmetry. apply existsb_exists. exists name. split; [exact H | apply String.eqb_refl].
Qed.

(** What [getPendingSyncItems] slices: all entries, sorted at this call, ties
    in the order of the rows (the order in which they were added). *)
Lemma pending_items_sorted (db : OfflineDB.DB) (limit : Z) :
  In "priority" (OfflineDB.indexNames (OfflineDB.sync_queue db)) ->
  exists all,
    OfflineDB.getPendingSyncItems limit db = JsArray.slice0 limit all /\
    Permutation all (OfflineDB.rows (OfflineDB.sync_queue db)) /\
    StronglySorted OfflineDB.ranksBefore all /\
    forall p t,
      filter (fun e => (OfflineDB.q_priority e =? p) && (OfflineDB.q_timestamp e =? t)) all =
      filter (fun e => (OfflineDB.q_priority e =? p) && (OfflineDB.q_timestamp e =? t))
        (OfflineDB.rows (OfflineDB.sync_queue db)).
Proof.
  intros Hidx. unfold OfflineDB.getPendingSyncItems.
  rewrite (index_present _ _ Hidx). eexists. split; [reflexivity|].
  unfold OfflineDB.getAll. split; [|split].
  - eapply perm_trans; apply sort_perm.
  - eapply StronglySorted_impl; [|apply sort_sorted].
    + intros a b. apply byPriorityThenTime_le.
    + intros a b. apply byPriorityThenTime_total.
    + intros a b c. apply byPriorityThenTime_trans.
  - intros p t. rewrite sort_stable, sort_stable; [reflexivity| |].
    + intros a b Ha Hb. apply andb_true_iff in Ha, Hb.
      destruct Ha as [Ha _], Hb as [Hb _]. apply Z.eqb_eq in Ha, Hb.
      change (OfflineDB.q_priority a - OfflineDB.q_priority b <= 0). lia.
    + intros a b Ha Hb. apply andb_true_iff in Ha, Hb.
      destruct Ha as [Ha Ha'], Hb as [Hb Hb']. apply Z.eqb_eq in Ha, Hb, Ha', Hb'.
      apply byPriorityThenTime_le. lia.
Qed.

Lemma queueForSync_sorted (sid : string) (now : Z) (record : SyncManager.RecordData)
    (priority : option Z) (m : SyncManager.Manager) :
  StronglySorted SyncManager.itemRanksBefore
    (SyncManager.syncQueue (snd (SyncManager.queueForSync sid now record priority m))).
Proof.
  rewrite queueForSync_queue.
  eapply StronglySorted_impl; [|apply sort_sorted].
  - intros a b. apply byPriorityThenTime_le.
  - intros a b. apply byPriorityThenTime_total.
  - intros a b c. apply byPriorityThenTime_trans.
Qed.

(** C6, as the code has it.  [getPendingSyncItems(limit)] sorts each time it
    is called: it returns the first [limit] entries of the queue store in
    (priority, timestamp) order, ties in the order in which the entries were
    added.  [processSyncBatch] does not sort: it takes the first
    [syncBatchSize] items of the array as it stands; the array is sorted by
    (priority, timestamp) by [queueForSync] at each enqueue, and
    [activateEmergencySync], which sorts by priority alone after setting
    every priority to 1, leaves its order as it was.  Entries enqueued with
    priorities 3, 1, 2, 1 come out as second, fourth, third, first, from both
    queues, also when their timestamps are equal. *)
Theorem dequeue_order :
  (forall (db : OfflineDB.DB) (limit : Z),
     In "priority" (OfflineDB.indexNames (OfflineDB.sync_queue db)) ->
     0 <= limit ->
     exists all,
       OfflineDB.getPendingSyncItems limit db = firstn (Z.to_nat limit) all /\
       (List.length (OfflineDB.getPendingSyncItems limit db) <= Z.to_nat limit)%nat /\
       Permutation all (OfflineDB.rows (OfflineDB.sync_queue db)) /\
       StronglySorted OfflineDB.ranksBefore all /\
       StronglySorted OfflineDB.ranksBefore (OfflineDB.getPendingSyncItems limit db) /\
       forall p t,
         filter (fun e => (OfflineDB.q_priority e =? p) && (OfflineDB.q_timestamp e =? t)) all =
         filter (fun e => (OfflineDB.q_priority e =? p) && (OfflineDB.q_timestamp e =? t))
           (OfflineDB.rows (OfflineDB.sync_queue db))) /\
  (forall w : SyncManager.World,
     SyncManager.syncQueue (SyncManager.manager w) <> [] ->
     snd (SyncManager.claimBatch w) =
       Some (firstn (SyncManager.syncBatchSize (SyncManager.manager w))
               (SyncManager.syncQueue (SyncManager.manager w)))) /\
  (forall sid now record priority m,
     StronglySorted SyncManager.itemRanksBefore
       (SyncManager.syncQueue (snd (SyncManager.queueForSync sid now record priority m)))) /\
  (forall m : SyncManager.Manager,
     SyncManager.syncQueue (SyncManager.escalateAll m) =
     map SyncManager.escalateItem (SyncManager.syncQueue m)) /\
  (forall t,
     map OfflineDB.q_id (OfflineDB.getPendingSyncItems 4 (Scenario.fourEntries 1000 2000 3000 4000))
       = [2; 4; 3; 1] /\
     map OfflineDB.q_id (OfflineDB.getPendingSyncItems 4 (Scenario.fourEntries t t t t))
       = [2; 4; 3; 1] /\
     map SyncManager.s_id
       (SyncManager.syncQueue (Scenario.fourItems 1000 2000 3000 4000)) = ["b"; "d"; "c"; "a"] /\
     map SyncManager.s_id
       (SyncManager.syncQueue (Scenario.fourItems t t t t)) = ["b"; "d"; "c"; "a"]).
Proof.
  split; [|split; [|split; [|split]]].
  - intros db limit Hidx Hlim.
    destruct (pending_items_sorted db limit Hidx) as (all & Heq & Hperm & Hsorted & Hstable).
    assert (JsArray.slice0 limit all = firstn (Z.to_nat limit) all) as Hslice.
    { unfold JsArray.slice0. destruct (limit <? 0) eqn:E; [|reflexivity].
      apply Z.ltb_lt in E. lia. }
    exists all. rewrite Heq, Hslice. repeat split; try assumption.
    + rewrite length_firstn. lia.
    + now apply StronglySorted_firstn.
  - intros w H. now rewrite claimBatch_takes_prefix.
  - apply queueForSync_sorted.
  - apply escalateAll_queue.
  - intros t. repeat split; try reflexivity.
    + unfold Scenario.fourEntries, OfflineDB.getPendingSyncItems. simpl.
      unfold OfflineDB.byPriorityThenTime. simpl. rewrite !Z.sub_diag. reflexivity.
    + unfold Scenario.fourItems, SyncManager.queueForSync. simpl.
      unfold OfflineDB.byPriorityThenTime. simpl. rewrite !Z.sub_diag. reflexivity.
Qed.

Lemma dequeue_order_witness :
  exists all,
    OfflineDB.getPendingSyncItems 4 (Scenario.fourEntries 1000 2000 3000 4000) =
      firstn (Z.to_nat 4) all /\
    (List.length (OfflineDB.getPendingSyncItems 4 (Scenario.fourEntries 1000 2000 3000 4000))
     <= Z.to_nat 4)%nat /\
    Permutation all
      (OfflineDB.rows (OfflineDB.sync_queue (Scenario.fourEntries 1000 2000 3000 4000))) /\
    StronglySorted OfflineDB.ranksBefore all /\
    StronglySorted OfflineDB.ranksBefore
      (OfflineDB.getPendingSyncItems 4 (Scenario.fourEntries 1000 2000 3000 4000)) /\
    forall p t,
      filter (fun e => (OfflineDB.q_priority e =? p) && (OfflineDB.q_timestamp e =? t)) all =
      filter (fun e => (OfflineDB.q_priority e =? p) && (OfflineDB.q_timestamp e =? t))
        (OfflineDB.rows (OfflineDB.sync_queue (Scenario.fourEntries 1000 2000 3000 4000))).
Proof.
  apply (proj1 dequeue_order (Scenario.fourEntries 1000 2000 3000 4000) 4).
  - simpl. left. reflexivity.
  - lia.
Defined.

(** C6 as the claim states it fails for the manager's queue: an urgent
    record queued at time 2000 stands before a routine one queued at time
    1000; after the emergency escalation both have priority 1, and the next
    pass takes them in the order the array has, the later timestamp first:
    the order is not worked out again from the priorities as they are when
    the batch is taken. *)
Lemma escalated_items_are_dequeued_out_of_order :
  option_map (map (fun i => (SyncManager.s_id i, SyncManager.s_priority i,
                             SyncManager.s_timestamp i)))
    (snd (SyncManager.claimBatch Scenario.twoEscalated))
  = Some [("sync_2000_a", 1, 2000); ("sync_1000_b", 1, 1000)] /\
  ~ StronglySorted SyncManager.itemRanksBefore
      (SyncManager.syncQueue (SyncManager.manager Scenario.twoEscalated)).
Proof.
  split; [vm_compute; reflexivity|].
  intros H.
  match type of H with StronglySorted _ ?q =>
    let q' := eval vm_compute in q in
    change (StronglySorted SyncManager.itemRanksBefore q') in H
  end.
  inversion H as [|? ? _ Hall]; subst.
  inversion Hall as [|? ? Hr _]; subst.
  unfold SyncManager.itemRanksBefore in Hr. simpl in Hr. lia.
Qed.

(** The array is not sorted after a retry either: of eleven queued items the
    first pass takes ten; the one whose delivery throws is pushed back with
    priority 1 behind the eleventh, which has priority 3, and the next pass
    takes them in that order. *)
Example retried_item_waits_behind_the_rest :
  let w1 := fst (SyncManager.processSyncBatch Scenario.failFirst Scenario.elevenQueued) in
  option_map (map (fun i => (SyncManager.s_id i, SyncManager.s_priority i)))
    (snd (SyncManager.claimBatch w1)) = Some [("s10", 3); ("s00", 1)].
Proof. vm_compute. reflexivity. Qed.

(** ** Queue entries whose record is not found *)

Lemma find_None_iff {A : Type} (p : A -> bool) (l : list A) :
  find p l = None <-> forall x, In x l -> p x = false.
Proof.
  split; [apply find_none|].
  induction l as [|a l IH]; intros H; simpl; [reflexivity|].
  rewrite (H a (or_introl eq_refl)). apply IH. intros x Hx. apply H. now right.
Qed.

Lemma In_putRow {A : Type} (key : A -> Z) (v a : A) (l : list A) :
  In a (OfflineDB.putRow key v l) -> a = v \/ In a l.
Proof.
  unfold OfflineDB.putRow.
  destruct (existsb (fun a0 => key a0 =? key v) l); intros H.
  - apply in_map_iff in H. destruct H as (b & Hb & Hin).
    destruct (key b =? key v); subst; auto.
  - apply in_app_or in H. destruct H as [H|H].
    + apply filter_In in H. right. tauto.
    + simpl in H. destruct H as [H|H]; [now left|].
      apply filter_In in H. right. tauto.
Qed.

Lemma NoDup_map_eq {A B : Type} (f : A -> B) (l : list A) (a b : A) :
  NoDup (map f l) -> In a l -> In b l -> f a = f b -> a = b.
Proof.
  induction l as [|x l IH]; simpl; intros Hnd Ha Hb Hf; [contradiction|].
  inversion Hnd as [|? ? Hx Hnd']; subst.
  destruct Ha as [->|Ha], Hb as [->|Hb]; auto.
  - exfalso. apply Hx. rewrite Hf. now apply in_map.
  - exfalso. apply Hx. rewrite <- Hf. now apply in_map.
Qed.

(** Deleting rows leaves the keys of a store distinct. *)
Lemma filter_keeps_keys_distinct {A K : Type} (key : A -> K) (keep : A -> bool)
    (rows : list A) :
  NoDup (map key rows) -> NoDup (map key (filter keep rows)).
Proof.
  intros Hnd. induction rows as [|x rows IH]; simpl in *; [constructor|].
  apply NoDup_cons_iff in Hnd. destruct Hnd as [Hx Hnd].
  destruct (keep x); simpl; [|now apply IH].
  constructor; [|now apply IH].
  intros Hin. apply Hx. apply in_map_iff in Hin. destruct Hin as (y & Hy & Hin).
  apply filter_In in Hin. rewrite <- Hy. apply in_map. tauto.
Qed.

Section Orphan.
Variable h : OfflineSync.Hook.
Variable e : OfflineDB.QueueEntry.

Local Abbreviation orphaned := (OfflineSync.orphaned h e).

Lemma markAsSynced_keeps_orphan (t k : Z) (db : OfflineDB.DB) :
  k <> OfflineDB.q_recordId e -> orphaned db -> orphaned (OfflineDB.markAsSynced t k db).
Proof.
  intros Hk (Hin & Hnd & Hnone).
  unfold OfflineDB.markAsSynced.
  set (db1 := match OfflineDB.get OfflineDB.rec_id (OfflineDB.medical_records db) k with
              | Some record => _
              | None => db
              end).
  assert (OfflineDB.sync_queue db1 = OfflineDB.sync_queue db) as Q.
  { unfold db1.
    now destruct (OfflineDB.get OfflineDB.rec_id (OfflineDB.medical_records db) k). }
  assert (OfflineSync.findRecord h db1 (OfflineDB.q_recordId e) = None) as N1.
  { unfold db1.
    destruct (OfflineDB.get OfflineDB.rec_id (OfflineDB.medical_records db) k)
      as [record|] eqn:G; [|exact Hnone].
    apply find_some in G. destruct G as [_ G]. apply Z.eqb_eq in G.
    revert Hnone. unfold OfflineSync.findRecord, OfflineDB.getMedicalRecords, OfflineDB.index.
    cbn [OfflineDB.medical_records OfflineDB.put OfflineDB.indexNames OfflineDB.rows].
    destruct (existsb (String.eqb "soldierId")
                (OfflineDB.indexNames (OfflineDB.medical_records db))); [|auto].
    rewrite !find_None_iff. intros Hnone x Hx.
    apply filter_In in Hx. destruct Hx as [Hx Hs].
    apply In_putRow in Hx. destruct Hx as [->|Hx].
    - simpl. apply Z.eqb_neq. congruence.
    - apply Hnone. apply filter_In. now split. }
  assert (forall d, OfflineDB.medical_records d = OfflineDB.medical_records db1 ->
                    OfflineSync.findRecord h d (OfflineDB.q_recordId e) = None) as N.
  { intros d Hd. unfold OfflineSync.findRecord, OfflineDB.getMedicalRecords in *.
    now rewrite Hd. }
  rewrite Q.
  destruct (OfflineDB.index (OfflineDB.sync_queue db) "recordId") as [store|] eqn:I.
  - unfold OfflineDB.index in I.
    destruct (existsb (String.eqb "recordId")
                (OfflineDB.indexNames (OfflineDB.sync_queue db))); [|discriminate].
    injection I as <-.
    unfold OfflineSync.orphaned. simpl. rewrite fold_delete_rows. repeat split.
    + apply filter_In. split; [exact Hin|].
      apply negb_true_iff.
      destruct (existsb _ _) eqn:Ex; [|reflexivity].
      apply existsb_exists in Ex. destruct Ex as (item & Hitem & Heq).
      apply filter_In in Hitem. destruct Hitem as [Hitem Hrec].
      simpl in Hrec. apply Z.eqb_eq in Hrec, Heq.
      assert (e = item) by (eapply NoDup_map_eq; eauto).
      subst item. change (OfflineDB.q_recordId e = k) in Hrec. congruence.
    + now apply filter_keeps_keys_distinct.
    + now apply N.
  - unfold OfflineSync.orphaned. rewrite Q. repeat split; assumption.
Qed.

Lemma syncItem_keeps_orphan (api : nat -> OfflineDB.MedicalRecord -> OfflineSync.ApiResult)
    (p : OfflineSync.Progress) (item : OfflineDB.QueueEntry) :
  orphaned (OfflineSync.p_db p) ->
  ~ In (OfflineDB.q_recordId e) (OfflineSync.p_calls p) ->
  orphaned (OfflineSync.p_db (OfflineSync.syncItem api h p item)) /\
  ~ In (OfflineDB.q_recordId e) (OfflineSync.p_calls (OfflineSync.syncItem api h p item)).
Proof.
  intros Ho Hc. unfold OfflineSync.syncItem.
  destruct (OfflineSync.findRecord h (OfflineSync.p_db p) (OfflineDB.q_recordId item))
    as [record|] eqn:F; [|now split].
  assert (OfflineDB.q_recordId item <> OfflineDB.q_recordId e) as Hne.
  { intros Heq. rewrite Heq in F. destruct Ho as (_ & _ & N). congruence. }
  assert (OfflineDB.rec_id record = OfflineDB.q_recordId item) as Hid.
  { unfold OfflineSync.findRecord in F. apply find_some in F.
    destruct F as [_ F]. now apply Z.eqb_eq in F. }
  assert (~ In (OfflineDB.q_recordId e)
            (OfflineSync.p_calls p ++ [OfflineDB.rec_id record])) as Hc'.
  { intros Hin. apply in_app_or in Hin. destruct Hin as [Hin|[Hin|[]]]; [auto|].
    congruence. }
  destruct (api _ record) as [t| |]; simpl; split; auto.
  now apply markAsSynced_keeps_orphan.
Qed.

Lemma fold_syncItem_keeps_orphan
    (api : nat -> OfflineDB.MedicalRecord -> OfflineSync.ApiResult)
    (items : list OfflineDB.QueueEntry) :
  forall p : OfflineSync.Progress,
  orphaned (OfflineSync.p_db p) ->
  ~ In (OfflineDB.q_recordId e) (OfflineSync.p_calls p) ->
  orphaned (OfflineSync.p_db (fold_left (OfflineSync.syncItem api h) items p)) /\
  ~ In (OfflineDB.q_recordId e)
      (OfflineSync.p_calls (fold_left (OfflineSync.syncItem api h) items p)).
Proof.
  induction items as [|x items IH]; intros p Hp Hc; simpl; [now split|].
  destruct (syncItem_keeps_orphan api p x Hp Hc). now apply IH.
Qed.

Lemma attemptSync_keeps_orphan (api : nat -> OfflineDB.MedicalRecord -> OfflineSync.ApiResult)
    (now : Z) (db : OfflineDB.DB) :
  orphaned db ->
  orphaned (OfflineSync.p_db (snd (OfflineSync.attemptSync api now h db))) /\
  ~ In (OfflineDB.q_recordId e)
      (OfflineSync.p_calls (snd (OfflineSync.attemptSync api now h db))) /\
  OfflineSync.soldier (fst (OfflineSync.attemptSync api now h db)) = OfflineSync.soldier h.
Proof.
  intros Ho. unfold OfflineSync.attemptSync.
  destruct (OfflineSync.isSyncing h || negb (String.eqb (OfflineSync.syncStatus h) "online"));
    [simpl; auto|].
  destruct (OfflineDB.getPendingSyncItems 5 db) as [|i items] eqn:P; [simpl; auto|].
  cbn [fst snd OfflineSync.soldier].
  destruct (fold_syncItem_keeps_orphan api (i :: items) (OfflineSync.noProgress db))
    as [H1 H2]; simpl; auto.
Qed.
End Orphan.

Lemma orphaned_soldier (h h' : OfflineSync.Hook) (e : OfflineDB.QueueEntry)
    (db : OfflineDB.DB) :
  OfflineSync.soldier h' = OfflineSync.soldier h ->
  OfflineSync.orphaned h e db -> OfflineSync.orphaned h' e db.
Proof.
  intros Hs (H1 & H2 & H3). repeat split; auto.
  unfold OfflineSync.findRecord in *. now rewrite Hs.
Qed.

Lemma attemptSyncs_keeps_orphan
    (passes : list ((nat -> OfflineDB.MedicalRecord -> OfflineSync.ApiResult) * Z))
    (e : OfflineDB.QueueEntry) :
  forall (h : OfflineSync.Hook) (db : OfflineDB.DB),
  OfflineSync.orphaned h e db ->
  OfflineSync.orphaned h e (snd (OfflineSync.attemptSyncs passes h db)).
Proof.
  induction passes as [|[api now] passes IH]; intros h db Ho; simpl; [exact Ho|].
  destruct (attemptSync_keeps_orphan h e api now db Ho) as (Ho' & _ & Hs).
  destruct (OfflineSync.attemptSync api now h db) as [h' p]. simpl in *.
  apply (orphaned_soldier h' h); [auto|].
  apply IH. now apply (orphaned_soldier h h').
Qed.

(** C7, as the code has it: a queue entry whose record is not found by the
    pass (it is not among the records of the soldier the hook looks at) is
    skipped: the loop body changes nothing for it (no API call, no count, no
    write), and it stays in [sync_queue] as it was, after that pass and
    after any number of passes. *)
Theorem missing_record_entry_is_skipped_and_stays_queued
    (api : nat -> OfflineDB.MedicalRecord -> OfflineSync.ApiResult) (now : Z)
    (passes : list ((nat -> OfflineDB.MedicalRecord -> OfflineSync.ApiResult) * Z))
    (h : OfflineSync.Hook) (e : OfflineDB.QueueEntry) (db : OfflineDB.DB) :
  In e (OfflineDB.rows (OfflineDB.sync_queue db)) ->
  NoDup (map OfflineDB.q_id (OfflineDB.rows (OfflineDB.sync_queue db))) ->
  OfflineSync.findRecord h db (OfflineDB.q_recordId e) = None ->
  OfflineSync.syncItem api h (OfflineSync.noProgress db) e = OfflineSync.noProgress db /\
  In e (OfflineDB.rows (OfflineDB.sync_queue
          (OfflineSync.p_db (snd (OfflineSync.attemptSync api now h db))))) /\
  ~ In (OfflineDB.q_recordId e)
      (OfflineSync.p_calls (snd (OfflineSync.attemptSync api now h db))) /\
  OfflineSync.findRecord h (OfflineSync.p_db (snd (OfflineSync.attemptSync api now h db)))
    (OfflineDB.q_recordId e) = None /\
  In e (OfflineDB.rows (OfflineDB.sync_queue
          (snd (OfflineSync.attemptSyncs passes h db)))).
Proof.
  intros Hin Hnd Hnone.
  assert (OfflineSync.orphaned h e db) as Ho by (repeat split; assumption).
  destruct (attemptSync_keeps_orphan h e api now db Ho) as ((H1 & _ & H3) & H2 & _).
  destruct (attemptSyncs_keeps_orphan passes e h db Ho) as (H4 & _).
  repeat split; try assumption.
  unfold OfflineSync.syncItem. simpl OfflineSync.p_db. now rewrite Hnone.
Qed.

Lemma missing_record_entry_is_skipped_and_stays_queued_witness :
  OfflineSync.syncItem Scenario.accepting Scenario.anonymousOnline
    (OfflineSync.noProgress Scenario.savedOnce) Scenario.savedEntry =
    OfflineSync.noProgress Scenario.savedOnce /\
  In Scenario.savedEntry
    (OfflineDB.rows (OfflineDB.sync_queue
       (OfflineSync.p_db (snd (OfflineSync.attemptSync Scenario.accepting 3000
                                 Scenario.anonymousOnline Scenario.savedOnce))))) /\
  ~ In (OfflineDB.q_recordId Scenario.savedEntry)
      (OfflineSync.p_calls (snd (OfflineSync.attemptSync Scenario.accepting 3000
                                   Scenario.anonymousOnline Scenario.savedOnce))) /\
  OfflineSync.findRecord Scenario.anonymousOnline
    (OfflineSync.p_db (snd (OfflineSync.attemptSync Scenario.accepting 3000
                              Scenario.anonymousOnline Scenario.savedOnce)))
    (OfflineDB.q_recordId Scenario.savedEntry) = None /\
  In Scenario.savedEntry
    (OfflineDB.rows (OfflineDB.sync_queue
       (snd (OfflineSync.attemptSyncs
               [(Scenario.accepting, 3000); (Scenario.accepting, 33000)]
               Scenario.anonymousOnline Scenario.savedOnce)))).
Proof.
  apply (missing_record_entry_is_skipped_and_stays_queued Scenario.accepting 3000
           [(Scenario.accepting, 3000); (Scenario.accepting, 33000)]
           Scenario.anonymousOnline Scenario.savedEntry Scenario.savedOnce).
  - simpl. left. reflexivity.
  - simpl. repeat constructor. intros [].
  - reflexivity.
Defined.

(** A record that is missing from the record store is found by no session:
    the hypothesis of the theorem above holds for it, whoever is signed in. *)
Lemma record_missing_from_store_is_not_found (h : OfflineSync.Hook) (db : OfflineDB.DB)
    (k : Z) :
  OfflineDB.get OfflineDB.rec_id (OfflineDB.medical_records db) k = None ->
  OfflineSync.findRecord h db k = None.
Proof.
  intros G. unfold OfflineSync.findRecord, OfflineDB.getMedicalRecords, OfflineDB.index.
  destruct (existsb _ _); [|reflexivity].
  apply find_None_iff. intros r Hr. apply filter_In in Hr. destruct Hr as [Hr _].
  unfold OfflineDB.get in G. exact (find_none _ _ G r Hr).
Qed.

(** C7 as the claim states it fails: the queue holds an entry for record 99
    and the record store holds no record at all, so the referenced record is
    missing from the store.  A pass makes no API call, counts no error and
    no success, and does not resolve the entry: it is in [sync_queue] as
    before, the next selection returns it again, and it is still there
    after two more passes. *)
Lemma entry_of_missing_record_stays_queued :
  let p := snd (OfflineSync.attemptSync Scenario.accepting 3000
                  Scenario.anonymousOnline Scenario2.orphanQueued) in
  let later := OfflineSync.attemptSyncs
                 [(Scenario.accepting, 33000); (Scenario.accepting, 63000)]
                 Scenario.anonymousOnline (OfflineSync.p_db p) in
  OfflineDB.rows (OfflineDB.medical_records Scenario2.orphanQueued) = [] /\
  OfflineDB.get OfflineDB.rec_id (OfflineDB.medical_records Scenario2.orphanQueued) 99
    = None /\
  OfflineDB.rows (OfflineDB.sync_queue Scenario2.orphanQueued) = [Scenario2.orphanEntry] /\
  OfflineSync.p_calls p = [] /\
  OfflineSync.errorCount p = 0 /\
  OfflineSync.successCount p = 0 /\
  OfflineDB.rows (OfflineDB.sync_queue (OfflineSync.p_db p)) = [Scenario2.orphanEntry] /\
  OfflineDB.getPendingSyncItems 5 (OfflineSync.p_db p) = [Scenario2.orphanEntry] /\
  OfflineDB.rows (OfflineDB.sync_queue (snd later)) = [Scenario2.orphanEntry].
Proof. vm_compute. repeat split; reflexivity. Qed.

(** ** Priorities over time *)

Lemma applyEvent_priority (e : SyncManager.Event) (item : SyncManager.SyncItem) :
  1 <= SyncManager.s_priority item ->
  SyncManager.s_priority (SyncManager.applyEvent e item) = 1.
Proof. intros H. destruct e; simpl; lia. Qed.

Lemma priorities_bounded (events : list SyncManager.Event) (item : SyncManager.SyncItem) :
  1 <= SyncManager.s_priority item ->
  Forall (fun p => 1 <= p <= SyncManager.s_priority item)
    (SyncManager.priorities item events).
Proof.
  revert item. induction events as [|e events IH]; intros item H; simpl.
  - constructor; [lia | constructor].
  - constructor; [lia|].
    pose proof (applyEvent_priority e item H) as E.
    specialize (IH (SyncManager.applyEvent e item)).
    rewrite E in IH. eapply Forall_impl; [|apply IH; lia].
    simpl. intros p Hp. lia.
Qed.

(** C8: under any sequence of retries and emergency escalations, the
    priorities of an item whose priority is at least 1 (the priorities 1, 2
    and 3 of the data model are) never increase: each one is at most every
    earlier one. *)
Theorem priority_never_relaxes
    (item : SyncManager.SyncItem) (events : list SyncManager.Event) :
  1 <= SyncManager.s_priority item ->
  StronglySorted (fun earlier later => later <= earlier)
    (SyncManager.priorities item events).
Proof.
  revert item. induction events as [|e events IH]; intros item H; simpl.
  - constructor; constructor.
  - pose proof (applyEvent_priority e item H) as E.
    constructor.
    + apply IH. lia.
    + eapply Forall_impl;
        [|apply (priorities_bounded events (SyncManager.applyEvent e item)); lia].
      simpl. intros p Hp. lia.
Qed.

Lemma priority_never_relaxes_witness :
  StronglySorted (fun earlier later => later <= earlier)
    (SyncManager.priorities Scenario.routineItem
       [SyncManager.RetryAt 6000; SyncManager.Escalate; SyncManager.RetryAt 11000]).
Proof.
  apply (priority_never_relaxes Scenario.routineItem
           [SyncManager.RetryAt 6000; SyncManager.Escalate; SyncManager.RetryAt 11000]).
  simpl. lia.
Defined.

Example priorities_of_routineItem :
  SyncManager.priorities Scenario.routineItem
    [SyncManager.RetryAt 6000; SyncManager.Escalate; SyncManager.RetryAt 11000]
  = [3; 1; 1; 1].
Proof. reflexivity. Qed.

(** ** The priority classifier *)

(** C9: [calculateSyncPriority] is a total function into {1, 2, 3}:
    triage level IMMEDIATE gives 1; otherwise a non-empty array of emergency
    actions gives 1; otherwise DELAYED gives 2; every other input (another or
    a missing triage level, no or an empty array of actions) gives 3. *)
Theorem calculateSyncPriority_classifies (record : OfflineDB.RecordInput) :
  In (OfflineDB.calculateSyncPriority record) [1; 2; 3] /\
  (OfflineDB.in_triageLevel record = Some "IMMEDIATE" ->
   OfflineDB.calculateSyncPriority record = 1) /\
  ((exists x l, OfflineDB.in_emergencyActions record = Some (x :: l)) ->
   OfflineDB.calculateSyncPriority record = 1) /\
  (OfflineDB.in_triageLevel record = Some "DELAYED" ->
   OfflineDB.in_emergencyActions record = None \/
   OfflineDB.in_emergencyActions record = Some [] ->
   OfflineDB.calculateSyncPriority record = 2) /\
  (OfflineDB.in_triageLevel record <> Some "IMMEDIATE" ->
   OfflineDB.in_triageLevel record <> Some "DELAYED" ->
   OfflineDB.in_emergencyActions record = None \/
   OfflineDB.in_emergencyActions record = Some [] ->
   OfflineDB.calculateSyncPriority record = 3).
Proof.
  destruct record as [sid t a]. unfold OfflineDB.calculateSyncPriority. simpl.
  assert (forall name, OfflineDB.isTriage t name = true <-> t = Some name) as T.
  { intros name. destruct t as [s|]; simpl.
    - rewrite String.eqb_eq. split; congruence.
    - split; discriminate. }
  assert (OfflineDB.hasEmergencyActions a = false <-> a = None \/ a = Some []) as E.
  { destruct a as [[|x l]|]; simpl; split; intros H; auto;
      try discriminate; destruct H; discriminate. }
  repeat split.
  - destruct (OfflineDB.isTriage t "IMMEDIATE");
      destruct (OfflineDB.hasEmergencyActions a);
      destruct (OfflineDB.isTriage t "DELAYED"); simpl; auto.
  - intros H. apply T in H. now rewrite H.
  - intros (x & l & ->). simpl.
    now destruct (OfflineDB.isTriage t "IMMEDIATE").
  - intros Hd Ha. apply E in Ha. rewrite Ha.
    subst t. reflexivity.
  - intros Hi Hd Ha. apply E in Ha. rewrite Ha.
    destruct (OfflineDB.isTriage t "IMMEDIATE") eqn:I;
      [apply T in I; contradiction|].
    destruct (OfflineDB.isTriage t "DELAYED") eqn:D;
      [apply T in D; contradiction|]. reflexivity.
Qed.

Lemma calculateSyncPriority_classifies_witness :
  OfflineDB.calculateSyncPriority Scenario.immediateRecord = 1 /\
  OfflineDB.calculateSyncPriority
    {| OfflineDB.in_soldierId := "S-100";
       OfflineDB.in_triageLevel := Some "MINOR";
       OfflineDB.in_emergencyActions := Some ["Apply tourniquet"] |} = 1 /\
  OfflineDB.calculateSyncPriority
    {| OfflineDB.in_soldierId := "S-100";
       OfflineDB.in_triageLevel := Some "DELAYED";
       OfflineDB.in_emergencyActions := Some [] |} = 2 /\
  OfflineDB.calculateSyncPriority
    {| OfflineDB.in_soldierId := "S-100";
       OfflineDB.in_triageLevel := Some "UNKNOWN";
       OfflineDB.in_emergencyActions := None |} = 3.
Proof.
  split; [|split; [|split]].
  - apply (proj1 (proj2 (calculateSyncPriority_classifies Scenario.immediateRecord))).
    reflexivity.
  - apply (proj1 (proj2 (proj2 (calculateSyncPriority_classifies _)))).
    exists "Apply tourniquet", []. reflexivity.
  - apply (proj1 (proj2 (proj2 (proj2 (calculateSyncPriority_classifies _))))).
    + reflexivity.
    + right. reflexivity.
  - apply (proj2 (proj2 (proj2 (proj2 (calculateSyncPriority_classifies _))))).
    + discriminate.
    + discriminate.
    + left. reflexivity.
Defined.

(** ** Clearing the queue *)

Lemma processSyncBatch_empty (deliver : nat -> SyncManager.SyncItem -> SyncManager.Outcome)
    (w : SyncManager.World) :
  SyncManager.syncQueue (SyncManager.manager w) = [] ->
  SyncManager.processSyncBatch deliver w =
    (SyncManager.setManager (SyncManager.stopSyncProcess (SyncManager.manager w)) w,
     None).
Proof.
  intros H. unfold SyncManager.processSyncBatch, SyncManager.claimBatch.
  now rewrite H.
Qed.

(** Passes over an empty queue deliver nothing and change nothing but the
    timer. *)
Lemma passes_empty (deliver : nat -> SyncManager.SyncItem -> SyncManager.Outcome)
    (n : nat) (w : SyncManager.World) :
  SyncManager.syncQueue (SyncManager.manager w) = [] ->
  SyncManager.syncQueue (SyncManager.manager (SyncManager.passes deliver n w)) = [] /\
  SyncManager.collection (SyncManager.passes deliver n w) = SyncManager.collection w /\
  SyncManager.failures (SyncManager.passes deliver n w) = SyncManager.failures w /\
  SyncManager.calls (SyncManager.passes deliver n w) = SyncManager.calls w.
Proof.
  revert w. induction n as [|n IH]; intros w H; simpl; [auto|].
  rewrite processSyncBatch_empty by assumption. simpl.
  destruct (IH (SyncManager.setManager
                  (SyncManager.stopSyncProcess (SyncManager.manager w)) w))
    as (Q & C & F & L); [exact H|].
  auto.
Qed.

(** C10: [clearQueue] empties the queue whatever it holds: afterwards the
    queue is empty, [getSyncStatus] reports length 0 and no item under any
    priority, the stored documents (and the logs) are as before, and no
    later pass hands anything to [syncSingleItem]: what was queued is not
    delivered any more. *)
Theorem clearQueue_drops_all_queued_work
    (deliver : nat -> SyncManager.SyncItem -> SyncManager.Outcome)
    (w : SyncManager.World) (n : nat) :
  let w' := SyncManager.clearQueue w in
  SyncManager.syncQueue (SyncManager.manager w') = [] /\
  SyncManager.st_queueLength (SyncManager.getSyncStatus (SyncManager.manager w')) = 0 /\
  SyncManager.st_queuePriorities (SyncManager.getSyncStatus (SyncManager.manager w'))
    = [(1, 0); (2, 0); (3, 0)] /\
  SyncManager.st_lastSync (SyncManager.getSyncStatus (SyncManager.manager w')) = None /\
  SyncManager.collection w' = SyncManager.collection w /\
  SyncManager.failures w' = SyncManager.failures w /\
  SyncManager.calls w' = SyncManager.calls w /\
  SyncManager.syncQueue (SyncManager.manager (SyncManager.passes deliver n w')) = [] /\
  SyncManager.calls (SyncManager.passes deliver n w') = SyncManager.calls w /\
  SyncManager.collection (SyncManager.passes deliver n w') = SyncManager.collection w.
Proof.
  cbv zeta.
  destruct (passes_empty deliver n (SyncManager.clearQueue w) eq_refl)
    as (Q & C & F & L).
  repeat split; try reflexivity; assumption.
Qed.

(** * More of the code *)

(** ** One pass of the manager *)

(** What a batch does, whatever the deliveries do: every item is handed to
    [syncSingleItem] once, in order; the retried items are pushed behind
    the queue; each item counts under exactly one of the three results. *)
Lemma runBatch_accounts (deliver : nat -> SyncManager.SyncItem -> SyncManager.Outcome)
    (batch : list SyncManager.SyncItem) :
  forall (w : SyncManager.World) (res : SyncManager.Results),
  exists (pushed : list SyncManager.SyncItem) (logs : list SyncManager.FailureLog),
    let st := SyncManager.runBatch deliver batch (w, res) in
    SyncManager.manager (fst st) =
      SyncManager.setQueue (SyncManager.syncQueue (SyncManager.manager w) ++ pushed)
        (SyncManager.manager w) /\
    SyncManager.failures (fst st) = SyncManager.failures w ++ logs /\
    SyncManager.calls (fst st) = SyncManager.calls w ++ map SyncManager.s_id batch /\
    SyncManager.retried (snd st) = SyncManager.retried res + Z.of_nat (List.length pushed) /\
    SyncManager.failedCount (snd st) =
      SyncManager.failedCount res + Z.of_nat (List.length logs) /\
    SyncManager.successful (snd st) + SyncManager.failedCount (snd st) +
      SyncManager.retried (snd st) =
      SyncManager.successful res + SyncManager.failedCount res + SyncManager.retried res +
      Z.of_nat (List.length batch) /\
    SyncManager.successful res <= SyncManager.successful (snd st) /\
    Forall (fun j => exists i t,
              In i batch /\
              SyncManager.s_attempts i < SyncManager.maxRetries (SyncManager.manager w) /\
              j = SyncManager.retryItem t i) pushed /\
    Forall (fun f => exists i message t,
              In i batch /\
              SyncManager.maxRetries (SyncManager.manager w) <= SyncManager.s_attempts i /\
              f = SyncManager.logSyncFailure t (SyncManager.failItem message t i)) logs.
Proof.
  induction batch as [|item batch IH]; intros w res.
  - exists [], []. cbn. rewrite !app_nil_r.
    repeat split; try lia; try constructor.
    now destruct w as [[q s t m b] c f l].
  - rewrite runBatch_cons.
    destruct (SyncManager.processItem
                (deliver (List.length (SyncManager.calls w)) item) item (w, res))
      as [w1 res1] eqn:P.
    destruct (IH w1 res1) as (pushed & logs & Hm & Hf & Hc & Hr & Hfc & Hsum & Hs & Hp & Hl).
    cbv zeta in *. unfold SyncManager.processItem in P.
    destruct (deliver (List.length (SyncManager.calls w)) item) as [t|message t].
    + injection P as <- <-. exists pushed, logs. cbn in *.
      rewrite Hm, Hf, Hc, Hr, Hfc, <- app_assoc. cbn.
      repeat split; try lia.
      * eapply Forall_impl; [|exact Hp]. cbn.
        intros j (i & t' & Hi & Ha & ->). exists i, t'. auto.
      * eapply Forall_impl; [|exact Hl]. cbn.
        intros f (i & msg & t' & Hi & Ha & ->). exists i, msg, t'. auto.
    + destruct (SyncManager.s_attempts item <? SyncManager.maxRetries (SyncManager.manager w))
        eqn:A; [apply Z.ltb_lt in A | apply Z.ltb_ge in A].
      * injection P as <- <-. exists (SyncManager.retryItem t item :: pushed), logs.
        cbn in *. rewrite Hm, Hf, Hc, Hr, Hfc, <- !app_assoc. cbn.
        repeat split; try lia.
        -- constructor; [exists item, t; auto|].
           eapply Forall_impl; [|exact Hp]. cbn.
           intros j (i & t' & Hi & Ha & ->). exists i, t'. auto.
        -- eapply Forall_impl; [|exact Hl]. cbn.
           intros f (i & msg & t' & Hi & Ha & ->). exists i, msg, t'. auto.
      * injection P as <- <-.
        exists pushed,
          (SyncManager.logSyncFailure t (SyncManager.failItem message t item) :: logs).
        cbn in *. rewrite Hm, Hf, Hc, Hr, Hfc, <- !app_assoc. cbn.
        repeat split; try lia.
        -- eapply Forall_impl; [|exact Hp]. cbn.
           intros j (i & t' & Hi & Ha & ->). exists i, t'. auto.
        -- constructor; [exists item, message, t; auto|].
           eapply Forall_impl; [|exact Hl]. cbn.
           intros f (i & msg & t' & Hi & Ha & ->). exists i, msg, t'. auto.
Qed.

Lemma processSyncBatch_unfold (deliver : nat -> SyncManager.SyncItem -> SyncManager.Outcome)
    (w : SyncManager.World) :
  SyncManager.syncQueue (SyncManager.manager w) <> [] ->
  let m := SyncManager.manager w in
  let st := SyncManager.runBatch deliver
              (firstn (SyncManager.syncBatchSize m) (SyncManager.syncQueue m))
              (SyncManager.setManager
                 (SyncManager.setQueue
                    (skipn (SyncManager.syncBatchSize m) (SyncManager.syncQueue m)) m) w,
               SyncManager.noResults) in
  SyncManager.processSyncBatch deliver w = (fst st, Some (snd st)).
Proof.
  intros H. cbv zeta. unfold SyncManager.processSyncBatch.
  rewrite claimBatch_takes_prefix by exact H.
  now destruct (SyncManager.runBatch deliver _ _).
Qed.

(** X1: in a pass over a queue that is not empty, whatever the deliveries
    do, every item of the batch (the first [syncBatchSize] items) is handed
    to [syncSingleItem] exactly once, in queue order: a failure of one item
    does not stop the others.  Each item counts under exactly one of
    [successful], [failed] and [retried]; the items counted as retried are
    the ones pushed behind the rest of the queue, and the items counted as
    failed are the ones logged. *)
Theorem pass_delivers_each_batch_item_once
    (deliver : nat -> SyncManager.SyncItem -> SyncManager.Outcome)
    (w : SyncManager.World) :
  SyncManager.syncQueue (SyncManager.manager w) <> [] ->
  let m := SyncManager.manager w in
  let batch := firstn (SyncManager.syncBatchSize m) (SyncManager.syncQueue m) in
  let rest := skipn (SyncManager.syncBatchSize m) (SyncManager.syncQueue m) in
  let w' := fst (SyncManager.processSyncBatch deliver w) in
  exists res pushed logs,
    snd (SyncManager.processSyncBatch deliver w) = Some res /\
    SyncManager.calls w' = SyncManager.calls w ++ map SyncManager.s_id batch /\
    SyncManager.syncQueue (SyncManager.manager w') = rest ++ pushed /\
    SyncManager.failures w' = SyncManager.failures w ++ logs /\
    SyncManager.successful res + SyncManager.failedCount res + SyncManager.retried res =
      Z.of_nat (List.length batch) /\
    0 <= SyncManager.successful res /\
    SyncManager.retried res = Z.of_nat (List.length pushed) /\
    SyncManager.failedCount res = Z.of_nat (List.length logs) /\
    Forall (fun j => exists i t, In i batch /\ j = SyncManager.retryItem t i) pushed /\
    Forall (fun f => exists i, In i batch /\
                               SyncManager.f_syncItemId f = SyncManager.s_id i) logs.
Proof.
  intros H. cbv zeta. rewrite processSyncBatch_unfold by exact H. cbv zeta.
  match goal with |- context [SyncManager.runBatch deliver ?b (?w0, ?r0)] =>
    destruct (runBatch_accounts deliver b w0 r0)
      as (pushed & logs & Hm & Hf & Hc & Hr & Hfc & Hsum & Hs & Hp & Hl)
  end.
  cbv zeta in *.
  destruct (SyncManager.runBatch deliver _ _) as [w' res]. cbn [fst snd] in *.
  exists res, pushed, logs. rewrite Hm, Hf, Hc. cbn in *.
  split; [reflexivity|]. split; [reflexivity|]. split; [reflexivity|].
  split; [reflexivity|]. split; [lia|]. split; [lia|]. split; [lia|].
  split; [lia|]. split.
  - eapply Forall_impl; [|exact Hp]. cbn.
    intros j (i & t & Hi & _ & ->). exists i, t. auto.
  - eapply Forall_impl; [|exact Hl]. cbn.
    intros f (i & msg & t & Hi & _ & ->). exists i. auto.
Qed.

Lemma pass_delivers_each_batch_item_once_witness :
  let w := Scenario.elevenQueued in
  let m := SyncManager.manager w in
  let batch := firstn (SyncManager.syncBatchSize m) (SyncManager.syncQueue m) in
  let rest := skipn (SyncManager.syncBatchSize m) (SyncManager.syncQueue m) in
  let w' := fst (SyncManager.processSyncBatch Scenario.failFirst w) in
  exists res pushed logs,
    snd (SyncManager.processSyncBatch Scenario.failFirst w) = Some res /\
    SyncManager.calls w' = SyncManager.calls w ++ map SyncManager.s_id batch /\
    SyncManager.syncQueue (SyncManager.manager w') = rest ++ pushed /\
    SyncManager.failures w' = SyncManager.failures w ++ logs /\
    SyncManager.successful res + SyncManager.failedCount res + SyncManager.retried res =
      Z.of_nat (List.length batch) /\
    0 <= SyncManager.successful res /\
    SyncManager.retried res = Z.of_nat (List.length pushed) /\
    SyncManager.failedCount res = Z.of_nat (List.length logs) /\
    Forall (fun j => exists i t, In i batch /\ j = SyncManager.retryItem t i) pushed /\
    Forall (fun f => exists i, In i batch /\
                               SyncManager.f_syncItemId f = SyncManager.s_id i) logs.
Proof.
  apply (pass_delivers_each_batch_item_once Scenario.failFirst Scenario.elevenQueued).
  discriminate.
Defined.

(** ** Sequences of operations of the manager *)

Lemma In_skipn {A : Type} (n : nat) (l : list A) (x : A) :
  In x (skipn n l) -> In x l.
Proof.
  intros H. rewrite <- (firstn_skipn n l). apply in_or_app. now right.
Qed.

(** What a pass leaves: the settings as they were; a queue whose items were
    queued before or are retries of such items; the old failure logs and
    new ones for items that had no attempt left; the timer stopped if the
    queue was empty, and as it was otherwise. *)
Lemma processSyncBatch_effect
    (deliver : nat -> SyncManager.SyncItem -> SyncManager.Outcome)
    (w : SyncManager.World) :
  let m := SyncManager.manager w in
  let m' := SyncManager.manager (fst (SyncManager.processSyncBatch deliver w)) in
  SyncManager.maxRetries m' = SyncManager.maxRetries m /\
  SyncManager.syncBatchSize m' = SyncManager.syncBatchSize m /\
  (forall j, In j (SyncManager.syncQueue m') ->
     In j (SyncManager.syncQueue m) \/
     exists i t, In i (SyncManager.syncQueue m) /\
                 SyncManager.s_attempts i < SyncManager.maxRetries m /\
                 j = SyncManager.retryItem t i) /\
  (exists logs,
     SyncManager.failures (fst (SyncManager.processSyncBatch deliver w)) =
       SyncManager.failures w ++ logs /\
     Forall (fun f => exists i message t,
               In i (SyncManager.syncQueue m) /\
               SyncManager.maxRetries m <= SyncManager.s_attempts i /\
               f = SyncManager.logSyncFailure t (SyncManager.failItem message t i)) logs) /\
  (SyncManager.syncQueue m = [] ->
     SyncManager.isSyncing m' = false /\ SyncManager.syncInterval m' = false /\
     SyncManager.syncQueue m' = []) /\
  (SyncManager.syncQueue m <> [] ->
     SyncManager.isSyncing m' = SyncManager.isSyncing m /\
     SyncManager.syncInterval m' = SyncManager.syncInterval m).
Proof.
  cbv zeta.
  destruct (SyncManager.syncQueue (SyncManager.manager w)) as [|i0 q0] eqn:Q.
  - rewrite processSyncBatch_empty by exact Q. cbn. rewrite Q.
    repeat split; try congruence; try tauto.
    exists []. rewrite app_nil_r. split; [reflexivity | constructor].
  - assert (SyncManager.syncQueue (SyncManager.manager w) <> []) as Hne by congruence.
    rewrite <- Q. clear Q i0 q0.
    rewrite processSyncBatch_unfold by exact Hne. cbv zeta.
    match goal with |- context [SyncManager.runBatch deliver ?b (?w0, ?r0)] =>
      destruct (runBatch_accounts deliver b w0 r0)
        as (pushed & logs & Hm & Hf & _ & _ & _ & _ & _ & Hp & Hl)
    end.
    cbv zeta in *.
    destruct (SyncManager.runBatch deliver _ _) as [w' res]. cbn [fst snd] in *.
    rewrite Hm, Hf.
    cbn [SyncManager.maxRetries SyncManager.syncBatchSize SyncManager.syncQueue
         SyncManager.isSyncing SyncManager.syncInterval SyncManager.setQueue
         SyncManager.setManager SyncManager.manager SyncManager.failures] in *.
    repeat split; try congruence.
    + intros j Hj. apply in_app_or in Hj. destruct Hj as [Hj|Hj].
      * left. revert Hj. apply In_skipn.
      * right. rewrite Forall_forall in Hp.
        destruct (Hp j Hj) as (i & t & Hi & Ha & ->).
        exists i, t. split; [|auto]. revert Hi. apply In_firstn.
    + exists logs. split; [reflexivity|].
      eapply Forall_impl; [|exact Hl]. cbn.
      intros f (i & msg & t & Hi & Ha & ->). exists i, msg, t.
      split; [|auto]. revert Hi. apply In_firstn.
Qed.

Lemma queueForSync_manager (sid : string) (now : Z) (record : SyncManager.RecordData)
    (priority : option Z) (m : SyncManager.Manager) :
  let m' := snd (SyncManager.queueForSync sid now record priority m) in
  SyncManager.maxRetries m' = SyncManager.maxRetries m /\
  SyncManager.syncBatchSize m' = SyncManager.syncBatchSize m /\
  SyncManager.isSyncing m' = true /\
  SyncManager.syncInterval m' =
    (if SyncManager.isSyncing m then SyncManager.syncInterval m else true).
Proof.
  cbv zeta. unfold SyncManager.queueForSync, SyncManager.startSyncProcess.
  cbn [snd SyncManager.setQueue SyncManager.isSyncing].
  destruct (SyncManager.isSyncing m) eqn:E; cbn; auto.
Qed.

Lemma queueForSync_In (sid : string) (now : Z) (record : SyncManager.RecordData)
    (priority : option Z) (m : SyncManager.Manager) (j : SyncManager.SyncItem) :
  In j (SyncManager.syncQueue (snd (SyncManager.queueForSync sid now record priority m))) ->
  In j (SyncManager.syncQueue m) \/
  (SyncManager.s_attempts j = 0 /\ SyncManager.s_status j = SyncManager.queued /\
   SyncManager.s_id j = sid).
Proof.
  rewrite queueForSync_queue, sort_In. intros H. apply in_app_or in H.
  destruct H as [H|[<-|[]]]; [now left | right; cbn; auto].
Qed.

Section Invariants.
Import SyncManagerOps.

Lemma pass_keeps_attemptsBounded
    (deliver : nat -> SyncManager.SyncItem -> SyncManager.Outcome)
    (w : SyncManager.World) :
  attemptsBounded w -> attemptsBounded (fst (SyncManager.processSyncBatch deliver w)).
Proof.
  intros (Hmax & Hq & Hf).
  destruct (processSyncBatch_effect deliver w)
    as (Em & _ & Hin & (logs & El & Hl) & _ & _).
  unfold attemptsBounded. rewrite Em, El. split; [exact Hmax|]. split.
  - apply Forall_forall. intros j Hj. rewrite Forall_forall in Hq.
    destruct (Hin j Hj) as [Hold|(i & t & Hi & Ha & ->)]; [now apply Hq|].
    specialize (Hq i Hi). cbn. lia.
  - apply Forall_app. split; [exact Hf|].
    eapply Forall_impl; [|exact Hl]. cbn. intros f (i & msg & t & Hi & Ha & ->).
    rewrite Forall_forall in Hq. specialize (Hq i Hi). cbn. lia.
Qed.

Lemma escalate_keeps_attemptsBounded (w : SyncManager.World) :
  attemptsBounded w ->
  attemptsBounded (SyncManager.setManager (SyncManager.escalateAll (SyncManager.manager w)) w).
Proof.
  intros (Hmax & Hq & Hf). unfold attemptsBounded.
  cbn [SyncManager.manager SyncManager.setManager SyncManager.failures].
  rewrite escalateAll_queue.
  split; [exact Hmax|]. split; [|exact Hf].
  apply Forall_forall. intros j Hj. apply in_map_iff in Hj.
  destruct Hj as (i & <- & Hi). rewrite Forall_forall in Hq. exact (Hq i Hi).
Qed.

Lemma applyOp_keeps_attemptsBounded (w : SyncManager.World) (op : Op) :
  attemptsBounded w -> attemptsBounded (applyOp w op).
Proof.
  intros H. destruct op as [sid now record priority|deliver|deliver|deliver|]; cbn [applyOp].
  - destruct H as (Hmax & Hq & Hf).
    destruct (queueForSync_manager sid now record priority (SyncManager.manager w))
      as (Em & _).
    unfold attemptsBounded.
    cbn [SyncManager.manager SyncManager.setManager SyncManager.failures].
    rewrite Em. split; [exact Hmax|]. split; [|exact Hf].
    apply Forall_forall. intros j Hj. apply queueForSync_In in Hj.
    rewrite Forall_forall in Hq. destruct Hj as [Hj|(Ha & _)]; [now apply Hq | lia].
  - destruct (SyncManager.syncInterval (SyncManager.manager w)); [|exact H].
    now apply pass_keeps_attemptsBounded.
  - now apply pass_keeps_attemptsBounded.
  - unfold SyncManager.activateEmergencySync.
    now apply pass_keeps_attemptsBounded, escalate_keeps_attemptsBounded.
  - destruct H as (Hmax & Hq & Hf). unfold attemptsBounded. cbn.
    split; [exact Hmax|]. split; [constructor | exact Hf].
Qed.

Lemma pass_keeps_noneSynced
    (deliver : nat -> SyncManager.SyncItem -> SyncManager.Outcome)
    (w : SyncManager.World) :
  noneSynced w -> noneSynced (fst (SyncManager.processSyncBatch deliver w)).
Proof.
  unfold noneSynced. intros Hq.
  destruct (processSyncBatch_effect deliver w) as (_ & _ & Hin & _).
  apply Forall_forall. intros j Hj. rewrite Forall_forall in Hq.
  destruct (Hin j Hj) as [Hold|(i & t & Hi & Ha & ->)]; [now apply Hq | discriminate].
Qed.

Lemma applyOp_keeps_noneSynced (w : SyncManager.World) (op : Op) :
  noneSynced w -> noneSynced (applyOp w op).
Proof.
  intros H. destruct op as [sid now record priority|deliver|deliver|deliver|]; cbn [applyOp].
  - unfold noneSynced in *. cbn [SyncManager.manager SyncManager.setManager].
    apply Forall_forall. intros j Hj. apply queueForSync_In in Hj.
    rewrite Forall_forall in H. destruct Hj as [Hj|(_ & Hs & _)]; [now apply H|].
    rewrite Hs. discriminate.
  - destruct (SyncManager.syncInterval (SyncManager.manager w)); [|exact H].
    now apply pass_keeps_noneSynced.
  - now apply pass_keeps_noneSynced.
  - unfold SyncManager.activateEmergencySync. apply pass_keeps_noneSynced.
    unfold noneSynced in *. cbn [SyncManager.manager SyncManager.setManager].
    rewrite escalateAll_queue. apply Forall_forall. intros j Hj.
    apply in_map_iff in Hj. destruct Hj as (i & <- & Hi).
    rewrite Forall_forall in H. exact (H i Hi).
  - unfold noneSynced. cbn. constructor.
Qed.

Lemma pass_keeps_served
    (deliver : nat -> SyncManager.SyncItem -> SyncManager.Outcome)
    (w : SyncManager.World) :
  served w -> served (fst (SyncManager.processSyncBatch deliver w)).
Proof.
  intros (Heq & Hq).
  destruct (processSyncBatch_effect deliver w) as (_ & _ & _ & _ & Hempty & Hfull).
  destruct (SyncManager.syncQueue (SyncManager.manager w)) as [|i q] eqn:Q.
  - destruct (Hempty eq_refl) as (E1 & E2 & E3). unfold served.
    rewrite E1, E2, E3. split; [reflexivity | congruence].
  - destruct Hfull as (E1 & E2); [discriminate|]. unfold served.
    rewrite E1, E2. split; [exact Heq|]. intros _. apply Hq. discriminate.
Qed.

Lemma applyOp_keeps_served (w : SyncManager.World) (op : Op) :
  served w -> served (applyOp w op).
Proof.
  intros H. destruct op as [sid now record priority|deliver|deliver|deliver|]; cbn [applyOp].
  - destruct H as (Heq & Hq).
    destruct (queueForSync_manager sid now record priority (SyncManager.manager w))
      as (_ & _ & E1 & E2).
    unfold served. cbn [SyncManager.manager SyncManager.setManager].
    rewrite E1, E2.
    destruct (SyncManager.isSyncing (SyncManager.manager w)); split; congruence.
  - destruct (SyncManager.syncInterval (SyncManager.manager w)) eqn:E; [|exact H].
    now apply pass_keeps_served.
  - now apply pass_keeps_served.
  - unfold SyncManager.activateEmergencySync. apply pass_keeps_served.
    destruct H as (Heq & Hq). unfold served.
    cbn [SyncManager.manager SyncManager.setManager].
    rewrite escalateAll_queue. unfold SyncManager.escalateAll.
    cbn [SyncManager.isSyncing SyncManager.syncInterval SyncManager.setQueue].
    split; [exact Heq|]. intros Hne. apply Hq. intros E. apply Hne. now rewrite E.
  - destruct H as (Heq & Hq). unfold served. cbn. split; [exact Heq | congruence].
Qed.

Lemma runOps_keeps (P : SyncManager.World -> Prop) :
  (forall w op, P w -> P (applyOp w op)) ->
  forall ops w, P w -> P (runOps ops w).
Proof.
  intros Hstep ops. unfold runOps.
  induction ops as [|op ops IH]; intros w Hw; cbn; [exact Hw|].
  apply IH, Hstep, Hw.
Qed.
End Invariants.

Lemma applyOp_settings (w : SyncManager.World) (op : SyncManagerOps.Op) :
  SyncManager.maxRetries (SyncManager.manager (SyncManagerOps.applyOp w op)) =
    SyncManager.maxRetries (SyncManager.manager w) /\
  SyncManager.syncBatchSize (SyncManager.manager (SyncManagerOps.applyOp w op)) =
    SyncManager.syncBatchSize (SyncManager.manager w).
Proof.
  destruct op as [sid now record priority|deliver|deliver|deliver|];
    cbn [SyncManagerOps.applyOp].
  - destruct (queueForSync_manager sid now record priority (SyncManager.manager w))
      as (E1 & E2 & _). cbn [SyncManager.manager SyncManager.setManager]. auto.
  - destruct (SyncManager.syncInterval (SyncManager.manager w)); [|auto].
    destruct (processSyncBatch_effect deliver w) as (E1 & E2 & _). auto.
  - destruct (processSyncBatch_effect deliver w) as (E1 & E2 & _). auto.
  - unfold SyncManager.activateEmergencySync.
    destruct (processSyncBatch_effect deliver
                (SyncManager.setManager (SyncManager.escalateAll (SyncManager.manager w)) w))
      as (E1 & E2 & _). rewrite E1, E2. auto.
  - auto.
Qed.

(** X2: over any sequence of whole operations of the manager
    ([queueForSync], timer ticks, [forceSync], [activateEmergencySync],
    [clearQueue]), [maxRetries] stays as it is, the attempts of every queued
    item stay between 0 and [maxRetries], and every failure that is logged
    reports exactly [maxRetries] attempts. *)
Theorem attempts_stay_within_maxRetries
    (ops : list SyncManagerOps.Op) (w : SyncManager.World) :
  0 <= SyncManager.maxRetries (SyncManager.manager w) ->
  Forall (fun i => 0 <= SyncManager.s_attempts i <= SyncManager.maxRetries (SyncManager.manager w))
    (SyncManager.syncQueue (SyncManager.manager w)) ->
  Forall (fun f => SyncManager.f_attempts f = SyncManager.maxRetries (SyncManager.manager w))
    (SyncManager.failures w) ->
  let w' := SyncManagerOps.runOps ops w in
  SyncManager.maxRetries (SyncManager.manager w') =
    SyncManager.maxRetries (SyncManager.manager w) /\
  Forall (fun i => 0 <= SyncManager.s_attempts i <= SyncManager.maxRetries (SyncManager.manager w))
    (SyncManager.syncQueue (SyncManager.manager w')) /\
  Forall (fun f => SyncManager.f_attempts f = SyncManager.maxRetries (SyncManager.manager w))
    (SyncManager.failures w').
Proof.
  intros H1 H2 H3. cbv zeta.
  assert (SyncManager.maxRetries (SyncManager.manager (SyncManagerOps.runOps ops w)) =
            SyncManager.maxRetries (SyncManager.manager w) /\
          SyncManagerOps.attemptsBounded (SyncManagerOps.runOps ops w)) as [E (_ & Hq & Hf)].
  { apply (runOps_keeps
             (fun w' => SyncManager.maxRetries (SyncManager.manager w') =
                          SyncManager.maxRetries (SyncManager.manager w) /\
                        SyncManagerOps.attemptsBounded w')).
    - intros w0 op [E0 B0]. split; [|now apply applyOp_keeps_attemptsBounded].
      destruct (applyOp_settings w0 op) as [E1 _]. congruence.
    - split; [reflexivity|]. repeat split; assumption. }
  rewrite E in Hq, Hf. auto.
Qed.

Lemma attempts_stay_within_maxRetries_witness :
  let w' := SyncManagerOps.runOps Scenario2.someOps SyncManager.newWorld in
  SyncManager.maxRetries (SyncManager.manager w') = 3 /\
  Forall (fun i => 0 <= SyncManager.s_attempts i <= 3)
    (SyncManager.syncQueue (SyncManager.manager w')) /\
  Forall (fun f => SyncManager.f_attempts f = 3) (SyncManager.failures w').
Proof.
  apply (attempts_stay_within_maxRetries Scenario2.someOps SyncManager.newWorld).
  - cbn. lia.
  - constructor.
  - constructor.
Defined.

Lemma getLastSyncTime_none (m : SyncManager.Manager) :
  Forall (fun i => SyncManager.s_status i <> SyncManager.synced) (SyncManager.syncQueue m) ->
  SyncManager.getLastSyncTime m = None.
Proof.
  intros H. unfold SyncManager.getLastSyncTime.
  destruct (SyncManager.syncQueue m) as [|i q] eqn:Q; [reflexivity|].
  replace (filter SyncManager.isSynced (i :: q)) with (@nil SyncManager.SyncItem);
    [reflexivity|].
  symmetry. clear Q. induction H as [|x l Hx _ IH]; [reflexivity|].
  cbn. unfold SyncManager.isSynced at 1.
  destruct (SyncManager.s_status x); try exact IH. congruence.
Qed.

(** X3: [getSyncStatus] never reports a last sync time.  [getLastSyncTime]
    looks for items with status ['synced'] in the queue, and no operation
    puts one there: delivered items leave the queue, retried ones are
    ['retrying'], new ones ['queued'].  So from any state without such an
    item (the constructor's is one), after any sequence of whole operations,
    [lastSync] is [null]. *)
Theorem lastSync_is_never_reported
    (ops : list SyncManagerOps.Op) (w : SyncManager.World) :
  Forall (fun i => SyncManager.s_status i <> SyncManager.synced)
    (SyncManager.syncQueue (SyncManager.manager w)) ->
  let w' := SyncManagerOps.runOps ops w in
  Forall (fun i => SyncManager.s_status i <> SyncManager.synced)
    (SyncManager.syncQueue (SyncManager.manager w')) /\
  SyncManager.st_lastSync (SyncManager.getSyncStatus (SyncManager.manager w')) = None.
Proof.
  intros H. cbv zeta.
  assert (SyncManagerOps.noneSynced (SyncManagerOps.runOps ops w)) as H'.
  { apply (runOps_keeps SyncManagerOps.noneSynced); [|exact H].
    intros w0 op. apply applyOp_keeps_noneSynced. }
  split; [exact H'|]. cbn. now apply getLastSyncTime_none.
Qed.

Lemma lastSync_is_never_reported_witness :
  let w' := SyncManagerOps.runOps Scenario2.someOps SyncManager.newWorld in
  Forall (fun i => SyncManager.s_status i <> SyncManager.synced)
    (SyncManager.syncQueue (SyncManager.manager w')) /\
  SyncManager.st_lastSync (SyncManager.getSyncStatus (SyncManager.manager w')) = None.
Proof.
  apply (lastSync_is_never_reported Scenario2.someOps SyncManager.newWorld).
  constructor.
Defined.

(** X4: when the operations of the manager run one after the other, queued
    work is never left without the timer: [isSyncing] is true exactly when
    the interval timer is set, and whenever the queue is not empty the timer
    is set, so a later tick will take the next batch. *)
Theorem queued_work_keeps_the_timer_set
    (ops : list SyncManagerOps.Op) (w : SyncManager.World) :
  SyncManager.isSyncing (SyncManager.manager w) =
    SyncManager.syncInterval (SyncManager.manager w) ->
  (SyncManager.syncQueue (SyncManager.manager w) <> [] ->
   SyncManager.syncInterval (SyncManager.manager w) = true) ->
  let m' := SyncManager.manager (SyncManagerOps.runOps ops w) in
  SyncManager.isSyncing m' = SyncManager.syncInterval m' /\
  (SyncManager.syncQueue m' <> [] -> SyncManager.syncInterval m' = true).
Proof.
  intros H1 H2. cbv zeta.
  apply (runOps_keeps SyncManagerOps.served).
  - intros w0 op. apply applyOp_keeps_served.
  - split; assumption.
Qed.

Lemma queued_work_keeps_the_timer_set_witness :
  let m' := SyncManager.manager
              (SyncManagerOps.runOps Scenario2.someOps SyncManager.newWorld) in
  SyncManager.isSyncing m' = SyncManager.syncInterval m' /\
  (SyncManager.syncQueue m' <> [] -> SyncManager.syncInterval m' = true).
Proof.
  apply (queued_work_keeps_the_timer_set Scenario2.someOps SyncManager.newWorld).
  - reflexivity.
  - intros H. now contradiction H.
Defined.

(** ** A retry after the timer was stopped *)

(** X5: passes overlap with timer ticks.  If the interval fires while the
    queue is empty but a pass still waits for the delivery of its last item,
    [processSyncBatch] stops the sync process; when that delivery then
    fails and the item has attempts left, it is pushed onto the queue of a
    manager whose timer is cleared and whose [isSyncing] is false: no pass
    is running, and timer ticks do nothing any more.  The item waits until
    [queueForSync] or [forceSync] is called. *)
Theorem retry_after_timer_stopped_is_stranded
    (d : SyncManager.Driver) (item : SyncManager.SyncItem)
    (res : SyncManager.Results) (message : string) (t : Z) :
  SyncManager.syncQueue (SyncManager.manager (SyncManager.world d)) = [] ->
  SyncManager.syncInterval (SyncManager.manager (SyncManager.world d)) = true ->
  SyncManager.running d =
    [{| SyncManager.pending := [item]; SyncManager.results := res |}] ->
  SyncManager.s_attempts item <
    SyncManager.maxRetries (SyncManager.manager (SyncManager.world d)) ->
  let d' := SyncManager.resume 0 (SyncManager.Threw message t) (SyncManager.timerTick d) in
  SyncManager.syncQueue (SyncManager.manager (SyncManager.world d')) =
    [SyncManager.retryItem t item] /\
  SyncManager.running d' = [] /\
  SyncManager.syncInterval (SyncManager.manager (SyncManager.world d')) = false /\
  SyncManager.isSyncing (SyncManager.manager (SyncManager.world d')) = false /\
  SyncManager.timerTick d' = d'.
Proof.
  intros Hq Ht Hr Ha. cbv zeta.
  assert (SyncManager.timerTick d =
            {| SyncManager.world :=
                 SyncManager.setManager
                   (SyncManager.stopSyncProcess (SyncManager.manager (SyncManager.world d)))
                   (SyncManager.world d);
               SyncManager.running := SyncManager.running d |}) as ->.
  { unfold SyncManager.timerTick, SyncManager.startPass, SyncManager.claimBatch.
    now rewrite Ht, Hq. }
  unfold SyncManager.resume. cbn [SyncManager.running SyncManager.world]. rewrite Hr.
  cbn [nth_error]. unfold SyncManager.processItem.
  cbn [SyncManager.manager SyncManager.setManager SyncManager.stopSyncProcess
       SyncManager.maxRetries].
  apply Z.ltb_lt in Ha. rewrite Ha.
  cbn [SyncManager.world SyncManager.running SyncManager.manager SyncManager.setQueue
       SyncManager.syncQueue SyncManager.syncInterval SyncManager.isSyncing
       firstn skipn app].
  unfold SyncManager.stopSyncProcess, SyncManager.timerTick.
  cbn [SyncManager.world SyncManager.manager SyncManager.setQueue
       SyncManager.syncQueue SyncManager.syncInterval SyncManager.isSyncing].
  rewrite Hq. repeat split.
Qed.

Lemma retry_after_timer_stopped_is_stranded_witness :
  let d' := SyncManager.resume 0 (SyncManager.Threw "ECONNREFUSED" 12000)
              (SyncManager.timerTick Scenario2.onlyPassWaiting) in
  SyncManager.syncQueue (SyncManager.manager (SyncManager.world d')) =
    [SyncManager.retryItem 12000 Scenario.routineItem] /\
  SyncManager.running d' = [] /\
  SyncManager.syncInterval (SyncManager.manager (SyncManager.world d')) = false /\
  SyncManager.isSyncing (SyncManager.manager (SyncManager.world d')) = false /\
  SyncManager.timerTick d' = d'.
Proof.
  apply (retry_after_timer_stopped_is_stranded Scenario2.onlyPassWaiting
           Scenario.routineItem SyncManager.noResults "ECONNREFUSED" 12000).
  - reflexivity.
  - reflexivity.
  - reflexivity.
  - reflexivity.
Defined.

(** ** Deliveries that succeed *)

Lemma firstn_plus {A : Type} (a b : nat) (l : list A) :
  firstn (a + b) l = firstn a l ++ firstn b (skipn a l).
Proof.
  revert l. induction a as [|a IH]; intros l; [reflexivity|].
  destruct l as [|x l]; cbn; [now rewrite firstn_nil | now rewrite IH].
Qed.

Section AllDeliver.
Variable deliver : nat -> SyncManager.SyncItem -> SyncManager.Outcome.
Hypothesis delivers : SyncManagerOps.allDeliver deliver.

Lemma runBatch_all_delivered (batch : list SyncManager.SyncItem) :
  forall (w : SyncManager.World) (res : SyncManager.Results),
  let w' := fst (SyncManager.runBatch deliver batch (w, res)) in
  SyncManager.manager w' = SyncManager.manager w /\
  SyncManager.failures w' = SyncManager.failures w /\
  SyncManager.calls w' = SyncManager.calls w ++ map SyncManager.s_id batch.
Proof.
  induction batch as [|item batch IH]; intros w res; cbv zeta.
  - cbn. now rewrite app_nil_r.
  - rewrite runBatch_cons.
    destruct (delivers (List.length (SyncManager.calls w)) item) as (t & ->).
    unfold SyncManager.processItem.
    match goal with |- context [SyncManager.runBatch deliver batch (?w1, ?r1)] =>
      destruct (IH w1 r1) as (Em & Ef & Ec)
    end.
    rewrite Em, Ef, Ec. cbn. now rewrite <- app_assoc.
Qed.

Lemma pass_all_delivered (w : SyncManager.World) :
  let m := SyncManager.manager w in
  let w' := fst (SyncManager.processSyncBatch deliver w) in
  SyncManager.syncQueue (SyncManager.manager w') =
    skipn (SyncManager.syncBatchSize m) (SyncManager.syncQueue m) /\
  SyncManager.syncBatchSize (SyncManager.manager w') = SyncManager.syncBatchSize m /\
  SyncManager.failures w' = SyncManager.failures w /\
  SyncManager.calls w' =
    SyncManager.calls w ++
    map SyncManager.s_id (firstn (SyncManager.syncBatchSize m) (SyncManager.syncQueue m)).
Proof.
  cbv zeta.
  destruct (SyncManager.syncQueue (SyncManager.manager w)) as [|i0 q0] eqn:Q.
  - rewrite processSyncBatch_empty by exact Q. cbn. rewrite Q, skipn_nil, firstn_nil.
    cbn. now rewrite app_nil_r.
  - assert (SyncManager.syncQueue (SyncManager.manager w) <> []) as Hne by congruence.
    rewrite <- Q. clear Q i0 q0.
    rewrite processSyncBatch_unfold by exact Hne. cbv zeta.
    match goal with |- context [SyncManager.runBatch deliver ?b (?w0, ?r0)] =>
      destruct (runBatch_all_delivered b w0 r0) as (Em & Ef & Ec)
    end.
    cbn [fst]. rewrite Em, Ef, Ec. cbn. auto.
Qed.
End AllDeliver.

(** X6: with deliveries that always succeed, [k] passes deliver the first
    [k * syncBatchSize] items of the queue, each once and in queue order,
    log no failure, and leave the rest of the queue as it was; so a queue of
    at most [k * syncBatchSize] items is empty after [k] passes with every
    item delivered. *)
Theorem successful_passes_drain_the_queue
    (deliver : nat -> SyncManager.SyncItem -> SyncManager.Outcome)
    (w : SyncManager.World) (k : nat) :
  SyncManagerOps.allDeliver deliver ->
  let m := SyncManager.manager w in
  let n := (k * SyncManager.syncBatchSize m)%nat in
  let w' := SyncManager.passes deliver k w in
  SyncManager.syncQueue (SyncManager.manager w') = skipn n (SyncManager.syncQueue m) /\
  SyncManager.calls w' =
    SyncManager.calls w ++ map SyncManager.s_id (firstn n (SyncManager.syncQueue m)) /\
  SyncManager.failures w' = SyncManager.failures w /\
  ((List.length (SyncManager.syncQueue m) <= n)%nat ->
   SyncManager.syncQueue (SyncManager.manager w') = [] /\
   SyncManager.calls w' = SyncManager.calls w ++ map SyncManager.s_id (SyncManager.syncQueue m)).
Proof.
  intros Hd. cbv zeta.
  assert (SyncManager.syncQueue (SyncManager.manager (SyncManager.passes deliver k w)) =
            skipn (k * SyncManager.syncBatchSize (SyncManager.manager w))
              (SyncManager.syncQueue (SyncManager.manager w)) /\
          SyncManager.syncBatchSize (SyncManager.manager (SyncManager.passes deliver k w)) =
            SyncManager.syncBatchSize (SyncManager.manager w) /\
          SyncManager.failures (SyncManager.passes deliver k w) = SyncManager.failures w /\
          SyncManager.calls (SyncManager.passes deliver k w) =
            SyncManager.calls w ++
            map SyncManager.s_id
              (firstn (k * SyncManager.syncBatchSize (SyncManager.manager w))
                 (SyncManager.syncQueue (SyncManager.manager w)))) as (Eq & _ & Ef & Ec).
  { induction k as [|k IH].
    - cbn. now rewrite app_nil_r.
    - destruct IH as (Eq & Eb & Ef & Ec). rewrite passes_snoc.
      destruct (pass_all_delivered deliver Hd (SyncManager.passes deliver k w))
        as (Eq' & Eb' & Ef' & Ec').
      rewrite Eq', Eb', Ef', Ec', Eq, Eb, Ef, Ec.
      rewrite skipn_skipn, <- app_assoc, <- map_app.
      replace (S k * SyncManager.syncBatchSize (SyncManager.manager w))%nat
        with (k * SyncManager.syncBatchSize (SyncManager.manager w) +
              SyncManager.syncBatchSize (SyncManager.manager w))%nat by lia.
      rewrite firstn_plus.
      replace (SyncManager.syncBatchSize (SyncManager.manager w) +
               k * SyncManager.syncBatchSize (SyncManager.manager w))%nat
        with (k * SyncManager.syncBatchSize (SyncManager.manager w) +
              SyncManager.syncBatchSize (SyncManager.manager w))%nat by lia.
      auto. }
  repeat split; try assumption.
  - rewrite Eq. now apply skipn_all2.
  - rewrite Ec. now rewrite firstn_all2.
Qed.

Lemma storing_allDeliver : SyncManagerOps.allDeliver Scenario2.storing.
Proof. intros n item. eexists. reflexivity. Qed.

Lemma successful_passes_drain_the_queue_witness :
  let w := Scenario.elevenQueued in
  let m := SyncManager.manager w in
  let n := (2 * SyncManager.syncBatchSize m)%nat in
  let w' := SyncManager.passes Scenario2.storing 2 w in
  SyncManager.syncQueue (SyncManager.manager w') = skipn n (SyncManager.syncQueue m) /\
  SyncManager.calls w' =
    SyncManager.calls w ++ map SyncManager.s_id (firstn n (SyncManager.syncQueue m)) /\
  SyncManager.failures w' = SyncManager.failures w /\
  ((List.length (SyncManager.syncQueue m) <= n)%nat ->
   SyncManager.syncQueue (SyncManager.manager w') = [] /\
   SyncManager.calls w' = SyncManager.calls w ++ map SyncManager.s_id (SyncManager.syncQueue m)).
Proof.
  apply (successful_passes_drain_the_queue Scenario2.storing Scenario.elevenQueued 2).
  exact storing_allDeliver.
Defined.

(** ** The status report *)

Lemma countOf_bump (p q : Z) (b : list (Z * Z)) :
  SyncManagerOps.countOf p (SyncManager.bump q b) =
  SyncManagerOps.countOf p b + (if q =? p then 1 else 0).
Proof.
  unfold SyncManagerOps.countOf.
  induction b as [|[k n] b IH]; cbn.
  - destruct (q =? p); cbn; lia.
  - destruct (k =? q) eqn:Ekq; cbn.
    + apply Z.eqb_eq in Ekq. subst k.
      destruct (q =? p); cbn; lia.
    + destruct (k =? p) eqn:Ekp; cbn; [|exact IH].
      apply Z.eqb_eq in Ekp. subst k. rewrite Z.eqb_sym, Ekq. lia.
Qed.

Lemma totalCount_bump (q : Z) (b : list (Z * Z)) :
  SyncManagerOps.totalCount (SyncManager.bump q b) = SyncManagerOps.totalCount b + 1.
Proof.
  unfold SyncManagerOps.totalCount.
  induction b as [|[k n] b IH]; cbn; [lia|].
  destruct (k =? q); cbn; lia.
Qed.

Lemma breakdown_fold (p : Z) (q : list SyncManager.SyncItem) :
  forall b : list (Z * Z),
  let b' := fold_left (fun b item => SyncManager.bump (SyncManager.s_priority item) b) q b in
  SyncManagerOps.countOf p b' =
    SyncManagerOps.countOf p b +
    Z.of_nat (List.length (filter (fun i => SyncManager.s_priority i =? p) q)) /\
  SyncManagerOps.totalCount b' = SyncManagerOps.totalCount b + Z.of_nat (List.length q).
Proof.
  induction q as [|item q IH]; intros b; cbv zeta; cbn [fold_left filter].
  - cbn. lia.
  - destruct (IH (SyncManager.bump (SyncManager.s_priority item) b)) as [E1 E2].
    rewrite E1, E2, countOf_bump, totalCount_bump.
    destruct (SyncManager.s_priority item =? p); cbn [List.length]; lia.
Qed.

(** X7: the priority breakdown of [getSyncStatus] accounts for every queued
    item: for each priority [p] (1, 2, 3 or any other number an item was
    queued with) the count under [p] is the number of queued items with
    that priority, and the counts add up to [queueLength]. *)
Theorem breakdown_counts_every_queued_item (m : SyncManager.Manager) (p : Z) :
  SyncManagerOps.countOf p (SyncManager.st_queuePriorities (SyncManager.getSyncStatus m)) =
    Z.of_nat (List.length (filter (fun i => SyncManager.s_priority i =? p)
                             (SyncManager.syncQueue m))) /\
  SyncManagerOps.totalCount (SyncManager.st_queuePriorities (SyncManager.getSyncStatus m)) =
    SyncManager.st_queueLength (SyncManager.getSyncStatus m).
Proof.
  cbn [SyncManager.getSyncStatus SyncManager.st_queuePriorities SyncManager.st_queueLength].
  unfold SyncManager.getQueuePriorityBreakdown.
  destruct (breakdown_fold p (SyncManager.syncQueue m) [(1, 0); (2, 0); (3, 0)]) as [E1 E2].
  rewrite E1, E2. split; [|reflexivity].
  unfold SyncManagerOps.countOf. cbn [find fst snd].
  destruct (1 =? p); [cbn [snd]; lia|]. destruct (2 =? p); [cbn [snd]; lia|].
  destruct (3 =? p); cbn [snd]; lia.
Qed.

(** ** Emergency mode *)

(** X8: after [activateEmergencySync], whatever the deliveries of the pass
    it starts do, every item left in the queue has priority 1: the items
    not taken were escalated, and the retried ones come back with
    [min(1 + 1, 1)]. *)
Theorem emergency_leaves_only_priority_1
    (deliver : nat -> SyncManager.SyncItem -> SyncManager.Outcome)
    (w : SyncManager.World) :
  Forall (fun i => SyncManager.s_priority i = 1)
    (SyncManager.syncQueue
       (SyncManager.manager (fst (SyncManager.activateEmergencySync deliver w)))).
Proof.
  unfold SyncManager.activateEmergencySync.
  destruct (processSyncBatch_effect deliver
              (SyncManager.setManager (SyncManager.escalateAll (SyncManager.manager w)) w))
    as (_ & _ & Hin & _).
  cbn [SyncManager.manager SyncManager.setManager] in Hin.
  rewrite escalateAll_queue in Hin.
  apply Forall_forall. intros j Hj.
  destruct (Hin j Hj) as [Hold|(i & t & Hi & _ & ->)].
  - apply in_map_iff in Hold. now destruct Hold as (i & <- & _).
  - apply in_map_iff in Hi. destruct Hi as (i' & <- & _). reflexivity.
Qed.

(** ** The documents a pass writes *)

Lemma writeRecord_docs (t : Z) (item : SyncManager.SyncItem) (c : SyncManager.Collection) :
  (exists nd, SyncManager.docs (SyncManager.writeRecord t item c) = SyncManager.docs c ++ [nd] /\
              SyncManager.d_synced nd = true) \/
  (SyncManager.r_id (SyncManager.s_record item) <> None /\
   Forall2 SyncManagerOps.keepsDoc (SyncManager.docs c)
     (SyncManager.docs (SyncManager.writeRecord t item c))).
Proof.
  unfold SyncManager.writeRecord.
  destruct (SyncManager.r_id (SyncManager.s_record item)) as [i|] eqn:R.
  - destruct (SyncManager.findById i c) as [existing|].
    + right. split; [discriminate|]. cbn [SyncManager.docs].
      induction (SyncManager.docs c) as [|d l IH]; cbn; constructor; [|exact IH].
      destruct (SyncManager.d_id d =? SyncManager.d_id existing); split; cbn; auto.
    + left. eexists. split; reflexivity.
  - left. eexists. split; reflexivity.
Qed.

Lemma keepsDoc_refl (l : list SyncManager.Doc) : Forall2 SyncManagerOps.keepsDoc l l.
Proof. induction l; constructor; [split; auto | assumption]. Qed.

Lemma runBatch_docs (deliver : nat -> SyncManager.SyncItem -> SyncManager.Outcome)
    (batch : list SyncManager.SyncItem) :
  forall (w : SyncManager.World) (res : SyncManager.Results),
  let st := SyncManager.runBatch deliver batch (w, res) in
  exists old' new,
    SyncManager.docs (SyncManager.collection (fst st)) = old' ++ new /\
    Forall2 SyncManagerOps.keepsDoc (SyncManager.docs (SyncManager.collection w)) old' /\
    Forall (fun d => SyncManager.d_synced d = true) new /\
    Z.of_nat (List.length new) <= SyncManager.successful (snd st) - SyncManager.successful res /\
    (Forall (fun i => SyncManager.r_id (SyncManager.s_record i) = None) batch ->
     Z.of_nat (List.length new) =
       SyncManager.successful (snd st) - SyncManager.successful res).
Proof.
  induction batch as [|item batch IH]; intros w res; cbv zeta.
  - exists (SyncManager.docs (SyncManager.collection w)), []. cbn.
    rewrite app_nil_r. repeat split; try lia; [apply keepsDoc_refl | constructor].
  - rewrite runBatch_cons.
    destruct (SyncManager.processItem
                (deliver (List.length (SyncManager.calls w)) item) item (w, res))
      as [w1 res1] eqn:P.
    destruct (IH w1 res1) as (old' & new & Hd & Hk & Hs & Hle & Heq). cbv zeta in *.
    unfold SyncManager.processItem in P.
    destruct (deliver (List.length (SyncManager.calls w)) item) as [t|message t].
    + injection P as <- <-. cbn [SyncManager.collection SyncManager.successful] in *.
      destruct (writeRecord_docs t item (SyncManager.collection w))
        as [(nd & Hw & Hnd)|(Hr & Hw)].
      * rewrite Hw in Hk. apply Forall2_app_inv_l in Hk.
        destruct Hk as (o1 & o2 & H1 & H2 & ->).
        inversion H2 as [|? nd' ? o2' [_ Hnd'] H2' E1 E2]; subst. inversion H2'; subst.
        exists o1, (nd' :: new). rewrite Hd, <- app_assoc. cbn [app List.length].
        repeat split; try assumption.
        -- constructor; auto.
        -- lia.
        -- intros Hall. inversion Hall; subst. specialize (Heq H4). lia.
      * exists old', new. rewrite Hd.
        repeat split; try assumption.
        -- eapply Forall2_chain; [|exact Hw|exact Hk].
           cbn. intros a b c0 [E1 S1] [E2 S2]. split; [congruence | auto].
        -- lia.
        -- intros Hall. inversion Hall; subst. contradiction.
    + destruct (SyncManager.s_attempts item <? SyncManager.maxRetries (SyncManager.manager w));
        injection P as <- <-; cbn [SyncManager.collection SyncManager.successful] in *;
        exists old', new; rewrite Hd; repeat split; try assumption;
        intros Hall; inversion Hall; subst; auto.
Qed.

(** X9: the documents after a pass.  No stored document is removed, none
    changes its id, and none loses its [synced] flag; the documents the pass
    adds are all synced, and there are at most as many of them as
    successful deliveries.  When no record of the batch carries an [_id],
    every successful delivery adds a document: a record that is queued and
    delivered twice is stored twice. *)
Theorem pass_only_adds_synced_documents
    (deliver : nat -> SyncManager.SyncItem -> SyncManager.Outcome)
    (w : SyncManager.World) :
  SyncManager.syncQueue (SyncManager.manager w) <> [] ->
  let m := SyncManager.manager w in
  let batch := firstn (SyncManager.syncBatchSize m) (SyncManager.syncQueue m) in
  let w' := fst (SyncManager.processSyncBatch deliver w) in
  exists res old' new,
    snd (SyncManager.processSyncBatch deliver w) = Some res /\
    SyncManager.docs (SyncManager.collection w') = old' ++ new /\
    Forall2 SyncManagerOps.keepsDoc (SyncManager.docs (SyncManager.collection w)) old' /\
    Forall (fun d => SyncManager.d_synced d = true) new /\
    Z.of_nat (List.length new) <= SyncManager.successful res /\
    (Forall (fun i => SyncManager.r_id (SyncManager.s_record i) = None) batch ->
     Z.of_nat (List.length new) = SyncManager.successful res).
Proof.
  intros H. cbv zeta. rewrite processSyncBatch_unfold by exact H. cbv zeta.
  match goal with |- context [SyncManager.runBatch deliver ?b (?w0, ?r0)] =>
    destruct (runBatch_docs deliver b w0 r0) as (old' & new & Hd & Hk & Hs & Hle & Heq)
  end.
  cbv zeta in *.
  destruct (SyncManager.runBatch deliver _ _) as [w' res]. cbn [fst snd] in *.
  exists res, old', new. cbn in *. rewrite Z.sub_0_r in *.
  repeat split; assumption.
Qed.

Lemma pass_only_adds_synced_documents_witness :
  let w := Scenario.elevenQueued in
  let m := SyncManager.manager w in
  let batch := firstn (SyncManager.syncBatchSize m) (SyncManager.syncQueue m) in
  let w' := fst (SyncManager.processSyncBatch Scenario.failFirst w) in
  exists res old' new,
    snd (SyncManager.processSyncBatch Scenario.failFirst w) = Some res /\
    SyncManager.docs (SyncManager.collection w') = old' ++ new /\
    Forall2 SyncManagerOps.keepsDoc (SyncManager.docs (SyncManager.collection w)) old' /\
    Forall (fun d => SyncManager.d_synced d = true) new /\
    Z.of_nat (List.length new) <= SyncManager.successful res /\
    (Forall (fun i => SyncManager.r_id (SyncManager.s_record i) = None) batch ->
     Z.of_nat (List.length new) = SyncManager.successful res).
Proof.
  apply (pass_only_adds_synced_documents Scenario.failFirst Scenario.elevenQueued).
  discriminate.
Defined.

(** ** Clearing the queue while a pass waits *)



(** ** The record store under markAsSynced *)

Lemma find_replace_same {A : Type} (key : A -> Z) (v r : A) (l : list A) :
  find (fun a => key a =? key v) l = Some r ->
  find (fun a => key a =? key v) (map (fun a => if key a =? key v then v else a) l) = Some v.
Proof.
  induction l as [|a l IH]; cbn; [discriminate|].
  destruct (key a =? key v) eqn:E.
  - intros _. cbn. now rewrite Z.eqb_refl.
  - intros H. cbn. rewrite E. now apply IH.
Qed.

Lemma find_replace_other {A : Type} (key : A -> Z) (v : A) (k : Z) (l : list A) :
  k <> key v ->
  find (fun a => key a =? k) (map (fun a => if key a =? key v then v else a) l) =
  find (fun a => key a =? k) l.
Proof.
  intros Hk. induction l as [|a l IH]; cbn; [reflexivity|].
  destruct (key a =? key v) eqn:E.
  - apply Z.eqb_eq in E.
    replace (key v =? k) with false by (symmetry; apply Z.eqb_neq; congruence).
    replace (key a =? k) with false by (symmetry; apply Z.eqb_neq; congruence).
    exact IH.
  - destruct (key a =? k); [reflexivity | exact IH].
Qed.

Lemma rows_put_existing {A : Type} (key : A -> Z) (v r : A) (s : OfflineDB.Store A) :
  OfflineDB.get key s (key v) = Some r ->
  OfflineDB.rows (OfflineDB.put key v s) =
  map (fun a => if key a =? key v then v else a) (OfflineDB.rows s).
Proof.
  unfold OfflineDB.get, OfflineDB.put, OfflineDB.putRow. cbn [OfflineDB.rows]. intros H.
  replace (existsb (fun a => key a =? key v) (OfflineDB.rows s)) with true; [reflexivity|].
  symmetry. apply existsb_exists. apply find_some in H. now exists r.
Qed.

Lemma get_found_key {A : Type} (key : A -> Z) (s : OfflineDB.Store A) (k : Z) (r : A) :
  OfflineDB.get key s k = Some r -> key r = k /\ In r (OfflineDB.rows s).
Proof.
  unfold OfflineDB.get. intros H. apply find_some in H.
  destruct H as [Hin H]. now apply Z.eqb_eq in H.
Qed.

Lemma markAsSynced_records (now k : Z) (db : OfflineDB.DB) :
  OfflineDB.medical_records (OfflineDB.markAsSynced now k db) =
  match OfflineDB.get OfflineDB.rec_id (OfflineDB.medical_records db) k with
  | Some record =>
      OfflineDB.put OfflineDB.rec_id (OfflineDB.setSynced now record)
        (OfflineDB.medical_records db)
  | None => OfflineDB.medical_records db
  end.
Proof.
  unfold OfflineDB.markAsSynced.
  destruct (OfflineDB.get OfflineDB.rec_id (OfflineDB.medical_records db) k);
    cbn [OfflineDB.sync_queue];
    destruct (OfflineDB.index (OfflineDB.sync_queue db) "recordId"); reflexivity.
Qed.

Lemma markAsSynced_queue (now k : Z) (db : OfflineDB.DB) :
  OfflineDB.sync_queue (OfflineDB.markAsSynced now k db) =
  match OfflineDB.index (OfflineDB.sync_queue db) "recordId" with
  | Some store =>
      fold_left (fun s item => OfflineDB.delete OfflineDB.q_id (OfflineDB.q_id item) s)
        (OfflineDB.getAllEq (OfflineDB.queueKey "recordId") k store) store
  | None => OfflineDB.sync_queue db
  end.
Proof.
  unfold OfflineDB.markAsSynced.
  destruct (OfflineDB.get OfflineDB.rec_id (OfflineDB.medical_records db) k);
    cbn [OfflineDB.sync_queue];
    destruct (OfflineDB.index (OfflineDB.sync_queue db) "recordId"); reflexivity.
Qed.

Lemma markAsSynced_get (now k : Z) (db : OfflineDB.DB) :
  let db' := OfflineDB.markAsSynced now k db in
  (OfflineDB.get OfflineDB.rec_id (OfflineDB.medical_records db) k = None ->
   OfflineDB.medical_records db' = OfflineDB.medical_records db) /\
  (forall r, OfflineDB.get OfflineDB.rec_id (OfflineDB.medical_records db) k = Some r ->
     OfflineDB.get OfflineDB.rec_id (OfflineDB.medical_records db') k =
       Some {| OfflineDB.rec_id := OfflineDB.rec_id r;
               OfflineDB.rec_input := OfflineDB.rec_input r;
               OfflineDB.rec_synced := true;
               OfflineDB.rec_syncAttempts := OfflineDB.rec_syncAttempts r;
               OfflineDB.rec_syncPriority := OfflineDB.rec_syncPriority r;
               OfflineDB.rec_lastSyncAttempt := OfflineDB.rec_lastSyncAttempt r;
               OfflineDB.rec_createdAt := OfflineDB.rec_createdAt r;
               OfflineDB.rec_updatedAt := now |}) /\
  (forall j, j <> k ->
     OfflineDB.get OfflineDB.rec_id (OfflineDB.medical_records db') j =
     OfflineDB.get OfflineDB.rec_id (OfflineDB.medical_records db) j) /\
  List.length (OfflineDB.rows (OfflineDB.medical_records db')) =
    List.length (OfflineDB.rows (OfflineDB.medical_records db)).
Proof.
  cbv zeta. rewrite markAsSynced_records.
  destruct (OfflineDB.get OfflineDB.rec_id (OfflineDB.medical_records db) k)
    as [record|] eqn:G.
  - destruct (get_found_key _ _ _ _ G) as [Hk _].
    assert (OfflineDB.rec_id (OfflineDB.setSynced now record) = k) as Hv by exact Hk.
    assert (OfflineDB.get OfflineDB.rec_id (OfflineDB.medical_records db)
              (OfflineDB.rec_id (OfflineDB.setSynced now record)) = Some record) as G'
      by (rewrite Hv; exact G).
    split; [discriminate|]. split; [|split].
    + intros r Hr. injection Hr as <-.
      unfold OfflineDB.get. rewrite (rows_put_existing _ _ _ _ G'), <- Hv.
      apply (find_replace_same OfflineDB.rec_id (OfflineDB.setSynced now record) record).
      exact G'.
    + intros j Hj. unfold OfflineDB.get. rewrite (rows_put_existing _ _ _ _ G').
      apply find_replace_other. congruence.
    + rewrite (rows_put_existing _ _ _ _ G'). apply length_map.
  - split; [reflexivity|]. split; [discriminate|]. split; reflexivity.
Qed.


(** X10: [markAsSynced(k)] touches one record and nothing else in the record
    store.  For an id that is not stored, the store is left as it is (no
    record is created).  For a stored record, a later [get] of [k] gives
    that record with [synced = true] and [updatedAt] set to the time of the
    call, its other fields unchanged; and the [get] of every other id gives
    what it gave before. *)
Theorem markAsSynced_changes_one_record (now k : Z) (db : OfflineDB.DB) :
  let db' := OfflineDB.markAsSynced now k db in
  (OfflineDB.get OfflineDB.rec_id (OfflineDB.medical_records db) k = None ->
   OfflineDB.medical_records db' = OfflineDB.medical_records db) /\
  (forall r, OfflineDB.get OfflineDB.rec_id (OfflineDB.medical_records db) k = Some r ->
     OfflineDB.get OfflineDB.rec_id (OfflineDB.medical_records db') k =
       Some {| OfflineDB.rec_id := OfflineDB.rec_id r;
               OfflineDB.rec_input := OfflineDB.rec_input r;
               OfflineDB.rec_synced := true;
               OfflineDB.rec_syncAttempts := OfflineDB.rec_syncAttempts r;
               OfflineDB.rec_syncPriority := OfflineDB.rec_syncPriority r;
               OfflineDB.rec_lastSyncAttempt := OfflineDB.rec_lastSyncAttempt r;
               OfflineDB.rec_createdAt := OfflineDB.rec_createdAt r;
               OfflineDB.rec_updatedAt := now |}) /\
  (forall j, j <> k ->
     OfflineDB.get OfflineDB.rec_id (OfflineDB.medical_records db') j =
     OfflineDB.get OfflineDB.rec_id (OfflineDB.medical_records db) j) /\
  List.length (OfflineDB.rows (OfflineDB.medical_records db')) =
    List.length (OfflineDB.rows (OfflineDB.medical_records db)).
Proof. apply markAsSynced_get. Qed.

Lemma DB_ext (a b : OfflineDB.DB) :
  OfflineDB.medical_records a = OfflineDB.medical_records b ->
  OfflineDB.sync_queue a = OfflineDB.sync_queue b -> a = b.
Proof. destruct a, b. cbn. congruence. Qed.

Lemma fold_delete_settings (items : list OfflineDB.QueueEntry)
    (s : OfflineDB.Store OfflineDB.QueueEntry) :
  OfflineDB.nextKey
    (fold_left (fun s item => OfflineDB.delete OfflineDB.q_id (OfflineDB.q_id item) s)
       items s) = OfflineDB.nextKey s /\
  OfflineDB.indexNames
    (fold_left (fun s item => OfflineDB.delete OfflineDB.q_id (OfflineDB.q_id item) s)
       items s) = OfflineDB.indexNames s.
Proof.
  revert s. induction items as [|i items IH]; intros s; cbn; [auto|].
  destruct (IH (OfflineDB.delete OfflineDB.q_id (OfflineDB.q_id i) s)) as [E1 E2].
  rewrite E1, E2. auto.
Qed.

Lemma filter_none {A : Type} (p : A -> bool) (l : list A) :
  (forall x, In x l -> p x = false) -> filter p l = [].
Proof.
  induction l as [|a l IH]; intros H; cbn; [reflexivity|].
  rewrite (H a (or_introl eq_refl)). apply IH. intros x Hx. apply H. now right.
Qed.

(** X11: marking a record as synced a second time changes nothing but the
    time: [markAsSynced(k)] at [t2] after [markAsSynced(k)] at [t1] leaves
    the database that [markAsSynced(k)] at [t2] alone leaves.  This holds
    for stored and unknown ids, with and without a [recordId] index. *)
Theorem markAsSynced_twice_is_markAsSynced_once (t1 t2 k : Z) (db : OfflineDB.DB) :
  OfflineDB.markAsSynced t2 k (OfflineDB.markAsSynced t1 k db) =
  OfflineDB.markAsSynced t2 k db.
Proof.
  apply DB_ext.
  - rewrite (markAsSynced_records t2 k (OfflineDB.markAsSynced t1 k db)).
    rewrite (markAsSynced_records t2 k db), (markAsSynced_records t1 k db).
    destruct (OfflineDB.get OfflineDB.rec_id (OfflineDB.medical_records db) k)
      as [r|] eqn:G; [|now rewrite G].
    destruct (get_found_key _ _ _ _ G) as [Hk _].
    assert (OfflineDB.get OfflineDB.rec_id (OfflineDB.medical_records db)
              (OfflineDB.rec_id (OfflineDB.setSynced t1 r)) = Some r) as G1
      by (cbn; rewrite Hk; exact G).
    assert (OfflineDB.get OfflineDB.rec_id
              (OfflineDB.put OfflineDB.rec_id (OfflineDB.setSynced t1 r)
                 (OfflineDB.medical_records db)) k = Some (OfflineDB.setSynced t1 r)) as G2.
    { unfold OfflineDB.get. rewrite (rows_put_existing _ _ _ _ G1), <- Hk.
      apply (find_replace_same OfflineDB.rec_id (OfflineDB.setSynced t1 r) r). exact G1. }
    rewrite G2.
    change (OfflineDB.setSynced t2 (OfflineDB.setSynced t1 r)) with (OfflineDB.setSynced t2 r).
    assert (OfflineDB.get OfflineDB.rec_id (OfflineDB.medical_records db)
              (OfflineDB.rec_id (OfflineDB.setSynced t2 r)) = Some r) as G3
      by (cbn; rewrite Hk; exact G).
    assert (OfflineDB.get OfflineDB.rec_id
              (OfflineDB.put OfflineDB.rec_id (OfflineDB.setSynced t1 r)
                 (OfflineDB.medical_records db))
              (OfflineDB.rec_id (OfflineDB.setSynced t2 r)) =
            Some (OfflineDB.setSynced t1 r)) as G4 by (cbn; rewrite Hk; exact G2).
    pose proof (rows_put_existing _ _ _ _ G3) as R3.
    pose proof (rows_put_existing _ _ _ _ G4) as R4.
    pose proof (rows_put_existing _ _ _ _ G1) as R1.
    destruct (OfflineDB.put OfflineDB.rec_id (OfflineDB.setSynced t2 r)
                (OfflineDB.put OfflineDB.rec_id (OfflineDB.setSynced t1 r)
                   (OfflineDB.medical_records db))) as [rows4 next4 names4] eqn:P4.
    destruct (OfflineDB.put OfflineDB.rec_id (OfflineDB.setSynced t2 r)
                (OfflineDB.medical_records db)) as [rows3 next3 names3] eqn:P3.
    cbn [OfflineDB.rows] in R3, R4.
    unfold OfflineDB.put in P3, P4. injection P3 as _ N3 I3. injection P4 as _ N4 I4.
    cbn [OfflineDB.nextKey OfflineDB.indexNames OfflineDB.put OfflineDB.rows] in *.
    f_equal.
    + rewrite R4, R3, R1, map_map. apply map_ext. intros a. cbn.
      destruct (OfflineDB.rec_id a =? OfflineDB.rec_id r) eqn:E; cbn.
      * now rewrite Z.eqb_refl.
      * now rewrite E.
    + rewrite <- N3, <- N4. lia.
    + congruence.
  - rewrite (markAsSynced_queue t2 k (OfflineDB.markAsSynced t1 k db)).
    rewrite (markAsSynced_queue t2 k db), (markAsSynced_queue t1 k db).
    unfold OfflineDB.index.
    destruct (existsb (String.eqb "recordId")
                (OfflineDB.indexNames (OfflineDB.sync_queue db))) eqn:I.
    + destruct (fold_delete_settings
                  (OfflineDB.getAllEq (OfflineDB.queueKey "recordId") k
                     (OfflineDB.sync_queue db)) (OfflineDB.sync_queue db)) as [_ EI].
      rewrite EI, I.
      replace (OfflineDB.getAllEq (OfflineDB.queueKey "recordId") k
                 (fold_left _ _ (OfflineDB.sync_queue db))) with (@nil OfflineDB.QueueEntry);
        [reflexivity|].
      symmetry. unfold OfflineDB.getAllEq at 1. apply filter_none.
      intros e He. rewrite fold_delete_rows in He. apply filter_In in He.
      destruct He as [He Hn]. apply negb_true_iff in Hn.
      destruct (OfflineDB.queueKey "recordId" e =? k) eqn:E; [|reflexivity].
      exfalso. rewrite <- not_true_iff_false in Hn. apply Hn.
      apply existsb_exists. exists e. split; [|apply Z.eqb_refl].
      unfold OfflineDB.getAllEq. apply filter_In. auto.
    + now rewrite I.
Qed.

(** ** The database over sequences of operations *)

Lemma sorted_snoc (l : list Z) (x : Z) :
  StronglySorted Z.lt l -> Forall (fun y => y < x) l -> StronglySorted Z.lt (l ++ [x]).
Proof.
  intros Hs Hb. induction Hs as [|a l Hs IH Ha]; cbn.
  - constructor; constructor.
  - inversion Hb; subst. constructor; [now apply IH|].
    apply Forall_app. split; [exact Ha | constructor; [assumption | constructor]].
Qed.

Lemma sorted_keys_filter {A : Type} (key : A -> Z) (keep : A -> bool) (l : list A) :
  StronglySorted Z.lt (map key l) -> StronglySorted Z.lt (map key (filter keep l)).
Proof.
  induction l as [|a l IH]; cbn; intros Hs; [constructor|].
  inversion Hs as [|? ? Hs' Ha]; subst.
  destruct (keep a); cbn; [|now apply IH].
  constructor; [now apply IH|].
  apply Forall_forall. intros y Hy. rewrite Forall_forall in Ha. apply Ha.
  apply in_map_iff in Hy. destruct Hy as (b & <- & Hb).
  apply filter_In in Hb. apply in_map. tauto.
Qed.

Lemma sorted_keys_distinct (l : list Z) : StronglySorted Z.lt l -> NoDup l.
Proof.
  intros Hs. induction Hs as [|a l Hs IH Ha]; constructor; [|exact IH].
  intros Hin. rewrite Forall_forall in Ha. specialize (Ha a Hin). lia.
Qed.

Lemma find_app_none {A : Type} (p : A -> bool) (l1 l2 : list A) :
  (forall x, In x l1 -> p x = false) -> find p (l1 ++ l2) = find p l2.
Proof.
  induction l1 as [|a l1 IH]; intros H; cbn; [reflexivity|].
  rewrite (H a (or_introl eq_refl)). apply IH. intros x Hx. apply H. now right.
Qed.

Lemma keysInOrder_add {A : Type} (key : A -> Z) (mk : Z -> A) (s : OfflineDB.Store A) :
  (forall k, key (mk k) = k) ->
  OfflineOps.keysInOrder key s ->
  OfflineOps.keysInOrder key (snd (OfflineDB.add mk s)).
Proof.
  intros Hmk [Hs Hb]. unfold OfflineOps.keysInOrder, OfflineDB.add.
  cbn [snd OfflineDB.rows OfflineDB.nextKey]. split.
  - rewrite map_app. cbn. rewrite Hmk. apply sorted_snoc; [exact Hs|].
    apply Forall_forall. intros y Hy. apply in_map_iff in Hy.
    destruct Hy as (a & <- & Ha). rewrite Forall_forall in Hb. now apply Hb.
  - apply Forall_app. split.
    + eapply Forall_impl; [|exact Hb]. cbn. intros a Ha. lia.
    + constructor; [rewrite Hmk; lia | constructor].
Qed.

Lemma keysInOrder_put_existing {A : Type} (key : A -> Z) (v r : A) (s : OfflineDB.Store A) :
  OfflineDB.get key s (key v) = Some r ->
  OfflineOps.keysInOrder key s ->
  OfflineOps.keysInOrder key (OfflineDB.put key v s).
Proof.
  intros G [Hs Hb]. unfold OfflineOps.keysInOrder.
  rewrite (rows_put_existing _ _ _ _ G).
  assert (map key (map (fun a => if key a =? key v then v else a) (OfflineDB.rows s)) =
          map key (OfflineDB.rows s)) as E.
  { rewrite map_map. apply map_ext. intros a.
    destruct (key a =? key v) eqn:Ea; [apply Z.eqb_eq in Ea; congruence | reflexivity]. }
  split; [now rewrite E|].
  apply Forall_forall. intros a Ha. apply in_map_iff in Ha.
  destruct Ha as (b & <- & Hb'). rewrite Forall_forall in Hb. specialize (Hb b Hb').
  cbn [OfflineDB.put OfflineDB.nextKey].
  destruct (key b =? key v) eqn:Eb; [apply Z.eqb_eq in Eb|]; lia.
Qed.

Lemma keysInOrder_deleted (items : list OfflineDB.QueueEntry)
    (s : OfflineDB.Store OfflineDB.QueueEntry) :
  OfflineOps.keysInOrder OfflineDB.q_id s ->
  OfflineOps.keysInOrder OfflineDB.q_id
    (fold_left (fun s item => OfflineDB.delete OfflineDB.q_id (OfflineDB.q_id item) s)
       items s).
Proof.
  intros [Hs Hb]. unfold OfflineOps.keysInOrder.
  destruct (fold_delete_settings items s) as [En _]. rewrite En, fold_delete_rows. split.
  - now apply sorted_keys_filter.
  - apply Forall_forall. intros a Ha. apply filter_In in Ha.
    rewrite Forall_forall in Hb. apply Hb. tauto.
Qed.

Lemma calculateSyncPriority_range (record : OfflineDB.RecordInput) :
  In (OfflineDB.calculateSyncPriority record) [1; 2; 3].
Proof.
  unfold OfflineDB.calculateSyncPriority.
  destruct (OfflineDB.isTriage _ "IMMEDIATE"); [cbn; auto|].
  destruct (OfflineDB.hasEmergencyActions _); [cbn; auto|].
  destruct (OfflineDB.isTriage _ "DELAYED"); cbn; auto.
Qed.

Lemma save_keeps_consistent (now : Z) (record : OfflineDB.RecordInput) (db : OfflineDB.DB) :
  OfflineOps.consistent db ->
  OfflineOps.consistent (snd (OfflineDB.saveMedicalRecord now record db)).
Proof.
  intros (Hr & Hq & Href).
  unfold OfflineDB.saveMedicalRecord, OfflineDB.addToSyncQueue.
  cbn [OfflineDB.add fst snd OfflineDB.medical_records OfflineDB.sync_queue].
  unfold OfflineOps.consistent.
  cbn [OfflineDB.medical_records OfflineDB.sync_queue OfflineDB.rows].
  split; [|split].
  - apply (keysInOrder_add OfflineDB.rec_id
             (fun k => {| OfflineDB.rec_id := k; OfflineDB.rec_input := record;
                          OfflineDB.rec_synced := false; OfflineDB.rec_syncAttempts := 0;
                          OfflineDB.rec_syncPriority := OfflineDB.calculateSyncPriority record;
                          OfflineDB.rec_lastSyncAttempt := None;
                          OfflineDB.rec_createdAt := now; OfflineDB.rec_updatedAt := now |})
             (OfflineDB.medical_records db)); [reflexivity | exact Hr].
  - apply (keysInOrder_add OfflineDB.q_id
             (fun k => {| OfflineDB.q_id := k; OfflineDB.q_type := "medical_record";
                          OfflineDB.q_recordId :=
                            OfflineDB.nextKey (OfflineDB.medical_records db);
                          OfflineDB.q_priority := OfflineDB.calculateSyncPriority record;
                          OfflineDB.q_timestamp := now; OfflineDB.q_attempts := 0;
                          OfflineDB.q_lastAttempt := None |})
             (OfflineDB.sync_queue db)); [reflexivity | exact Hq].
  - apply Forall_app. split.
    + eapply Forall_impl; [|exact Href]. cbn. intros e (Hp & r & Hin & E1 & E2).
      split; [exact Hp|]. exists r. split; [|auto]. apply in_or_app. now left.
    + constructor; [|constructor]. cbn. split; [apply calculateSyncPriority_range|].
      eexists. split; [apply in_or_app; right; left; reflexivity|]. cbn. auto.
Qed.

Lemma mark_keeps_consistent (now k : Z) (db : OfflineDB.DB) :
  OfflineOps.consistent db -> OfflineOps.consistent (OfflineDB.markAsSynced now k db).
Proof.
  intros (Hr & Hq & Href). unfold OfflineOps.consistent.
  rewrite markAsSynced_records, markAsSynced_queue.
  assert (forall r, In r (OfflineDB.rows (OfflineDB.medical_records db)) ->
            exists r',
              In r' (OfflineDB.rows
                       match OfflineDB.get OfflineDB.rec_id (OfflineDB.medical_records db) k with
                       | Some record =>
                           OfflineDB.put OfflineDB.rec_id (OfflineDB.setSynced now record)
                             (OfflineDB.medical_records db)
                       | None => OfflineDB.medical_records db
                       end) /\
              OfflineDB.rec_id r' = OfflineDB.rec_id r /\
              OfflineDB.rec_syncPriority r' = OfflineDB.rec_syncPriority r) as Hkeep.
  { intros r Hin.
    destruct (OfflineDB.get OfflineDB.rec_id (OfflineDB.medical_records db) k)
      as [record|] eqn:G; [|exists r; auto].
    destruct (get_found_key _ _ _ _ G) as [Hk Hrec].
    assert (OfflineDB.get OfflineDB.rec_id (OfflineDB.medical_records db)
              (OfflineDB.rec_id (OfflineDB.setSynced now record)) = Some record) as G'
      by (cbn; rewrite Hk; exact G).
    rewrite (rows_put_existing _ _ _ _ G').
    exists (if OfflineDB.rec_id r =? OfflineDB.rec_id (OfflineDB.setSynced now record)
            then OfflineDB.setSynced now record else r).
    split; [apply (in_map (fun a => if OfflineDB.rec_id a =?
                                        OfflineDB.rec_id (OfflineDB.setSynced now record)
                                     then OfflineDB.setSynced now record else a)), Hin|].
    destruct (OfflineDB.rec_id r =? OfflineDB.rec_id (OfflineDB.setSynced now record)) eqn:E;
      [|auto].
    apply Z.eqb_eq in E. cbn in E.
    assert (r = record) as ->; [|cbn; auto].
    destruct Hr as [Hs _]. apply sorted_keys_distinct in Hs.
    eapply NoDup_map_eq; eauto. }
  split; [|split].
  - destruct (OfflineDB.get OfflineDB.rec_id (OfflineDB.medical_records db) k)
      as [record|] eqn:G; [|exact Hr].
    destruct (get_found_key _ _ _ _ G) as [Hk _].
    apply (keysInOrder_put_existing OfflineDB.rec_id (OfflineDB.setSynced now record) record);
      [cbn; rewrite Hk; exact G | exact Hr].
  - unfold OfflineDB.index.
    destruct (existsb (String.eqb "recordId")
                (OfflineDB.indexNames (OfflineDB.sync_queue db))); [|exact Hq].
    now apply keysInOrder_deleted.
  - assert (Forall (fun e => In (OfflineDB.q_priority e) [1; 2; 3] /\
                      exists r,
                        In r (OfflineDB.rows
                          match OfflineDB.get OfflineDB.rec_id (OfflineDB.medical_records db) k with
                          | Some record =>
                              OfflineDB.put OfflineDB.rec_id (OfflineDB.setSynced now record)
                                (OfflineDB.medical_records db)
                          | None => OfflineDB.medical_records db
                          end) /\
                        OfflineDB.rec_id r = OfflineDB.q_recordId e /\
                        OfflineDB.rec_syncPriority r = OfflineDB.q_priority e)
              (OfflineDB.rows (OfflineDB.sync_queue db))) as Href'.
    { eapply Forall_impl; [|exact Href]. cbn. intros e (Hp & r & Hin & E1 & E2).
      split; [exact Hp|]. destruct (Hkeep r Hin) as (r' & Hin' & E1' & E2').
      exists r'. split; [exact Hin' | split; congruence]. }
    unfold OfflineDB.index.
    destruct (existsb (String.eqb "recordId")
                (OfflineDB.indexNames (OfflineDB.sync_queue db))); [|exact Href'].
    rewrite fold_delete_rows. apply Forall_forall. intros e He.
    apply filter_In in He. rewrite Forall_forall in Href'. apply Href'. tauto.
Qed.

Lemma syncItem_db (api : nat -> OfflineDB.MedicalRecord -> OfflineSync.ApiResult)
    (h : OfflineSync.Hook) (p : OfflineSync.Progress) (item : OfflineDB.QueueEntry) :
  OfflineSync.p_db (OfflineSync.syncItem api h p item) = OfflineSync.p_db p \/
  exists t, OfflineSync.p_db (OfflineSync.syncItem api h p item) =
            OfflineDB.markAsSynced t (OfflineDB.q_recordId item) (OfflineSync.p_db p).
Proof.
  unfold OfflineSync.syncItem.
  destruct (OfflineSync.findRecord h (OfflineSync.p_db p) (OfflineDB.q_recordId item));
    [|now left].
  destruct (api _ _) as [t| |]; cbn; [right; now exists t | now left | now left].
Qed.

(** What holds before a pass of [attemptSync] and is kept by every
    [markAsSynced] holds after the pass. *)
Lemma attemptSync_keeps (P : OfflineDB.DB -> Prop)
    (api : nat -> OfflineDB.MedicalRecord -> OfflineSync.ApiResult) (now : Z)
    (h : OfflineSync.Hook) (db : OfflineDB.DB) :
  (forall t k d, P d -> P (OfflineDB.markAsSynced t k d)) ->
  P db -> P (OfflineSync.p_db (snd (OfflineSync.attemptSync api now h db))).
Proof.
  intros Hmark Hdb. unfold OfflineSync.attemptSync.
  destruct (OfflineSync.isSyncing h || negb (String.eqb (OfflineSync.syncStatus h) "online"));
    [exact Hdb|].
  destruct (OfflineDB.getPendingSyncItems 5 db) as [|i items]; [exact Hdb|].
  cbn [snd].
  assert (forall l p, P (OfflineSync.p_db p) ->
                      P (OfflineSync.p_db (fold_left (OfflineSync.syncItem api h) l p))) as Hfold.
  { induction l as [|x l IH]; intros p Hp; cbn; [exact Hp|].
    apply IH. destruct (syncItem_db api h p x) as [->|(t & ->)]; [exact Hp | now apply Hmark]. }
  apply Hfold. exact Hdb.
Qed.

Lemma applyOp_keeps_consistent (db : OfflineDB.DB) (op : OfflineOps.Op) :
  OfflineOps.consistent db -> OfflineOps.consistent (OfflineOps.applyOp db op).
Proof.
  intros H. destruct op as [now record|now k|api now h]; cbn [OfflineOps.applyOp].
  - now apply save_keeps_consistent.
  - now apply mark_keeps_consistent.
  - apply attemptSync_keeps; [|exact H]. intros t k d. apply mark_keeps_consistent.
Qed.

Lemma init_consistent : OfflineOps.consistent OfflineDB.init.
Proof. repeat split; constructor. Qed.

(** X12: the database stays consistent.  In a database in which the keys of
    each store are distinct, ascending and below the store's next key, and
    every queue entry belongs to a stored record and has that record's
    priority, one of 1, 2 and 3, this is still so after any sequence of
    [saveMedicalRecord], [markAsSynced] and [attemptSync] calls.  The
    database that [init] creates is one. *)
Theorem database_stays_consistent (ops : list OfflineOps.Op) (db : OfflineDB.DB) :
  OfflineOps.consistent db -> OfflineOps.consistent (OfflineOps.runOps ops db).
Proof.
  revert db. unfold OfflineOps.runOps.
  induction ops as [|op ops IH]; intros db H; cbn; [exact H|].
  apply IH, applyOp_keeps_consistent, H.
Qed.

Lemma database_stays_consistent_witness :
  OfflineOps.consistent (OfflineOps.runOps Scenario2.dbOps OfflineDB.init).
Proof.
  apply (database_stays_consistent Scenario2.dbOps OfflineDB.init).
  exact init_consistent.
Defined.

(** The save in full agrees with [OfflineDB.saveMedicalRecord] whenever it
    succeeds and the clock did not advance between its three reads. *)
Lemma saveMedicalRecord_in_full (t : Z) (record : OfflineDB.RecordInput) (json : list Z)
    (db : OfflineDB.DB) :
  OfflineSave.saveMedicalRecord
    {| OfflineSave.atCreated := t; OfflineSave.atUpdated := t; OfflineSave.atQueued := t |}
    record json db =
  if SymptomsCache.latin1 json
  then (Some (fst (OfflineDB.saveMedicalRecord t record db)),
        snd (OfflineDB.saveMedicalRecord t record db))
  else (None, db).
Proof.
  unfold OfflineSave.saveMedicalRecord, OfflineSave.encryptRecord, SymptomsCache.btoa.
  destruct (SymptomsCache.latin1 json); reflexivity.
Qed.

Lemma saveMedicalRecord_throws (clock : OfflineSave.Clock) (record : OfflineDB.RecordInput)
    (json : list Z) (db : OfflineDB.DB) :
  SymptomsCache.latin1 json = false ->
  OfflineSave.saveMedicalRecord clock record json db = (None, db).
Proof.
  intros L. unfold OfflineSave.saveMedicalRecord, OfflineSave.encryptRecord,
    SymptomsCache.btoa. now rewrite L.
Qed.

Lemma saveMedicalRecord_effect (clock : OfflineSave.Clock) (record : OfflineDB.RecordInput)
    (json : list Z) (db : OfflineDB.DB) :
  OfflineOps.consistent db ->
  SymptomsCache.latin1 json = true ->
  let saved := OfflineSave.saveMedicalRecord clock record json db in
  let id := OfflineDB.nextKey (OfflineDB.medical_records db) in
  let stored :=
    {| OfflineDB.rec_id := id; OfflineDB.rec_input := record;
       OfflineDB.rec_synced := false; OfflineDB.rec_syncAttempts := 0;
       OfflineDB.rec_syncPriority := OfflineDB.calculateSyncPriority record;
       OfflineDB.rec_lastSyncAttempt := None;
       OfflineDB.rec_createdAt := OfflineSave.atCreated clock;
       OfflineDB.rec_updatedAt := OfflineSave.atUpdated clock |} in
  fst saved = Some id /\
  ~ In id (map OfflineDB.rec_id (OfflineDB.rows (OfflineDB.medical_records db))) /\
  OfflineDB.get OfflineDB.rec_id (OfflineDB.medical_records (snd saved)) id = Some stored /\
  OfflineDB.entriesOf id (snd saved) =
    [{| OfflineDB.q_id := OfflineDB.nextKey (OfflineDB.sync_queue db);
        OfflineDB.q_type := "medical_record"; OfflineDB.q_recordId := id;
        OfflineDB.q_priority := OfflineDB.calculateSyncPriority record;
        OfflineDB.q_timestamp := OfflineSave.atQueued clock; OfflineDB.q_attempts := 0;
        OfflineDB.q_lastAttempt := None |}] /\
  (In "soldierId" (OfflineDB.indexNames (OfflineDB.medical_records db)) ->
   OfflineDB.getMedicalRecords (OfflineDB.in_soldierId record) (snd saved) =
   OfflineDB.getMedicalRecords (OfflineDB.in_soldierId record) db ++ [stored]).
Proof.
  intros ((Hs & Hb) & Hq & Href) L. cbv zeta.
  unfold OfflineSave.saveMedicalRecord, OfflineSave.encryptRecord, SymptomsCache.btoa.
  rewrite L. unfold OfflineDB.addToSyncQueue.
  cbn [OfflineDB.add fst snd OfflineDB.medical_records OfflineDB.sync_queue].
  assert (forall r, In r (OfflineDB.rows (OfflineDB.medical_records db)) ->
                    OfflineDB.rec_id r <> OfflineDB.nextKey (OfflineDB.medical_records db))
    as Hfresh.
  { intros r Hr. rewrite Forall_forall in Hb. specialize (Hb r Hr). lia. }
  split; [reflexivity|]. split; [|split; [|split]].
  - intros Hin. apply in_map_iff in Hin. destruct Hin as (r & E & Hr).
    exact (Hfresh r Hr E).
  - unfold OfflineDB.get. cbn [OfflineDB.rows]. rewrite find_app_none.
    + cbn. now rewrite Z.eqb_refl.
    + intros r Hr. apply Z.eqb_neq. now apply Hfresh.
  - unfold OfflineDB.entriesOf, OfflineDB.getAllEq.
    cbn [OfflineDB.sync_queue OfflineDB.rows]. rewrite filter_app. cbn [filter].
    cbn [OfflineDB.q_recordId]. rewrite Z.eqb_refl.
    rewrite filter_none; [reflexivity|].
    intros e He. rewrite Forall_forall in Href.
    destruct (Href e He) as (_ & r & Hr & E & _).
    apply Z.eqb_neq. rewrite <- E. now apply Hfresh.
  - intros Hidx. unfold OfflineDB.getMedicalRecords, OfflineDB.index.
    cbn [OfflineDB.medical_records OfflineDB.indexNames OfflineDB.rows].
    replace (existsb (String.eqb "soldierId")
               (OfflineDB.indexNames (OfflineDB.medical_records db))) with true.
    + cbn [OfflineDB.rows]. rewrite filter_app. cbn [filter].
      unfold OfflineDB.soldierIdEqb at 2. cbn [OfflineDB.rec_input].
      now rewrite String.eqb_refl.
    + symmetry. apply existsb_exists. exists "soldierId". split; [exact Hidx | reflexivity].
Qed.

(** X13: what [saveMedicalRecord] does to a consistent database.  When the
    JSON text of the record has a code unit above 255, [encryptRecord]
    throws before anything is written: the call throws, and no record and no
    queue entry was added.  Otherwise it returns an id that no stored
    record has; [get] of that id gives the new record (not synced, no
    attempts, priority from [calculateSyncPriority], [createdAt] and
    [updatedAt] from the two clock reads of the save); the queue has exactly
    one entry for it, with the same priority and the time [addToSyncQueue]
    read; and the record is the last of its soldier's records in
    [getMedicalRecords]. *)
Theorem saved_record_is_stored_and_queued_once
    (clock : OfflineSave.Clock) (record : OfflineDB.RecordInput) (json : list Z)
    (db : OfflineDB.DB) :
  OfflineOps.consistent db ->
  let saved := OfflineSave.saveMedicalRecord clock record json db in
  (SymptomsCache.latin1 json = false -> saved = (None, db)) /\
  (SymptomsCache.latin1 json = true ->
   exists id,
     let stored :=
       {| OfflineDB.rec_id := id; OfflineDB.rec_input := record;
          OfflineDB.rec_synced := false; OfflineDB.rec_syncAttempts := 0;
          OfflineDB.rec_syncPriority := OfflineDB.calculateSyncPriority record;
          OfflineDB.rec_lastSyncAttempt := None;
          OfflineDB.rec_createdAt := OfflineSave.atCreated clock;
          OfflineDB.rec_updatedAt := OfflineSave.atUpdated clock |} in
     fst saved = Some id /\
     ~ In id (map OfflineDB.rec_id (OfflineDB.rows (OfflineDB.medical_records db))) /\
     OfflineDB.get OfflineDB.rec_id (OfflineDB.medical_records (snd saved)) id
       = Some stored /\
     OfflineDB.entriesOf id (snd saved) =
       [{| OfflineDB.q_id := OfflineDB.nextKey (OfflineDB.sync_queue db);
           OfflineDB.q_type := "medical_record"; OfflineDB.q_recordId := id;
           OfflineDB.q_priority := OfflineDB.calculateSyncPriority record;
           OfflineDB.q_timestamp := OfflineSave.atQueued clock;
           OfflineDB.q_attempts := 0; OfflineDB.q_lastAttempt := None |}] /\
     (In "soldierId" (OfflineDB.indexNames (OfflineDB.medical_records db)) ->
      OfflineDB.getMedicalRecords (OfflineDB.in_soldierId record) (snd saved) =
      OfflineDB.getMedicalRecords (OfflineDB.in_soldierId record) db ++ [stored])).
Proof.
  intros Hc. cbv zeta. split.
  - apply saveMedicalRecord_throws.
  - intros L. exists (OfflineDB.nextKey (OfflineDB.medical_records db)).
    exact (saveMedicalRecord_effect clock record json db Hc L).
Qed.

Lemma saved_record_is_stored_and_queued_once_witness :
  OfflineSave.saveMedicalRecord Scenario2.secondSave Scenario2.delayedRecord
    Scenario2.euroJson Scenario.savedOnce = (None, Scenario.savedOnce) /\
  let saved := OfflineSave.saveMedicalRecord Scenario2.secondSave Scenario2.delayedRecord
                 Scenario2.delayedJson Scenario.savedOnce in
  exists id,
    let stored :=
      {| OfflineDB.rec_id := id; OfflineDB.rec_input := Scenario2.delayedRecord;
         OfflineDB.rec_synced := false; OfflineDB.rec_syncAttempts := 0;
         OfflineDB.rec_syncPriority := 2;
         OfflineDB.rec_lastSyncAttempt := None;
         OfflineDB.rec_createdAt := 2000;
         OfflineDB.rec_updatedAt := 2001 |} in
    fst saved = Some id /\
    ~ In id (map OfflineDB.rec_id
               (OfflineDB.rows (OfflineDB.medical_records Scenario.savedOnce))) /\
    OfflineDB.get OfflineDB.rec_id (OfflineDB.medical_records (snd saved)) id
      = Some stored /\
    OfflineDB.entriesOf id (snd saved) =
      [{| OfflineDB.q_id := 2;
          OfflineDB.q_type := "medical_record"; OfflineDB.q_recordId := id;
          OfflineDB.q_priority := 2;
          OfflineDB.q_timestamp := 2003;
          OfflineDB.q_attempts := 0; OfflineDB.q_lastAttempt := None |}] /\
    (In "soldierId" (OfflineDB.indexNames (OfflineDB.medical_records Scenario.savedOnce)) ->
     OfflineDB.getMedicalRecords "S-100" (snd saved) =
     OfflineDB.getMedicalRecords "S-100" Scenario.savedOnce ++ [stored]).
Proof.
  assert (OfflineOps.consistent Scenario.savedOnce) as Hc.
  { apply (save_keeps_consistent 1000 Scenario.immediateRecord OfflineDB.init).
    exact init_consistent. }
  split.
  - apply (proj1 (saved_record_is_stored_and_queued_once Scenario2.secondSave
                    Scenario2.delayedRecord Scenario2.euroJson Scenario.savedOnce Hc)).
    reflexivity.
  - apply (proj2 (saved_record_is_stored_and_queued_once Scenario2.secondSave
                    Scenario2.delayedRecord Scenario2.delayedJson Scenario.savedOnce Hc)).
    reflexivity.
Defined.

(** ** Records are kept *)

Lemma keptRecord_refl (r : OfflineDB.MedicalRecord) : OfflineOps.keptRecord r r.
Proof. repeat split; auto. Qed.

Lemma keptRecord_trans (a b c : OfflineDB.MedicalRecord) :
  OfflineOps.keptRecord a b -> OfflineOps.keptRecord b c -> OfflineOps.keptRecord a c.
Proof.
  intros (A1 & A2 & A3 & A4 & A5 & A6 & A7) (B1 & B2 & B3 & B4 & B5 & B6 & B7).
  repeat split; try congruence. auto.
Qed.

Lemma mark_keeps_record (now k : Z) (db : OfflineDB.DB) (r : OfflineDB.MedicalRecord) :
  OfflineOps.consistent db ->
  In r (OfflineDB.rows (OfflineDB.medical_records db)) ->
  exists r', In r' (OfflineDB.rows (OfflineDB.medical_records (OfflineDB.markAsSynced now k db))) /\
             OfflineOps.keptRecord r r'.
Proof.
  intros ((Hs & _) & _) Hin. rewrite markAsSynced_records.
  destruct (OfflineDB.get OfflineDB.rec_id (OfflineDB.medical_records db) k)
    as [record|] eqn:G; [|exists r; split; [exact Hin | apply keptRecord_refl]].
  destruct (get_found_key _ _ _ _ G) as [Hk Hrec].
  assert (OfflineDB.get OfflineDB.rec_id (OfflineDB.medical_records db)
            (OfflineDB.rec_id (OfflineDB.setSynced now record)) = Some record) as G'
    by (cbn; rewrite Hk; exact G).
  rewrite (rows_put_existing _ _ _ _ G').
  exists (if OfflineDB.rec_id r =? OfflineDB.rec_id (OfflineDB.setSynced now record)
          then OfflineDB.setSynced now record else r).
  split; [apply (in_map (fun a => if OfflineDB.rec_id a =?
                                      OfflineDB.rec_id (OfflineDB.setSynced now record)
                                   then OfflineDB.setSynced now record else a)), Hin|].
  destruct (OfflineDB.rec_id r =? OfflineDB.rec_id (OfflineDB.setSynced now record)) eqn:E;
    [|apply keptRecord_refl].
  apply Z.eqb_eq in E. cbn in E.
  assert (r = record) as ->.
  { apply sorted_keys_distinct in Hs. eapply NoDup_map_eq; eauto. }
  repeat split; auto.
Qed.

Lemma applyOp_keeps_record (db : OfflineDB.DB) (op : OfflineOps.Op)
    (r : OfflineDB.MedicalRecord) :
  OfflineOps.consistent db ->
  In r (OfflineDB.rows (OfflineDB.medical_records db)) ->
  exists r', In r' (OfflineDB.rows (OfflineDB.medical_records (OfflineOps.applyOp db op))) /\
             OfflineOps.keptRecord r r'.
Proof.
  intros Hc Hin. destruct op as [now record|now k|api now h]; cbn [OfflineOps.applyOp].
  - exists r. split; [|apply keptRecord_refl].
    unfold OfflineDB.saveMedicalRecord, OfflineDB.addToSyncQueue.
    cbn [OfflineDB.add fst snd OfflineDB.medical_records OfflineDB.rows].
    apply in_or_app. now left.
  - now apply mark_keeps_record.
  - apply (attemptSync_keeps
             (fun d => OfflineOps.consistent d /\
                       exists r', In r' (OfflineDB.rows (OfflineDB.medical_records d)) /\
                                  OfflineOps.keptRecord r r')).
    + intros t k d (Hd & r1 & Hin1 & K1). split; [now apply mark_keeps_consistent|].
      destruct (mark_keeps_record t k d r1 Hd Hin1) as (r2 & Hin2 & K2).
      exists r2. split; [exact Hin2 | now apply keptRecord_trans with r1].
    + split; [exact Hc|]. exists r. split; [exact Hin | apply keptRecord_refl].
Qed.

(** X14: no record is lost, altered or un-synced.  For every record stored in
    a consistent database, after any sequence of [saveMedicalRecord],
    [markAsSynced] and [attemptSync] calls the store holds a record with the
    same id, content, priority and creation time; its [syncAttempts] and
    [lastSyncAttempt] are still what they were (no operation updates them);
    and if the record was synced it still is. *)
Theorem records_are_kept_and_stay_synced
    (ops : list OfflineOps.Op) (db : OfflineDB.DB) (r : OfflineDB.MedicalRecord) :
  OfflineOps.consistent db ->
  In r (OfflineDB.rows (OfflineDB.medical_records db)) ->
  exists r',
    In r' (OfflineDB.rows (OfflineDB.medical_records (OfflineOps.runOps ops db))) /\
    OfflineDB.rec_id r' = OfflineDB.rec_id r /\
    OfflineDB.rec_input r' = OfflineDB.rec_input r /\
    OfflineDB.rec_syncPriority r' = OfflineDB.rec_syncPriority r /\
    OfflineDB.rec_createdAt r' = OfflineDB.rec_createdAt r /\
    OfflineDB.rec_syncAttempts r' = OfflineDB.rec_syncAttempts r /\
    OfflineDB.rec_lastSyncAttempt r' = OfflineDB.rec_lastSyncAttempt r /\
    (OfflineDB.rec_synced r = true -> OfflineDB.rec_synced r' = true).
Proof.
  intros Hc Hin.
  assert (exists r', In r' (OfflineDB.rows (OfflineDB.medical_records (OfflineOps.runOps ops db))) /\
                     OfflineOps.keptRecord r r') as (r' & Hin' & K); [|exists r'; split; assumption].
  revert db r Hc Hin. unfold OfflineOps.runOps.
  induction ops as [|op ops IH]; intros db r Hc Hin; cbn [fold_left].
  - exists r. split; [exact Hin | apply keptRecord_refl].
  - destruct (applyOp_keeps_record db op r Hc Hin) as (r1 & Hin1 & K1).
    destruct (IH (OfflineOps.applyOp db op) r1 (applyOp_keeps_consistent db op Hc) Hin1)
      as (r2 & Hin2 & K2).
    exists r2. split; [exact Hin2 | now apply keptRecord_trans with r1].
Qed.

Lemma records_are_kept_and_stay_synced_witness :
  exists r',
    In r' (OfflineDB.rows (OfflineDB.medical_records
             (OfflineOps.runOps Scenario2.dbOps
                (OfflineDB.markAsSynced 500 1 Scenario.savedOnce)))) /\
    OfflineDB.rec_id r' = 1 /\
    OfflineDB.rec_input r' = Scenario.immediateRecord /\
    OfflineDB.rec_syncPriority r' = 1 /\
    OfflineDB.rec_createdAt r' = 1000 /\
    OfflineDB.rec_syncAttempts r' = 0 /\
    OfflineDB.rec_lastSyncAttempt r' = None /\
    (true = true -> OfflineDB.rec_synced r' = true).
Proof.
  apply (records_are_kept_and_stay_synced Scenario2.dbOps
           (OfflineDB.markAsSynced 500 1 Scenario.savedOnce)
           (OfflineDB.setSynced 500
              {| OfflineDB.rec_id := 1; OfflineDB.rec_input := Scenario.immediateRecord;
                 OfflineDB.rec_synced := false; OfflineDB.rec_syncAttempts := 0;
                 OfflineDB.rec_syncPriority := 1; OfflineDB.rec_lastSyncAttempt := None;
                 OfflineDB.rec_createdAt := 1000; OfflineDB.rec_updatedAt := 1000 |})).
  - apply mark_keeps_consistent.
    apply (save_keeps_consistent 1000 Scenario.immediateRecord OfflineDB.init).
    exact init_consistent.
  - cbn. left. reflexivity.
Defined.

(** ** A pass of the hook *)

Lemma syncItem_counts (api : nat -> OfflineDB.MedicalRecord -> OfflineSync.ApiResult)
    (h : OfflineSync.Hook) (p : OfflineSync.Progress) (item : OfflineDB.QueueEntry) :
  let p' := OfflineSync.syncItem api h p item in
  (OfflineSync.p_calls p' = OfflineSync.p_calls p /\
   OfflineSync.successCount p' = OfflineSync.successCount p /\
   OfflineSync.errorCount p' = OfflineSync.errorCount p) \/
  (OfflineSync.p_calls p' = OfflineSync.p_calls p ++ [OfflineDB.q_recordId item] /\
   OfflineSync.successCount p' + OfflineSync.errorCount p' =
     OfflineSync.successCount p + OfflineSync.errorCount p + 1 /\
   OfflineSync.successCount p <= OfflineSync.successCount p' /\
   OfflineSync.errorCount p <= OfflineSync.errorCount p').
Proof.
  cbv zeta. unfold OfflineSync.syncItem.
  destruct (OfflineSync.findRecord h (OfflineSync.p_db p) (OfflineDB.q_recordId item))
    as [record|] eqn:F; [|left; auto].
  assert (OfflineDB.rec_id record = OfflineDB.q_recordId item) as ->.
  { unfold OfflineSync.findRecord in F. apply find_some in F.
    destruct F as [_ F]. now apply Z.eqb_eq in F. }
  right. destruct (api _ record) as [t| |]; cbn; repeat split; lia.
Qed.

Lemma fold_syncItem_counts (api : nat -> OfflineDB.MedicalRecord -> OfflineSync.ApiResult)
    (h : OfflineSync.Hook) (items : list OfflineDB.QueueEntry) :
  forall p : OfflineSync.Progress,
  let p' := fold_left (OfflineSync.syncItem api h) items p in
  exists called,
    OfflineSync.p_calls p' = OfflineSync.p_calls p ++ called /\
    (List.length called <= List.length items)%nat /\
    incl called (map OfflineDB.q_recordId items) /\
    OfflineSync.successCount p' + OfflineSync.errorCount p' =
      OfflineSync.successCount p + OfflineSync.errorCount p + Z.of_nat (List.length called) /\
    OfflineSync.successCount p <= OfflineSync.successCount p' /\
    OfflineSync.errorCount p <= OfflineSync.errorCount p'.
Proof.
  induction items as [|item items IH]; intros p; cbv zeta.
  - exists []. cbn. rewrite app_nil_r. repeat split; try lia. apply incl_nil_l.
  - cbn [fold_left].
    destruct (IH (OfflineSync.syncItem api h p item))
      as (called & Ec & Hl & Hi & Es & H1 & H2). cbv zeta in *.
    destruct (syncItem_counts api h p item) as [(C & S & E)|(C & S & S1 & E1)];
      cbv zeta in *.
    + exists called. rewrite Ec, C. cbn [List.length map].
      repeat split; try lia. now apply incl_tl.
    + exists (OfflineDB.q_recordId item :: called). rewrite Ec, C, <- app_assoc.
      cbn [List.length map app]. repeat split; try lia.
      apply incl_cons; [now left | now apply incl_tl].
Qed.

Lemma attemptSync_counts_total
    (api : nat -> OfflineDB.MedicalRecord -> OfflineSync.ApiResult) (now : Z)
    (h : OfflineSync.Hook) (db : OfflineDB.DB) :
  let p := snd (OfflineSync.attemptSync api now h db) in
  OfflineSync.successCount p + OfflineSync.errorCount p =
    Z.of_nat (List.length (OfflineSync.p_calls p)) /\
  0 <= OfflineSync.successCount p /\
  0 <= OfflineSync.errorCount p /\
  (List.length (OfflineSync.p_calls p) <= List.length (OfflineDB.getPendingSyncItems 5 db))%nat /\
  (List.length (OfflineSync.p_calls p) <= 5)%nat /\
  incl (OfflineSync.p_calls p) (map OfflineDB.q_recordId (OfflineDB.getPendingSyncItems 5 db)).
Proof.
  cbv zeta.
  assert (List.length (OfflineDB.getPendingSyncItems 5 db) <= 5)%nat as H5.
  { unfold OfflineDB.getPendingSyncItems.
    destruct (OfflineDB.index (OfflineDB.sync_queue db) "priority"); [|cbn; lia].
    unfold JsArray.slice0. cbn [Z.ltb Z.compare]. rewrite length_firstn. lia. }
  unfold OfflineSync.attemptSync.
  destruct (OfflineSync.isSyncing h || negb (String.eqb (OfflineSync.syncStatus h) "online")).
  - cbn. repeat split; try lia. apply incl_nil_l.
  - destruct (OfflineDB.getPendingSyncItems 5 db) as [|i items] eqn:P.
    + cbn. repeat split; try lia. apply incl_nil_l.
    + cbn [snd].
      destruct (fold_syncItem_counts api h (i :: items) (OfflineSync.noProgress db))
        as (called & Ec & Hl & Hi & Es & H1 & H2). cbv zeta in *.
      cbn [OfflineSync.noProgress OfflineSync.p_calls OfflineSync.successCount
           OfflineSync.errorCount app] in *.
      rewrite Ec. repeat split; try lia. exact Hi.
Qed.

(** X15: what a pass of [attemptSync] counts.  Every API call of the pass
    is counted once, as a success or as an error; the calls are made for
    records of the pending items the pass selected, at most one per item,
    so at most 5 per pass; and items whose record is not found are counted
    nowhere. *)
Theorem attemptSync_counts_every_call
    (api : nat -> OfflineDB.MedicalRecord -> OfflineSync.ApiResult) (now : Z)
    (h : OfflineSync.Hook) (db : OfflineDB.DB) :
  let p := snd (OfflineSync.attemptSync api now h db) in
  OfflineSync.successCount p + OfflineSync.errorCount p =
    Z.of_nat (List.length (OfflineSync.p_calls p)) /\
  0 <= OfflineSync.successCount p /\
  0 <= OfflineSync.errorCount p /\
  (List.length (OfflineSync.p_calls p) <= List.length (OfflineDB.getPendingSyncItems 5 db))%nat /\
  (List.length (OfflineSync.p_calls p) <= 5)%nat /\
  incl (OfflineSync.p_calls p) (map OfflineDB.q_recordId (OfflineDB.getPendingSyncItems 5 db)).
Proof. apply attemptSync_counts_total. Qed.

(** ** Which records a pass sends *)

Lemma findRecord_stored (h : OfflineSync.Hook) (db : OfflineDB.DB) (k : Z)
    (record : OfflineDB.MedicalRecord) :
  OfflineSync.findRecord h db k = Some record ->
  OfflineDB.rec_id record = k /\
  exists r, OfflineDB.get OfflineDB.rec_id (OfflineDB.medical_records db) k = Some r.
Proof.
  unfold OfflineSync.findRecord, OfflineDB.getMedicalRecords, OfflineDB.index.
  intros F. apply find_some in F. destruct F as [Hin Hk]. apply Z.eqb_eq in Hk.
  split; [exact Hk|].
  destruct (existsb _ _); [|contradiction]. apply filter_In in Hin.
  destruct Hin as [Hin _].
  destruct (OfflineDB.get OfflineDB.rec_id (OfflineDB.medical_records db) k) as [r|] eqn:G;
    [now exists r|].
  unfold OfflineDB.get in G. apply (find_none _ _ G) in Hin. cbv beta in Hin.
  apply Z.eqb_neq in Hin. contradiction.
Qed.

Section Accepting.
Variable api : nat -> OfflineDB.MedicalRecord -> OfflineSync.ApiResult.
Variable h : OfflineSync.Hook.
Hypothesis accepts : OfflineOps.allAccept api.

Lemma syncItem_allMarked (p : OfflineSync.Progress) (item : OfflineDB.QueueEntry) :
  OfflineOps.allMarked p -> OfflineOps.allMarked (OfflineSync.syncItem api h p item).
Proof.
  intros [He Hm]. unfold OfflineSync.syncItem.
  destruct (OfflineSync.findRecord h (OfflineSync.p_db p) (OfflineDB.q_recordId item))
    as [record|] eqn:F; [|now split].
  destruct (findRecord_stored _ _ _ _ F) as [Hid (r0 & G)].
  destruct (accepts (List.length (OfflineSync.p_calls p)) record) as [t ->].
  destruct (markAsSynced_get t (OfflineDB.q_recordId item) (OfflineSync.p_db p))
    as (_ & Hsame & Hother & _). cbv zeta in *.
  split; [exact He|]. cbn [OfflineSync.p_calls OfflineSync.p_db]. intros k Hk.
  destruct (Z.eq_dec k (OfflineDB.q_recordId item)) as [->|Hne].
  - rewrite (Hsame r0 G). eexists. split; reflexivity.
  - rewrite (Hother k Hne). apply Hm. apply in_app_or in Hk.
    destruct Hk as [Hk|[Hk|[]]]; [exact Hk | congruence].
Qed.

Lemma fold_syncItem_allMarked (items : list OfflineDB.QueueEntry) :
  forall p, OfflineOps.allMarked p ->
            OfflineOps.allMarked (fold_left (OfflineSync.syncItem api h) items p).
Proof.
  induction items as [|item items IH]; intros p Hp; cbn [fold_left]; [exact Hp|].
  apply IH. now apply syncItem_allMarked.
Qed.

End Accepting.

(** X16: when the API accepts every record, a pass of [attemptSync] leaves
    every record it sent stored with [synced] true, counts no error, and
    counts one success per record sent. *)
Theorem accepted_records_are_stored_as_synced
    (api : nat -> OfflineDB.MedicalRecord -> OfflineSync.ApiResult) (now : Z)
    (h : OfflineSync.Hook) (db : OfflineDB.DB) :
  OfflineOps.allAccept api ->
  let p := snd (OfflineSync.attemptSync api now h db) in
  OfflineSync.errorCount p = 0 /\
  OfflineSync.successCount p = Z.of_nat (List.length (OfflineSync.p_calls p)) /\
  forall k, In k (OfflineSync.p_calls p) ->
    exists r, OfflineDB.get OfflineDB.rec_id (OfflineDB.medical_records (OfflineSync.p_db p)) k
                = Some r /\
              OfflineDB.rec_synced r = true.
Proof.
  intros Hacc. cbv zeta.
  assert (OfflineOps.allMarked (snd (OfflineSync.attemptSync api now h db))) as [He Hm].
  { unfold OfflineSync.attemptSync.
    destruct (OfflineSync.isSyncing h || negb (String.eqb (OfflineSync.syncStatus h) "online"));
      [split; [reflexivity | intros k []]|].
    destruct (OfflineDB.getPendingSyncItems 5 db) as [|i items];
      [split; [reflexivity | intros k []]|].
    cbn [snd]. apply fold_syncItem_allMarked; [exact Hacc|].
    split; [reflexivity | intros k []]. }
  split; [exact He|]. split; [|exact Hm].
  destruct (attemptSync_counts_total api now h db) as [Hc _]. cbv zeta in Hc. lia.
Qed.

Lemma accepted_records_are_stored_as_synced_witness :
  let p := snd (OfflineSync.attemptSync Scenario.accepting 3000 Scenario2.soldierOnline
                  Scenario.savedOnce) in
  OfflineSync.errorCount p = 0 /\
  OfflineSync.successCount p = Z.of_nat (List.length (OfflineSync.p_calls p)) /\
  forall k, In k (OfflineSync.p_calls p) ->
    exists r, OfflineDB.get OfflineDB.rec_id (OfflineDB.medical_records (OfflineSync.p_db p)) k
                = Some r /\
              OfflineDB.rec_synced r = true.
Proof.
  apply (accepted_records_are_stored_as_synced Scenario.accepting 3000
           Scenario2.soldierOnline Scenario.savedOnce).
  intros n record. exists (3000 + Z.of_nat n). reflexivity.
Defined.

(** ** The same records, pass after pass *)

Lemma mark_rows (t k : Z) (db : OfflineDB.DB) :
  OfflineOps.consistent db ->
  OfflineDB.rows (OfflineDB.medical_records (OfflineDB.markAsSynced t k db)) =
    map (fun a => if OfflineDB.rec_id a =? k then OfflineDB.setSynced t a else a)
      (OfflineDB.rows (OfflineDB.medical_records db)) /\
  OfflineDB.indexNames (OfflineDB.medical_records (OfflineDB.markAsSynced t k db)) =
    OfflineDB.indexNames (OfflineDB.medical_records db).
Proof.
  intros ((Hs & _) & _). apply sorted_keys_distinct in Hs. rewrite markAsSynced_records.
  destruct (OfflineDB.get OfflineDB.rec_id (OfflineDB.medical_records db) k)
    as [record|] eqn:G.
  - destruct (get_found_key _ _ _ _ G) as [Hk Hrec]. split; [|reflexivity].
    assert (OfflineDB.get OfflineDB.rec_id (OfflineDB.medical_records db)
              (OfflineDB.rec_id (OfflineDB.setSynced t record)) = Some record) as G'
      by (cbn; rewrite Hk; exact G).
    rewrite (rows_put_existing _ _ _ _ G'). apply map_ext_in. intros a Ha.
    cbn [OfflineDB.setSynced OfflineDB.rec_id]. rewrite Hk.
    destruct (OfflineDB.rec_id a =? k) eqn:E; [|reflexivity].
    apply Z.eqb_eq in E. f_equal. eapply NoDup_map_eq; eauto. congruence.
  - split; [|reflexivity].
    rewrite <- (map_id (OfflineDB.rows (OfflineDB.medical_records db))) at 1.
    apply map_ext_in. intros a Ha. unfold OfflineDB.get in G. apply (find_none _ _ G) in Ha.
    cbv beta in Ha. now rewrite Ha.
Qed.

Lemma find_map_same {A : Type} (p : A -> bool) (f : A -> A) (l : list A) :
  (forall a, p (f a) = p a) ->
  find p (map f l) = option_map f (find p l).
Proof.
  intros Hp. induction l as [|a l IH]; cbn; [reflexivity|].
  rewrite Hp. destruct (p a); [reflexivity | exact IH].
Qed.

Lemma filter_map_same {A : Type} (p : A -> bool) (f : A -> A) (l : list A) :
  (forall a, p (f a) = p a) ->
  filter p (map f l) = map f (filter p l).
Proof.
  intros Hp. induction l as [|a l IH]; cbn; [reflexivity|].
  rewrite Hp. destruct (p a); cbn; now rewrite IH.
Qed.

Lemma found_after_mark (h : OfflineSync.Hook) (t k j : Z) (db : OfflineDB.DB) :
  OfflineOps.consistent db ->
  OfflineOps.found h (OfflineDB.markAsSynced t k db) j = OfflineOps.found h db j.
Proof.
  intros Hc. destruct (mark_rows t k db Hc) as [Hrows Hnames].
  unfold OfflineOps.found, OfflineSync.findRecord, OfflineDB.getMedicalRecords, OfflineDB.index.
  rewrite Hnames. destruct (existsb _ _); [|reflexivity].
  rewrite Hrows. rewrite filter_map_same, find_map_same.
  - now destruct (find _ _).
  - intros a. now destruct (OfflineDB.rec_id a =? k).
  - intros a. now destruct (OfflineDB.rec_id a =? k).
Qed.

Lemma found_soldier (h h' : OfflineSync.Hook) (db : OfflineDB.DB) (k : Z) :
  OfflineSync.soldier h' = OfflineSync.soldier h ->
  OfflineOps.found h' db k = OfflineOps.found h db k.
Proof. intros E. unfold OfflineOps.found, OfflineSync.findRecord. now rewrite E. Qed.

Lemma fold_syncItem_calls (api : nat -> OfflineDB.MedicalRecord -> OfflineSync.ApiResult)
    (h : OfflineSync.Hook) (db : OfflineDB.DB) (items : list OfflineDB.QueueEntry) :
  forall p,
    OfflineOps.consistent (OfflineSync.p_db p) ->
    (forall j, OfflineOps.found h (OfflineSync.p_db p) j = OfflineOps.found h db j) ->
    OfflineSync.p_calls (fold_left (OfflineSync.syncItem api h) items p) =
    OfflineSync.p_calls p ++
    map OfflineDB.q_recordId
      (filter (fun item => OfflineOps.found h db (OfflineDB.q_recordId item)) items).
Proof.
  induction items as [|item items IH]; intros p Hc Hf; cbn [fold_left filter map].
  - now rewrite app_nil_r.
  - rewrite IH.
    + rewrite <- (Hf (OfflineDB.q_recordId item)).
      unfold OfflineOps.found, OfflineSync.syncItem.
      destruct (OfflineSync.findRecord h (OfflineSync.p_db p) (OfflineDB.q_recordId item))
        as [record|] eqn:F; [|reflexivity].
      destruct (findRecord_stored _ _ _ _ F) as [-> _].
      destruct (api _ record); cbn [OfflineSync.p_calls map]; now rewrite <- app_assoc.
    + destruct (syncItem_db api h p item) as [->|(t & ->)];
        [exact Hc | now apply mark_keeps_consistent].
    + intros j. destruct (syncItem_db api h p item) as [->|(t & ->)]; [apply Hf|].
      rewrite found_after_mark; [apply Hf | exact Hc].
Qed.

Lemma attemptSync_calls (api : nat -> OfflineDB.MedicalRecord -> OfflineSync.ApiResult)
    (now : Z) (h : OfflineSync.Hook) (db : OfflineDB.DB) :
  OfflineOps.consistent db ->
  OfflineSync.p_calls (snd (OfflineSync.attemptSync api now h db)) =
  if OfflineSync.isSyncing h || negb (String.eqb (OfflineSync.syncStatus h) "online")
  then []
  else map OfflineDB.q_recordId
         (filter (fun item => OfflineOps.found h db (OfflineDB.q_recordId item))
            (OfflineDB.getPendingSyncItems 5 db)).
Proof.
  intros Hc. unfold OfflineSync.attemptSync.
  destruct (OfflineSync.isSyncing h || negb (String.eqb (OfflineSync.syncStatus h) "online"));
    [reflexivity|].
  destruct (OfflineDB.getPendingSyncItems 5 db) as [|i items]; [reflexivity|].
  cbn [snd]. now rewrite (fold_syncItem_calls api h db (i :: items)).
Qed.

Lemma attemptSync_hook (api : nat -> OfflineDB.MedicalRecord -> OfflineSync.ApiResult)
    (now : Z) (h : OfflineSync.Hook) (db : OfflineDB.DB) :
  let h' := fst (OfflineSync.attemptSync api now h db) in
  OfflineSync.soldier h' = OfflineSync.soldier h /\
  OfflineSync.isSyncing h' || negb (String.eqb (OfflineSync.syncStatus h') "online") =
  OfflineSync.isSyncing h || negb (String.eqb (OfflineSync.syncStatus h) "online").
Proof.
  cbv zeta. unfold OfflineSync.attemptSync.
  destruct (OfflineSync.isSyncing h || negb (String.eqb (OfflineSync.syncStatus h) "online"))
    eqn:E; [now split|].
  apply orb_false_iff in E. destruct E as [_ E].
  destruct (OfflineDB.getPendingSyncItems 5 db);
    cbn [fst OfflineSync.soldier OfflineSync.isSyncing OfflineSync.syncStatus];
    now rewrite E.
Qed.

(** X17: which records a pass sends, and that it sends them again.  In a
    consistent database the records a pass of [attemptSync] hands to the API
    are those of the first five pending entries whose record the hook finds,
    in queue order, whatever the API answers.  When [sync_queue] has no
    [recordId] index (the store [init] creates has none) the pass leaves the
    queue as it was, and the next pass of the same session hands the same
    records to the API again, those the first pass marked as synced
    included. *)
Theorem pass_sends_the_same_records_again
    (api1 api2 : nat -> OfflineDB.MedicalRecord -> OfflineSync.ApiResult) (now1 now2 : Z)
    (h : OfflineSync.Hook) (db : OfflineDB.DB) :
  OfflineOps.consistent db ->
  OfflineDB.index (OfflineDB.sync_queue db) "recordId" = None ->
  let first := OfflineSync.attemptSync api1 now1 h db in
  let second := OfflineSync.attemptSync api2 now2 (fst first) (OfflineSync.p_db (snd first)) in
  OfflineSync.p_calls (snd first) =
    (if OfflineSync.isSyncing h || negb (String.eqb (OfflineSync.syncStatus h) "online")
     then []
     else map OfflineDB.q_recordId
            (filter (fun item => OfflineOps.found h db (OfflineDB.q_recordId item))
               (OfflineDB.getPendingSyncItems 5 db))) /\
  OfflineDB.sync_queue (OfflineSync.p_db (snd first)) = OfflineDB.sync_queue db /\
  OfflineSync.p_calls (snd second) = OfflineSync.p_calls (snd first).
Proof.
  intros Hc Hidx. cbv zeta.
  assert (OfflineOps.consistent
            (OfflineSync.p_db (snd (OfflineSync.attemptSync api1 now1 h db))) /\
          OfflineDB.sync_queue (OfflineSync.p_db (snd (OfflineSync.attemptSync api1 now1 h db)))
            = OfflineDB.sync_queue db /\
          forall j, OfflineOps.found h
                      (OfflineSync.p_db (snd (OfflineSync.attemptSync api1 now1 h db))) j
                    = OfflineOps.found h db j) as (Hc1 & Hq & Hf).
  { apply (attemptSync_keeps
             (fun d => OfflineOps.consistent d /\
                       OfflineDB.sync_queue d = OfflineDB.sync_queue db /\
                       forall j, OfflineOps.found h d j = OfflineOps.found h db j)).
    - intros t k d (Hd & Hdq & Hdf). split; [now apply mark_keeps_consistent|]. split.
      + rewrite markAsSynced_without_index; [exact Hdq | now rewrite Hdq].
      + intros j. rewrite found_after_mark; [apply Hdf | exact Hd].
    - split; [exact Hc|]. split; [reflexivity|]. intros j. reflexivity. }
  split; [now apply attemptSync_calls|]. split; [exact Hq|].
  destruct (attemptSync_hook api1 now1 h db) as [Hs He]. cbv zeta in Hs, He.
  rewrite (attemptSync_calls api2 now2 _ _ Hc1), (attemptSync_calls api1 now1 h db Hc), He.
  destruct (OfflineSync.isSyncing h || negb (String.eqb (OfflineSync.syncStatus h) "online"));
    [reflexivity|].
  unfold OfflineDB.getPendingSyncItems. rewrite Hq. f_equal. apply filter_ext.
  intros item. rewrite (found_soldier h _ _ _ Hs). apply Hf.
Qed.

Lemma pass_sends_the_same_records_again_witness :
  let first := OfflineSync.attemptSync Scenario.accepting 3000 Scenario2.soldierOnline
                 Scenario.savedOnce in
  let second := OfflineSync.attemptSync Scenario.accepting 4000 (fst first)
                  (OfflineSync.p_db (snd first)) in
  OfflineSync.p_calls (snd first) = [1] /\
  OfflineDB.sync_queue (OfflineSync.p_db (snd first)) = OfflineDB.sync_queue Scenario.savedOnce /\
  OfflineSync.p_calls (snd second) = OfflineSync.p_calls (snd first).
Proof.
  apply (pass_sends_the_same_records_again Scenario.accepting Scenario.accepting 3000 4000
           Scenario2.soldierOnline Scenario.savedOnce).
  - apply (save_keeps_consistent 1000 Scenario.immediateRecord OfflineDB.init).
    exact init_consistent.
  - reflexivity.
Defined.

(** ** queueRecord *)

Lemma queueRecord_fails (clock : OfflineSave.Clock) (now' : Z)
    (record : OfflineDB.RecordInput) (json : list Z) (h : OfflineSync.Hook)
    (db : OfflineDB.DB) :
  SymptomsCache.latin1 json = false ->
  SyncHook.queueRecord clock now' record json h db =
    {| SyncHook.hook := h; SyncHook.database := db; SyncHook.result := None;
       SyncHook.startsSync := false |}.
Proof.
  intros L. unfold SyncHook.queueRecord. now rewrite saveMedicalRecord_throws.
Qed.

Lemma queueRecord_succeeds (clock : OfflineSave.Clock) (now' : Z)
    (record : OfflineDB.RecordInput) (json : list Z) (h : OfflineSync.Hook)
    (db : OfflineDB.DB) :
  SymptomsCache.latin1 json = true ->
  let saved := OfflineSave.saveMedicalRecord clock (SyncHook.recordWithSoldier h record)
                 json db in
  let id := OfflineDB.nextKey (OfflineDB.medical_records db) in
  let q := SyncHook.queueRecord clock now' record json h db in
  fst saved = Some id /\
  SyncHook.result q = Some id /\
  SyncHook.database q = snd saved /\
  SyncHook.startsSync q = String.eqb (OfflineSync.syncStatus h) "online" /\
  OfflineSync.soldier (SyncHook.hook q) = OfflineSync.soldier h /\
  OfflineSync.queuedRecords (SyncHook.hook q) =
    OfflineSync.queuedRecords h ++
    [{| OfflineDB.q_id := id; OfflineDB.q_type := "medical_record";
        OfflineDB.q_recordId := id;
        OfflineDB.q_priority := OfflineDB.calculateSyncPriority record;
        OfflineDB.q_timestamp := now'; OfflineDB.q_attempts := 0;
        OfflineDB.q_lastAttempt := None |}].
Proof.
  intros L. cbv zeta. unfold SyncHook.queueRecord.
  unfold OfflineSave.saveMedicalRecord, OfflineSave.encryptRecord, SymptomsCache.btoa.
  rewrite L. cbn [OfflineDB.add fst snd]. repeat split.
Qed.

Lemma queueRecord_effect (clock : OfflineSave.Clock) (now' : Z)
    (record : OfflineDB.RecordInput) (json : list Z) (h : OfflineSync.Hook)
    (db : OfflineDB.DB) :
  OfflineOps.consistent db ->
  In "soldierId" (OfflineDB.indexNames (OfflineDB.medical_records db)) ->
  SymptomsCache.latin1 json = true ->
  let q := SyncHook.queueRecord clock now' record json h db in
  exists id,
    SyncHook.result q = Some id /\
    (exists r,
       OfflineSync.findRecord (SyncHook.hook q) (SyncHook.database q) id = Some r /\
       OfflineDB.rec_input r = SyncHook.recordWithSoldier h record /\
       OfflineDB.rec_synced r = false /\
       OfflineDB.rec_syncPriority r = OfflineDB.calculateSyncPriority record) /\
    (exists e,
       OfflineDB.entriesOf id (SyncHook.database q) = [e] /\
       OfflineDB.q_priority e = OfflineDB.calculateSyncPriority record) /\
    SyncHook.total (SyncHook.getSyncStats (SyncHook.hook q)) =
      SyncHook.total (SyncHook.getSyncStats h) + 1 /\
    SyncHook.highPriority (SyncHook.getSyncStats (SyncHook.hook q)) =
      SyncHook.highPriority (SyncHook.getSyncStats h) +
      (if OfflineDB.calculateSyncPriority record =? 1 then 1 else 0).
Proof.
  intros Hc Hidx L. cbv zeta.
  destruct (queueRecord_succeeds clock now' record json h db L)
    as (_ & Er & Edb & _ & Es & Eq).
  cbv zeta in *.
  destruct (saveMedicalRecord_effect clock (SyncHook.recordWithSoldier h record) json db Hc L)
    as (_ & Hfresh & Hget & Hent & Hrecs). cbv zeta in *. specialize (Hrecs Hidx).
  exists (OfflineDB.nextKey (OfflineDB.medical_records db)).
  rewrite Edb. split; [exact Er|]. split; [|split; [|split]].
  - exists {| OfflineDB.rec_id := OfflineDB.nextKey (OfflineDB.medical_records db);
              OfflineDB.rec_input := SyncHook.recordWithSoldier h record;
              OfflineDB.rec_synced := false; OfflineDB.rec_syncAttempts := 0;
              OfflineDB.rec_syncPriority := OfflineDB.calculateSyncPriority record;
              OfflineDB.rec_lastSyncAttempt := None;
              OfflineDB.rec_createdAt := OfflineSave.atCreated clock;
              OfflineDB.rec_updatedAt := OfflineSave.atUpdated clock |}.
    split; [|split; [|split]]; [|reflexivity..].
    unfold OfflineSync.findRecord. rewrite Es.
    change (match OfflineSync.soldier h with
            | Some s => s
            | None => "emergency-unknown"
            end)
      with (OfflineDB.in_soldierId (SyncHook.recordWithSoldier h record)).
    rewrite Hrecs. rewrite find_app_none.
    + cbn [find OfflineDB.rec_id]. now rewrite Z.eqb_refl.
    + intros r Hr. apply Z.eqb_neq. intros E. apply Hfresh. rewrite <- E.
      apply in_map. unfold OfflineDB.getMedicalRecords in Hr.
      destruct (OfflineDB.index _ _) as [s|] eqn:I; [|contradiction].
      unfold OfflineDB.index in I. destruct (existsb _ _); [|discriminate].
      injection I as <-. apply filter_In in Hr. tauto.
  - eexists. split; [exact Hent | reflexivity].
  - unfold SyncHook.getSyncStats. cbn [SyncHook.total]. rewrite Eq, length_app.
    cbn [List.length]. lia.
  - unfold SyncHook.getSyncStats. cbn [SyncHook.highPriority].
    rewrite Eq, filter_app, length_app. cbn [filter OfflineDB.q_priority].
    destruct (OfflineDB.calculateSyncPriority record =? 1); cbn [List.length]; lia.
Qed.

(** X18: what [queueRecord] does in a consistent database with the
    [soldierId] index.  When the JSON text of the record has a code unit
    above 255 the save throws: [queueRecord] returns the failure, starts no
    sync, and leaves the database and the hook's list as they were.
    Otherwise it returns the new id, and the record is found by the session
    that queued it: it is stored under the session's soldier id, so the
    lookup [attemptSync] makes for the returned id finds it, not yet synced;
    the database queue holds exactly one entry for it, with the priority the
    hook lists; and [getSyncStats] counts one record more, and one more of
    high priority exactly when that priority is 1. *)
Theorem queued_record_is_found_by_its_session
    (clock : OfflineSave.Clock) (now' : Z) (record : OfflineDB.RecordInput)
    (json : list Z) (h : OfflineSync.Hook) (db : OfflineDB.DB) :
  OfflineOps.consistent db ->
  In "soldierId" (OfflineDB.indexNames (OfflineDB.medical_records db)) ->
  let q := SyncHook.queueRecord clock now' record json h db in
  (SymptomsCache.latin1 json = false ->
   SyncHook.result q = None /\ SyncHook.startsSync q = false /\
   SyncHook.database q = db /\ SyncHook.hook q = h) /\
  (SymptomsCache.latin1 json = true ->
   exists id,
     SyncHook.result q = Some id /\
     (exists r,
        OfflineSync.findRecord (SyncHook.hook q) (SyncHook.database q) id = Some r /\
        OfflineDB.rec_input r = SyncHook.recordWithSoldier h record /\
        OfflineDB.rec_synced r = false /\
        OfflineDB.rec_syncPriority r = OfflineDB.calculateSyncPriority record) /\
     (exists e,
        OfflineDB.entriesOf id (SyncHook.database q) = [e] /\
        OfflineDB.q_priority e = OfflineDB.calculateSyncPriority record) /\
     SyncHook.total (SyncHook.getSyncStats (SyncHook.hook q)) =
       SyncHook.total (SyncHook.getSyncStats h) + 1 /\
     SyncHook.highPriority (SyncHook.getSyncStats (SyncHook.hook q)) =
       SyncHook.highPriority (SyncHook.getSyncStats h) +
       (if OfflineDB.calculateSyncPriority record =? 1 then 1 else 0)).
Proof.
  intros Hc Hidx. cbv zeta. split.
  - intros L. rewrite (queueRecord_fails clock now' record json h db L). repeat split.
  - intros L. exact (queueRecord_effect clock now' record json h db Hc Hidx L).
Qed.

Lemma queued_record_is_found_by_its_session_witness :
  (let q := SyncHook.queueRecord Scenario2.secondSave 2004 Scenario2.delayedRecord
              Scenario2.euroJson Scenario.anonymousOnline Scenario.savedOnce in
   SyncHook.result q = None /\ SyncHook.startsSync q = false /\
   SyncHook.database q = Scenario.savedOnce /\ SyncHook.hook q = Scenario.anonymousOnline) /\
  (let q := SyncHook.queueRecord Scenario2.secondSave 2004 Scenario2.delayedRecord
              Scenario2.delayedJson Scenario.anonymousOnline Scenario.savedOnce in
   exists id,
     SyncHook.result q = Some id /\
     (exists r,
        OfflineSync.findRecord (SyncHook.hook q) (SyncHook.database q) id = Some r /\
        OfflineDB.rec_input r =
          SyncHook.recordWithSoldier Scenario.anonymousOnline Scenario2.delayedRecord /\
        OfflineDB.rec_synced r = false /\
        OfflineDB.rec_syncPriority r = 2) /\
     (exists e,
        OfflineDB.entriesOf id (SyncHook.database q) = [e] /\
        OfflineDB.q_priority e = 2) /\
     SyncHook.total (SyncHook.getSyncStats (SyncHook.hook q)) = 0 + 1 /\
     SyncHook.highPriority (SyncHook.getSyncStats (SyncHook.hook q)) = 0 + 0).
Proof.
  assert (OfflineOps.consistent Scenario.savedOnce) as Hc.
  { apply (save_keeps_consistent 1000 Scenario.immediateRecord OfflineDB.init).
    exact init_consistent. }
  assert (In "soldierId" (OfflineDB.indexNames (OfflineDB.medical_records Scenario.savedOnce)))
    as Hidx by (cbn; left; reflexivity).
  split.
  - apply (proj1 (queued_record_is_found_by_its_session Scenario2.secondSave 2004
                    Scenario2.delayedRecord Scenario2.euroJson Scenario.anonymousOnline
                    Scenario.savedOnce Hc Hidx)).
    reflexivity.
  - apply (proj2 (queued_record_is_found_by_its_session Scenario2.secondSave 2004
                    Scenario2.delayedRecord Scenario2.delayedJson Scenario.anonymousOnline
                    Scenario.savedOnce Hc Hidx)).
    reflexivity.
Defined.

(** X19: an assessment of the chatbot that is saved is queued with the
    lowest priority.  The record the chatbot hands to [queueRecord] carries
    the triage level of the analysis inside [metadata] only, so when the save
    succeeds (the JSON text of the record has no code unit above 255),
    whatever that level is (['IMMEDIATE'] included) the stored record and its
    queue entry get priority 3, and [getSyncStats] counts no high-priority
    record more.  When the save throws, nothing is stored or queued and
    [queueRecord] returns the failure. *)
Theorem assessment_is_queued_with_priority_3
    (clock : OfflineSave.Clock) (now' : Z) (soldier : option string)
    (analysisTriage : string) (json : list Z) (h : OfflineSync.Hook) (db : OfflineDB.DB) :
  OfflineOps.consistent db ->
  In "soldierId" (OfflineDB.indexNames (OfflineDB.medical_records db)) ->
  let q := SyncHook.queueRecord clock now'
             (SyncHook.assessmentRecord soldier analysisTriage) json h db in
  (SymptomsCache.latin1 json = false ->
   SyncHook.result q = None /\ SyncHook.database q = db /\ SyncHook.hook q = h) /\
  (SymptomsCache.latin1 json = true ->
   exists id,
     SyncHook.result q = Some id /\
     (exists r,
        OfflineSync.findRecord (SyncHook.hook q) (SyncHook.database q) id = Some r /\
        OfflineDB.rec_syncPriority r = 3) /\
     (exists e,
        OfflineDB.entriesOf id (SyncHook.database q) = [e] /\
        OfflineDB.q_priority e = 3) /\
     SyncHook.highPriority (SyncHook.getSyncStats (SyncHook.hook q)) =
       SyncHook.highPriority (SyncHook.getSyncStats h)).
Proof.
  intros Hc Hidx. cbv zeta. split.
  - intros L. rewrite (queueRecord_fails clock now' _ json h db L). repeat split.
  - intros L.
    destruct (queueRecord_effect clock now' (SyncHook.assessmentRecord soldier analysisTriage)
                json h db Hc Hidx L)
      as (id & Er & (r & F & _ & _ & Pr) & (e & En & Pe) & _ & Hh).
    cbv zeta in *.
    change (OfflineDB.calculateSyncPriority (SyncHook.assessmentRecord soldier analysisTriage))
      with 3 in *.
    exists id. split; [exact Er|].
    split; [exists r; now split|]. split; [exists e; now split|].
    rewrite Hh. change (3 =? 1) with false. cbv iota. lia.
Qed.

Lemma assessment_is_queued_with_priority_3_witness :
  (let q := SyncHook.queueRecord Scenario2.secondSave 2004
              (SyncHook.assessmentRecord (Some "S-100") "IMMEDIATE") Scenario2.euroJson
              Scenario2.soldierOnline Scenario.savedOnce in
   SyncHook.result q = None /\ SyncHook.database q = Scenario.savedOnce /\
   SyncHook.hook q = Scenario2.soldierOnline) /\
  (let q := SyncHook.queueRecord Scenario2.secondSave 2004
              (SyncHook.assessmentRecord (Some "S-100") "IMMEDIATE") Scenario2.delayedJson
              Scenario2.soldierOnline Scenario.savedOnce in
   exists id,
     SyncHook.result q = Some id /\
     (exists r,
        OfflineSync.findRecord (SyncHook.hook q) (SyncHook.database q) id = Some r /\
        OfflineDB.rec_syncPriority r = 3) /\
     (exists e,
        OfflineDB.entriesOf id (SyncHook.database q) = [e] /\
        OfflineDB.q_priority e = 3) /\
     SyncHook.highPriority (SyncHook.getSyncStats (SyncHook.hook q)) =
       SyncHook.highPriority (SyncHook.getSyncStats Scenario2.soldierOnline)).
Proof.
  assert (OfflineOps.consistent Scenario.savedOnce) as Hc.
  { apply (save_keeps_consistent 1000 Scenario.immediateRecord OfflineDB.init).
    exact init_consistent. }
  assert (In "soldierId" (OfflineDB.indexNames (OfflineDB.medical_records Scenario.savedOnce)))
    as Hidx by (cbn; left; reflexivity).
  split.
  - apply (proj1 (assessment_is_queued_with_priority_3 Scenario2.secondSave 2004
                    (Some "S-100") "IMMEDIATE" Scenario2.euroJson Scenario2.soldierOnline
                    Scenario.savedOnce Hc Hidx)).
    reflexivity.
  - apply (proj2 (assessment_is_queued_with_priority_3 Scenario2.secondSave 2004
                    (Some "S-100") "IMMEDIATE" Scenario2.delayedJson Scenario2.soldierOnline
                    Scenario.savedOnce Hc Hidx)).
    reflexivity.
Defined.

(** ** What the hook lists after a pass *)

Lemma mark_keeps_queue_indexes (t k : Z) (db : OfflineDB.DB) :
  OfflineDB.indexNames (OfflineDB.sync_queue (OfflineDB.markAsSynced t k db)) =
  OfflineDB.indexNames (OfflineDB.sync_queue db).
Proof.
  rewrite markAsSynced_queue. unfold OfflineDB.index.
  destruct (existsb _ _); [|reflexivity]. apply fold_delete_settings.
Qed.

Lemma attemptSync_reloads (api : nat -> OfflineDB.MedicalRecord -> OfflineSync.ApiResult)
    (now : Z) (h : OfflineSync.Hook) (db : OfflineDB.DB) :
  OfflineSync.isSyncing h = false ->
  OfflineSync.syncStatus h = "online" ->
  OfflineDB.getPendingSyncItems 5 db <> [] ->
  let run := OfflineSync.attemptSync api now h db in
  OfflineSync.queuedRecords (fst run) =
    OfflineDB.getPendingSyncItems 10 (OfflineSync.p_db (snd run)) /\
  OfflineSync.lastSync (fst run) = Some now /\
  OfflineSync.isSyncing (fst run) = false /\
  OfflineSync.syncStatus (fst run) = "online".
Proof.
  intros Hs Ho Hp. cbv zeta. unfold OfflineSync.attemptSync. rewrite Hs, Ho.
  change (false || negb (String.eqb "online" "online")) with false. cbv iota.
  destruct (OfflineDB.getPendingSyncItems 5 db) as [|i items]; [contradiction|].
  repeat split.
Qed.

(** X24: after a pass the hook lists at most ten entries.  When a pass of
    [attemptSync] runs (the hook is online and not syncing, and there are
    pending items), the list the hook holds afterwards is read again from the
    database with the default limit: [getSyncStats] reports the smaller of
    10 and the number of queue entries as [total], the listed entries are
    entries of the queue in priority-then-time order, [lastSync] is the time
    the pass ended and [isSyncing] is false. *)
Theorem hook_lists_at_most_ten_entries_after_a_pass
    (api : nat -> OfflineDB.MedicalRecord -> OfflineSync.ApiResult) (now : Z)
    (h : OfflineSync.Hook) (db : OfflineDB.DB) :
  OfflineSync.isSyncing h = false ->
  OfflineSync.syncStatus h = "online" ->
  OfflineDB.getPendingSyncItems 5 db <> [] ->
  let h' := fst (OfflineSync.attemptSync api now h db) in
  let db' := OfflineSync.p_db (snd (OfflineSync.attemptSync api now h db)) in
  SyncHook.total (SyncHook.getSyncStats h') =
    Z.min 10 (Z.of_nat (List.length (OfflineDB.rows (OfflineDB.sync_queue db')))) /\
  StronglySorted OfflineDB.ranksBefore (OfflineSync.queuedRecords h') /\
  incl (OfflineSync.queuedRecords h') (OfflineDB.rows (OfflineDB.sync_queue db')) /\
  SyncHook.stats_lastSync (SyncHook.getSyncStats h') = Some now /\
  SyncHook.stats_isSyncing (SyncHook.getSyncStats h') = false.
Proof.
  intros Hs Ho Hp. cbv zeta.
  destruct (attemptSync_reloads api now h db Hs Ho Hp) as (Eq & El & Ei & _).
  cbv zeta in *.
  assert (In "priority" (OfflineDB.indexNames (OfflineDB.sync_queue db))) as Hidx.
  { unfold OfflineDB.getPendingSyncItems, OfflineDB.index in Hp.
    destruct (existsb _ _) eqn:E; [|contradiction].
    apply existsb_exists in E. destruct E as (x & Hx & Ex).
    apply String.eqb_eq in Ex. now subst x. }
  assert (In "priority"
            (OfflineDB.indexNames
               (OfflineDB.sync_queue
                  (OfflineSync.p_db (snd (OfflineSync.attemptSync api now h db))))))
    as Hidx'.
  { apply (attemptSync_keeps
             (fun d => In "priority" (OfflineDB.indexNames (OfflineDB.sync_queue d))));
      [|exact Hidx].
    intros t k d Hd. now rewrite mark_keeps_queue_indexes. }
  destruct (pending_items_sorted _ 10 Hidx') as (all & Ea & Hperm & Hsorted & _).
  unfold SyncHook.getSyncStats.
  cbn [SyncHook.total SyncHook.stats_lastSync SyncHook.stats_isSyncing].
  rewrite Eq, Ea, El, Ei.
  change (JsArray.slice0 10 all) with (firstn 10 all).
  split; [|split; [|split; [|split]]]; try reflexivity.
  - rewrite length_firstn, <- (Permutation_length Hperm). lia.
  - now apply StronglySorted_firstn.
  - intros e He. apply (Permutation_in e Hperm). now apply In_firstn in He.
Qed.

Lemma hook_lists_at_most_ten_entries_after_a_pass_witness :
  let h' := fst (OfflineSync.attemptSync Scenario.accepting 3000 Scenario2.soldierOnline
                   Scenario.savedOnce) in
  let db' := OfflineSync.p_db (snd (OfflineSync.attemptSync Scenario.accepting 3000
                                      Scenario2.soldierOnline Scenario.savedOnce)) in
  SyncHook.total (SyncHook.getSyncStats h') =
    Z.min 10 (Z.of_nat (List.length (OfflineDB.rows (OfflineDB.sync_queue db')))) /\
  StronglySorted OfflineDB.ranksBefore (OfflineSync.queuedRecords h') /\
  incl (OfflineSync.queuedRecords h') (OfflineDB.rows (OfflineDB.sync_queue db')) /\
  SyncHook.stats_lastSync (SyncHook.getSyncStats h') = Some 3000 /\
  SyncHook.stats_isSyncing (SyncHook.getSyncStats h') = false.
Proof.
  apply (hook_lists_at_most_ten_entries_after_a_pass Scenario.accepting 3000
           Scenario2.soldierOnline Scenario.savedOnce);
    [reflexivity | reflexivity | vm_compute; discriminate].
Defined.

(** ** The symptoms cache *)

Lemma btoa_Man :
  SymptomsCache.btoa [77; 97; 110] = Some (list_ascii_of_string "TWFu") /\
  SymptomsCache.btoa [77; 97] = Some (list_ascii_of_string "TWE=") /\
  SymptomsCache.btoa [77] = Some (list_ascii_of_string "TQ==") /\
  SymptomsCache.btoa [8364] = None.
Proof. repeat split. Qed.

(** The first [4 n] characters of the base64 text are those of the first
    [3 n] bytes. *)
Lemma encode_prefix (n : nat) :
  forall s : list Z,
    firstn (n * 4) (SymptomsCache.encode s) =
    firstn (n * 4) (SymptomsCache.encode (firstn (n * 3) s)).
Proof.
  induction n as [|n IH]; intros s; [reflexivity|].
  destruct s as [|a [|b [|c rest]]]; try reflexivity.
  change (S n * 3)%nat with (S (S (S (n * 3)))).
  change (S n * 4)%nat with (S (S (S (S (n * 4))))).
  cbn [firstn SymptomsCache.encode]. now rewrite IH.
Qed.

Lemma key_of_prefix (s s' : list Z) :
  firstn 75 s = firstn 75 s' ->
  SymptomsCache.latin1 s = true -> SymptomsCache.latin1 s' = true ->
  SymptomsCache.generateCacheKey (SymptomsCache.Text s) =
  SymptomsCache.generateCacheKey (SymptomsCache.Text s').
Proof.
  intros E L L'. unfold SymptomsCache.generateCacheKey, SymptomsCache.btoa.
  rewrite L, L'. do 2 f_equal.
  change 100%nat with (25 * 4)%nat.
  rewrite (encode_prefix 25 s), (encode_prefix 25 s').
  change (25 * 3)%nat with 75%nat. now rewrite E.
Qed.

Section CacheStore.
Context {Analysis : Type}.
Implicit Types (c : SymptomsCache.Cache Analysis) (v e : SymptomsCache.CacheEntry Analysis).

Lemma find_among {A : Type} (p : A -> bool) (l1 l2 : list A) :
  find p (l1 ++ l2) = match find p l1 with
                      | Some x => Some x
                      | None => find p l2
                      end.
Proof.
  induction l1 as [|a l1 IH]; cbn; [reflexivity|]. now destruct (p a).
Qed.

Lemma find_kept {A : Type} (p q : A -> bool) (l : list A) :
  (forall a, p a = true -> q a = true) -> find p (filter q l) = find p l.
Proof.
  intros H. induction l as [|a l IH]; cbn; [reflexivity|].
  destruct (q a) eqn:Q; cbn.
  - now destruct (p a).
  - destruct (p a) eqn:P; [|exact IH]. apply H in P. congruence.
Qed.

Lemma find_dropped {A : Type} (p q : A -> bool) (l : list A) :
  (forall a, p a = true -> q a = false) -> find p (filter q l) = None.
Proof.
  intros H. induction l as [|a l IH]; cbn; [reflexivity|].
  destruct (q a) eqn:Q; cbn; [|exact IH].
  destruct (p a) eqn:P; [|exact IH]. apply H in P. congruence.
Qed.

Lemma ltb_or_gtb (j k : string) :
  j <> k -> String.ltb j k = true \/ (String.ltb j k = false /\ String.ltb k j = true).
Proof.
  intros Hne. unfold String.ltb. rewrite (String.compare_antisym k j).
  destruct (String.compare j k) eqn:C; cbn; auto.
  apply String.compare_eq_iff in C. contradiction.
Qed.

Lemma ltb_irrefl (k : string) : String.ltb k k = false.
Proof.
  unfold String.ltb. pose proof (String.compare_antisym k k) as C.
  destruct (String.compare k k); [reflexivity | discriminate | reflexivity].
Qed.

Lemma get_put_same v c : SymptomsCache.get (SymptomsCache.put v c) (SymptomsCache.c_id v) = Some v.
Proof.
  unfold SymptomsCache.get, SymptomsCache.put.
  destruct (existsb _ c) eqn:E.
  - apply existsb_exists in E. destruct E as (x & Hx & Ex).
    induction c as [|a c IH]; [contradiction|]. cbn.
    destruct (String.eqb (SymptomsCache.c_id a) (SymptomsCache.c_id v)) eqn:Ea.
    + now rewrite String.eqb_refl.
    + rewrite Ea. destruct Hx as [->|Hx]; [congruence|]. now apply IH.
  - rewrite find_among, find_dropped.
    + cbn. now rewrite String.eqb_refl.
    + intros a Ha. apply String.eqb_eq in Ha. rewrite Ha. apply ltb_irrefl.
Qed.

Lemma get_put_other v c (k : string) :
  k <> SymptomsCache.c_id v ->
  SymptomsCache.get (SymptomsCache.put v c) k = SymptomsCache.get c k.
Proof.
  intros Hne. unfold SymptomsCache.get, SymptomsCache.put.
  destruct (existsb _ c) eqn:E.
  - clear E. induction c as [|a c IH]; [reflexivity|]. cbn.
    destruct (String.eqb (SymptomsCache.c_id a) (SymptomsCache.c_id v)) eqn:Ea.
    + apply String.eqb_eq in Ea.
      replace (String.eqb (SymptomsCache.c_id v) k) with false
        by (symmetry; apply String.eqb_neq; congruence).
      replace (String.eqb (SymptomsCache.c_id a) k) with false
        by (symmetry; apply String.eqb_neq; congruence).
      exact IH.
    + destruct (String.eqb (SymptomsCache.c_id a) k); [reflexivity | exact IH].
  - clear E. rewrite find_among. cbn [app find].
    replace (String.eqb (SymptomsCache.c_id v) k) with false
      by (symmetry; apply String.eqb_neq; congruence).
    destruct (ltb_or_gtb k (SymptomsCache.c_id v) Hne) as [L|[L G]].
    + rewrite find_kept.
      * destruct (find _ c) eqn:F; [reflexivity|].
        apply find_dropped. intros a Ha. apply String.eqb_eq in Ha. rewrite Ha.
        unfold String.ltb in *. rewrite String.compare_antisym.
        destruct (String.compare k (SymptomsCache.c_id v)); try discriminate. reflexivity.
      * intros a Ha. apply String.eqb_eq in Ha. now rewrite Ha.
    + rewrite find_dropped.
      * apply find_kept. intros a Ha. apply String.eqb_eq in Ha. now rewrite Ha.
      * intros a Ha. apply String.eqb_eq in Ha. now rewrite Ha.
Qed.

Lemma In_put v e c :
  In e (SymptomsCache.put v c) ->
  e = v \/ (In e c /\ SymptomsCache.c_id e <> SymptomsCache.c_id v).
Proof.
  unfold SymptomsCache.put. destruct (existsb _ c); intros H.
  - apply in_map_iff in H. destruct H as (b & Hb & Hin).
    destruct (String.eqb _ _) eqn:E; [now left|]. subst b.
    right. split; [exact Hin | now apply String.eqb_neq].
  - apply in_app_or in H. destruct H as [H|[H|H]]; [|now left|];
      apply filter_In in H; destruct H as [Hin L]; right; (split; [exact Hin|]);
      intros E; rewrite E, ltb_irrefl in L; discriminate.
Qed.

Lemma put_keeps_distinctIds v c :
  SymptomsCache.distinctIds c -> SymptomsCache.distinctIds (SymptomsCache.put v c).
Proof.
  intros H e e' He He' E. apply In_put in He. apply In_put in He'.
  destruct He as [->|[He Ne]], He' as [->|[He' Ne']]; try congruence.
  now apply H.
Qed.

Lemma get_delete (k j : string) c :
  SymptomsCache.get (SymptomsCache.delete k c) j =
  if String.eqb k j then None else SymptomsCache.get c j.
Proof.
  unfold SymptomsCache.get, SymptomsCache.delete.
  destruct (String.eqb k j) eqn:E.
  - apply String.eqb_eq in E. subst j. apply find_dropped.
    intros a Ha. now rewrite Ha.
  - apply find_kept. intros a Ha. apply String.eqb_eq in Ha. rewrite Ha.
    rewrite String.eqb_sym. now rewrite E.
Qed.

Lemma get_deleted (old : list (SymptomsCache.CacheEntry Analysis)) (j : string) :
  forall c,
    SymptomsCache.get
      (fold_left (fun s entry => SymptomsCache.delete (SymptomsCache.c_id entry) s) old c) j =
    if existsb (fun e => String.eqb (SymptomsCache.c_id e) j) old
    then None
    else SymptomsCache.get c j.
Proof.
  induction old as [|o old IH]; intros c; cbn [fold_left existsb]; [reflexivity|].
  rewrite IH, get_delete.
  destruct (String.eqb (SymptomsCache.c_id o) j); cbn [orb]; [|reflexivity].
  now destruct (existsb _ old).
Qed.

Lemma In_deleted (old : list (SymptomsCache.CacheEntry Analysis)) e :
  forall c,
    In e (fold_left (fun s entry => SymptomsCache.delete (SymptomsCache.c_id entry) s) old c) ->
    In e c.
Proof.
  induction old as [|o old IH]; intros c; cbn [fold_left]; [auto|].
  intros H. apply IH in H. unfold SymptomsCache.delete in H. apply filter_In in H. tauto.
Qed.

Lemma applyOp_keeps_distinctIds c (op : SymptomsCache.Op Analysis) :
  SymptomsCache.distinctIds c -> SymptomsCache.distinctIds (SymptomsCache.applyOp c op).
Proof.
  intros H. destruct op as [now symptoms analysis|now hours]; cbn [SymptomsCache.applyOp].
  - unfold SymptomsCache.cacheSymptomAnalysis.
    destruct (SymptomsCache.generateCacheKey symptoms); [|exact H].
    now apply put_keeps_distinctIds.
  - intros e e' He He' E. unfold SymptomsCache.clearOldCache in He, He'.
    apply In_deleted in He. apply In_deleted in He'. now apply H.
Qed.

Lemma runOps_distinctIds (ops : list (SymptomsCache.Op Analysis)) :
  forall c, SymptomsCache.distinctIds c -> SymptomsCache.distinctIds (SymptomsCache.runOps ops c).
Proof.
  unfold SymptomsCache.runOps.
  induction ops as [|op ops IH]; intros c H; cbn [fold_left]; [exact H|].
  apply IH. now apply applyOp_keeps_distinctIds.
Qed.

Lemma cached_then_read (now now' : Z) (symptoms : SymptomsCache.Symptoms)
    (analysis : Analysis) c :
  SymptomsCache.getCachedAnalysis now' symptoms
    (SymptomsCache.cacheSymptomAnalysis now symptoms analysis c) =
  match SymptomsCache.generateCacheKey symptoms with
  | Some _ => if now' - now <? 3600000 then Some analysis else None
  | None => None
  end.
Proof.
  unfold SymptomsCache.getCachedAnalysis, SymptomsCache.cacheSymptomAnalysis.
  destruct (SymptomsCache.generateCacheKey symptoms) as [k|]; [|reflexivity].
  change k with (SymptomsCache.c_id
                   {| SymptomsCache.c_id := k; SymptomsCache.c_symptoms := symptoms;
                      SymptomsCache.c_analysis := analysis;
                      SymptomsCache.c_timestamp := now |}) at 2.
  rewrite get_put_same. reflexivity.
Qed.

(** X21: a cached analysis is returned for one hour.  After
    [cacheSymptomAnalysis(symptoms, analysis)] at time [now],
    [getCachedAnalysis(symptoms)] at time [now'] returns the analysis exactly
    when less than 3 600 000 ms have passed, and [null] afterwards; symptoms
    with a code unit above 255 are never cached ([btoa] throws, the store is
    left as it was, and the lookup returns [null]); and the answers for
    symptoms with another key are not changed. *)
Theorem cached_analysis_is_returned_for_an_hour
    (now now' : Z) (symptoms : SymptomsCache.Symptoms) (analysis : Analysis) c :
  SymptomsCache.getCachedAnalysis now' symptoms
    (SymptomsCache.cacheSymptomAnalysis now symptoms analysis c) =
    match SymptomsCache.generateCacheKey symptoms with
    | Some _ => if now' - now <? 3600000 then Some analysis else None
    | None => None
    end /\
  (SymptomsCache.generateCacheKey symptoms = None ->
   SymptomsCache.cacheSymptomAnalysis now symptoms analysis c = c) /\
  (forall other,
     SymptomsCache.generateCacheKey other <> SymptomsCache.generateCacheKey symptoms ->
     SymptomsCache.getCachedAnalysis now' other
       (SymptomsCache.cacheSymptomAnalysis now symptoms analysis c) =
     SymptomsCache.getCachedAnalysis now' other c).
Proof.
  split; [apply cached_then_read|]. split.
  - unfold SymptomsCache.cacheSymptomAnalysis. now intros ->.
  - intros other Hne.
    unfold SymptomsCache.getCachedAnalysis, SymptomsCache.cacheSymptomAnalysis.
    destruct (SymptomsCache.generateCacheKey other) as [j|]; [|reflexivity].
    destruct (SymptomsCache.generateCacheKey symptoms) as [k|]; [|reflexivity].
    rewrite get_put_other; [reflexivity|]. cbn [SymptomsCache.c_id]. congruence.
Qed.

(** X22: symptom texts that agree on their first 75 characters share one
    cache entry.  The key is the first 100 characters of the base64 text,
    which encode the first 75 bytes; so for two texts of code units up to
    255 with the same first 75 characters the keys are equal, and the
    analysis cached for one is returned for the other during the hour that
    follows.  An array of symptoms shares its entry with its comma-joined
    text. *)
Theorem long_symptom_texts_share_a_cache_entry
    (now now' : Z) (s s' : list Z) (analysis : Analysis) c :
  firstn 75 s = firstn 75 s' ->
  SymptomsCache.latin1 s = true ->
  SymptomsCache.latin1 s' = true ->
  SymptomsCache.generateCacheKey (SymptomsCache.Text s) =
    SymptomsCache.generateCacheKey (SymptomsCache.Text s') /\
  SymptomsCache.getCachedAnalysis now' (SymptomsCache.Text s')
    (SymptomsCache.cacheSymptomAnalysis now (SymptomsCache.Text s) analysis c) =
    (if now' - now <? 3600000 then Some analysis else None) /\
  (forall items,
     SymptomsCache.generateCacheKey (SymptomsCache.Items items) =
     SymptomsCache.generateCacheKey (SymptomsCache.Text (SymptomsCache.join [44] items))).
Proof.
  intros E L L'. pose proof (key_of_prefix s s' E L L') as K.
  split; [exact K|]. split; [|reflexivity].
  pose proof (cached_then_read now now' (SymptomsCache.Text s) analysis c) as R.
  unfold SymptomsCache.getCachedAnalysis in *. rewrite <- K.
  rewrite R. unfold SymptomsCache.generateCacheKey, SymptomsCache.btoa. now rewrite L.
Qed.

(** X23: clearing the old cache never changes an answer.  For a cache built
    by [cacheSymptomAnalysis] and [clearOldCache] calls from the empty
    store, [clearOldCache(hours)] with [hours] at least 1 (the default is
    24) at time [now] leaves the result of every [getCachedAnalysis] made
    at that time or later as it would have been: the entries it deletes are
    older than the hour for which an entry is valid. *)
Theorem clearOldCache_changes_no_answer
    (ops : list (SymptomsCache.Op Analysis)) (now now' : Z) (hours : option Z)
    (symptoms : SymptomsCache.Symptoms) :
  1 <= match hours with
       | Some n => n
       | None => 24
       end ->
  now <= now' ->
  let c := SymptomsCache.runOps ops [] in
  SymptomsCache.getCachedAnalysis now' symptoms (SymptomsCache.clearOldCache now hours c) =
  SymptomsCache.getCachedAnalysis now' symptoms c.
Proof.
  intros Hh Hn. cbv zeta.
  assert (SymptomsCache.distinctIds (SymptomsCache.runOps ops (@nil (SymptomsCache.CacheEntry Analysis))))
    as Hd by (apply runOps_distinctIds; intros e e' []).
  remember (SymptomsCache.runOps ops []) as c eqn:Ec. clear Ec.
  unfold SymptomsCache.getCachedAnalysis, SymptomsCache.clearOldCache.
  destruct (SymptomsCache.generateCacheKey symptoms) as [j|]; [|reflexivity].
  rewrite get_deleted.
  destruct (existsb _ _) eqn:Ex; [|reflexivity].
  apply existsb_exists in Ex. destruct Ex as (old & Hold & Ej).
  apply String.eqb_eq in Ej. apply filter_In in Hold. destruct Hold as [Hin Hts].
  apply sort_In in Hin. apply Z.leb_le in Hts.
  destruct (SymptomsCache.get c j) as [cached|] eqn:G; [|reflexivity].
  unfold SymptomsCache.get in G. apply find_some in G. destruct G as [Hc Ek].
  apply String.eqb_eq in Ek.
  assert (cached = old) as -> by (apply Hd; congruence).
  replace (now' - SymptomsCache.c_timestamp old <? 60 * 60 * 1000) with false;
    [reflexivity|].
  symmetry. apply Z.ltb_ge. lia.
Qed.

End CacheStore.

Lemma long_symptom_texts_share_a_cache_entry_witness :
  SymptomsCache.generateCacheKey (SymptomsCache.Text (repeat 65 75 ++ [66])) =
    SymptomsCache.generateCacheKey (SymptomsCache.Text (repeat 65 75 ++ [67])) /\
  SymptomsCache.getCachedAnalysis 2000 (SymptomsCache.Text (repeat 65 75 ++ [67]))
    (SymptomsCache.cacheSymptomAnalysis 1000 (SymptomsCache.Text (repeat 65 75 ++ [66]))
       "apply a tourniquet" []) =
    (if 2000 - 1000 <? 3600000 then Some "apply a tourniquet" else None) /\
  (forall items,
     SymptomsCache.generateCacheKey (SymptomsCache.Items items) =
     SymptomsCache.generateCacheKey (SymptomsCache.Text (SymptomsCache.join [44] items))).
Proof.
  apply (long_symptom_texts_share_a_cache_entry 1000 2000 (repeat 65 75 ++ [66])
           (repeat 65 75 ++ [67]) "apply a tourniquet" []); reflexivity.
Defined.

Lemma clearOldCache_changes_no_answer_witness :
  let c := SymptomsCache.runOps
             [SymptomsCache.CacheSymptomAnalysis 1000 (SymptomsCache.Text [98; 117; 114; 110])
                "cool the burn"] [] in
  SymptomsCache.getCachedAnalysis 5000 (SymptomsCache.Text [98; 117; 114; 110])
    (SymptomsCache.clearOldCache 4000 None c) =
  SymptomsCache.getCachedAnalysis 5000 (SymptomsCache.Text [98; 117; 114; 110]) c.
Proof.
  apply (clearOldCache_changes_no_answer
           [SymptomsCache.CacheSymptomAnalysis 1000 (SymptomsCache.Text [98; 117; 114; 110])
              "cool the burn"] 4000 5000 None (SymptomsCache.Text [98; 117; 114; 110]));
    cbn; lia.
Defined.
